(** * NumpyArray: a shallow embedding of [src/libawkward/array/NumpyArray.cpp]

    The leaf node of the awkward-array tree: a shaped, strided, typed window
    over a shared byte buffer.  The development follows the C++ source
    function by function.  Conventions:

    - [ssize_t] and [int64_t] values are integers in [Z].  Signed overflow is
      undefined behaviour in C++, so the model describes the executions in
      which no arithmetic overflows.  Integer division is [Z.quot], which
      truncates as C++ does; a division by zero, undefined in C++, is [0].
    - [std::vector<ssize_t>] is [list Z]; [v[i]] is [v @ i].  An index outside
      the vector is undefined behaviour in C++; the model reads [0] there.
    - raw memory behind a [std::shared_ptr<void>] is a [list Byte.byte]; a read
      outside the allocation (undefined behaviour) yields [x00].
    - a C++ function that may throw returns an [outcome].  A call that
      leaves the functions embedded here, for a sibling node class or for the
      carry path of [getitem], is recorded as [Delegated]; a recursion that
      is not structural takes a budget, and [OutOfFuel] marks its end, which
      the properties show is never reached.
    - declarations the file includes but that are not part of it ([util.h],
      the cpu-kernels, [Identities], [Slice]) are modelled from the
      specification and marked as such. *)

From Stdlib Require Import ZArith List String Ascii Bool Lia.
From stdpp Require Import base option list gmap strings pretty.

Open Scope Z_scope.

(** ** Vectors and raw memory *)

Definition vec_at (v : list Z) (i : nat) : Z := nth i v 0.
Infix "@" := vec_at (at level 20, no associativity).

Abbreviation buffer := (list Byte.byte).

Definition getbyte_raw (b : buffer) (i : Z) : Byte.byte :=
  if i <? 0 then Byte.x00 else nth (Z.to_nat i) b Byte.x00.

(** [len] bytes of [b] starting at byte position [pos]
    (the source of a [memcpy]). *)
Definition read_bytes (b : buffer) (pos len : Z) : list Byte.byte :=
  map (fun k : nat => getbyte_raw b (pos + Z.of_nat k)) (seq 0 (Z.to_nat len)).

(** ** [awkward/common.h] *)

Module common.

Record Error := mkError {
  str : option string;       (* nullptr is None *)
  identity : Z;
  attempt : Z;
  pass_through : bool
}.

Definition kMaxInt64 : Z := 9223372036854775806.
Definition kSliceNone : Z := kMaxInt64 + 1.

Definition success : Error :=
  {| str := None; identity := kSliceNone; attempt := kSliceNone;
     pass_through := false |}.

Definition failure (s : string) (identity attempt : Z) : Error :=
  {| str := Some s; identity := identity; attempt := attempt;
     pass_through := false |}.

End common.
Export common.

(** ** Exceptions and outcomes *)

Inductive exception : Type :=
| invalid_argument (what : string)     (* std::invalid_argument *)
| runtime_error (what : string).       (* std::runtime_error *)

Definition what_of (e : exception) : string :=
  match e with invalid_argument w | runtime_error w => w end.

Inductive outcome (A : Type) : Type :=
| Returned (a : A)
| Thrown (e : exception)
| Delegated (callee : string)   (* the call continues outside the model *)
| OutOfFuel.                    (* recursion budget of the model used up *)
Arguments Returned {A} a.
Arguments Thrown {A} e.
Arguments Delegated {A} callee.
Arguments OutOfFuel {A}.

Definition bind {A B} (m : outcome A) (k : A -> outcome B) : outcome B :=
  match m with
  | Returned a => k a
  | Thrown e => Thrown e
  | Delegated c => Delegated c
  | OutOfFuel => OutOfFuel
  end.

Notation "'do' x <- m ; k" := (bind m (fun x => k))
  (at level 10, x name, m at level 100, k at level 200).
Notation "'check' m ; k" := (bind m (fun _ => k))
  (at level 10, m at level 100, k at level 200).

Definition returns {A} (m : outcome A) : Prop := exists a, m = Returned a.

(** ** [awkward/util.h] *)

Module util.

(** Modelled from the spec: the element types of [util::dtype], declared in
    [awkward/util.h]; the enumerators are those that [NumpyArray.cpp]
    names. *)
Inductive dtype : Set :=
| NOT_PRIMITIVE
| boolean
| int8 | int16 | int32 | int64
| uint8 | uint16 | uint32 | uint64
| float16 | float32 | float64 | float128
| complex64 | complex128 | complex256.

#[global] Instance dtype_eq_dec : EqDecision dtype.
Proof. solve_decision. Defined.

Definition dtype_eqb (a b : dtype) : bool := bool_decide (a = b).

(** Modelled from the spec: [util::is_signed], the signed integer types. *)
Definition is_signed (dt : dtype) : bool :=
  match dt with
  | int8 | int16 | int32 | int64 => true
  | _ => false
  end.

(** Modelled from the spec: [util::is_integer], the integers of 64 bits or
    narrower, signed or unsigned. *)
Definition is_integer (dt : dtype) : bool :=
  match dt with
  | int8 | int16 | int32 | int64 | uint8 | uint16 | uint32 | uint64 => true
  | _ => false
  end.

(** Modelled from the spec: [util::is_complex], "any complex". *)
Definition is_complex (dt : dtype) : bool :=
  match dt with
  | complex64 | complex128 | complex256 => true
  | _ => false
  end.

(** Modelled from the spec: [util::dtype_to_itemsize], the width in bytes
    that the name of each type states. *)
Definition dtype_to_itemsize (dt : dtype) : Z :=
  match dt with
  | NOT_PRIMITIVE => 0
  | boolean => 1
  | int8 => 1 | int16 => 2 | int32 => 4 | int64 => 8
  | uint8 => 1 | uint16 => 2 | uint32 => 4 | uint64 => 8
  | float16 => 2 | float32 => 4 | float64 => 8 | float128 => 16
  | complex64 => 8 | complex128 => 16 | complex256 => 32
  end.

(** Modelled from the spec: [util::dtype_to_name]. *)
Definition dtype_to_name (dt : dtype) : string :=
  match dt with
  | NOT_PRIMITIVE => "unknown"
  | boolean => "bool"
  | int8 => "int8" | int16 => "int16" | int32 => "int32" | int64 => "int64"
  | uint8 => "uint8" | uint16 => "uint16" | uint32 => "uint32"
  | uint64 => "uint64"
  | float16 => "float16" | float32 => "float32" | float64 => "float64"
  | float128 => "float128"
  | complex64 => "complex64" | complex128 => "complex128"
  | complex256 => "complex256"
  end.

(** Modelled from the spec: [util::dtype_to_format], the buffer-protocol
    format string of a type (Linux spelling). *)
Definition dtype_to_format (dt : dtype) : string :=
  match dt with
  | NOT_PRIMITIVE => ""
  | boolean => "?"
  | int8 => "b" | int16 => "h" | int32 => "i" | int64 => "l"
  | uint8 => "B" | uint16 => "H" | uint32 => "I" | uint64 => "L"
  | float16 => "e" | float32 => "f" | float64 => "d" | float128 => "g"
  | complex64 => "Zf" | complex128 => "Zd" | complex256 => "Zg"
  end.

(** [util::Parameters] is a [std::map<std::string, std::string>] from a
    parameter name to its JSON text. *)
Abbreviation Parameters := (gmap string string).

(** Modelled from the spec: [util::parameter_equals]; a parameter that is
    absent has the JSON value [null]. *)
Definition parameter_of (p : Parameters) (key : string) : string :=
  default "null" (p !! key).

Definition parameter_equals (p : Parameters) (key value : string) : bool :=
  bool_decide (parameter_of p key = value).

(** Modelled from the spec: [util::parameters_equal], every key of either
    map has equal values in both. *)
Definition parameters_equal (p q : Parameters) : bool :=
  forallb (fun k => parameter_equals q k (parameter_of p k))
          (map fst (map_to_list p) ++ map fst (map_to_list q)).

(** Modelled from the spec: [util::handle_error], which turns the [Error]
    a kernel hands back into an exception that carries the operation's
    class name, the offending index and the kernel's message. *)
Definition handle_error (err : Error) (classname : string)
    (has_identities : bool) : outcome unit :=
  match str err with
  | None => Returned tt
  | Some s =>
      Thrown (invalid_argument
        ("in " ++ classname
         ++ (if negb (identity err =? kSliceNone) && has_identities
             then " with identity at " ++ pretty (identity err) else "")
         ++ (if negb (attempt err =? kSliceNone)
             then " attempting to get " ++ pretty (attempt err) else "")
         ++ ", " ++ s))
  end.

End util.
Export util.

(** ** The error taxonomy of the specification *)

Inductive ErrorKind : Set :=
| ShapeError | IndexError | TypeError | NotImplemented.

Fixpoint contains (p s : string) : bool :=
  String.prefix p s
  || match s with
     | EmptyString => false
     | String _ s' => contains p s'
     end.

(** Modelled from the spec: the source throws [std::invalid_argument] and
    [std::runtime_error] only; the spec (section 7) names an error after the
    condition that its message reports. *)
Definition error_is (k : ErrorKind) (e : exception) : bool :=
  let w := what_of e in
  match k with
  | IndexError => contains "index out of range" w
  | ShapeError =>
      contains "len(shape)" w
      || contains "a scalar" w
      || contains "Numpy scalars" w
      || contains "different shapes" w
      || contains "too many dimensions" w
  | TypeError =>
      contains "by field name" w || contains "cannot merge Numpy format" w
  | NotImplemented => contains "FIXME" w
  end.

Definition raises {A} (m : outcome A) (k : ErrorKind) : Prop :=
  exists e, m = Thrown e /\ error_is k e = true.

(** ** [Identities] and [Index64] *)

(** [Index64]: its elements, seen from its own offset. *)
Abbreviation Index64 := (list Z).
Abbreviation Index8 := (list Z).

Module Identities.

(** Modelled from the spec: an [Identities] is a per-element provenance
    index array, one row for each element of the leading dimension. *)
Definition t := list (list Z).

(** Modelled from the spec: [Identities::length], the number of rows. *)
Definition length (ids : t) : Z := Z.of_nat (List.length ids).

(** Modelled from the spec: [Identities::getitem_range_nowrap], the same
    selection that the view makes along its leading dimension. *)
Definition getitem_range_nowrap (ids : t) (start stop : Z) : t :=
  take (Z.to_nat (stop - start)) (drop (Z.to_nat start) ids).

(** Modelled from the spec: [Identities::getitem_carry_64], the rows that a
    carry names, with the bounds check of the spec's IndexError. *)
Fixpoint getitem_carry_64 (ids : t) (carry : Index64) : outcome t :=
  match carry with
  | [] => Returned []
  | c :: carry' =>
      if (c <? 0) || (length ids <=? c)
      then Thrown (invalid_argument
                     ("in Identities64 attempting to get " ++ pretty c
                      ++ ", index out of range"))
      else do rest <- getitem_carry_64 ids carry';
           Returned (nth (Z.to_nat c) ids [] :: rest)
  end.

End Identities.

Definition IdentitiesPtr := option Identities.t.

(** ** The kernels that move bytes and positions *)

Module kernel.

Inductive Lib : Set := cpu_kernels | cuda_kernels.

(** The kernels below are declared in [awkward/cpu-kernels/getitem.h] and
    [operations.h]; each hands back an [Error] and fills the buffer that the
    caller allocated, which the model returns. *)

(** Modelled from the spec: the byte position of each element of the
    outermost dimension, [toptr[i] = i*stride]. *)
Definition NumpyArray_contiguous_init_64 (skip stride : Z)
    : Error * Index64 :=
  (success, map (fun i : nat => Z.of_nat i * stride) (seq 0 (Z.to_nat skip))).

(** Modelled from the spec: the byte-position map one dimension further in,
    [topos[i*skip + j] = frompos[i] + j*stride]. *)
Definition NumpyArray_contiguous_next_64 (frompos : Index64)
    (len skip stride : Z) : Error * Index64 :=
  (success,
   flat_map (fun p => map (fun j : nat => p + Z.of_nat j * stride)
                          (seq 0 (Z.to_nat skip)))
            (take (Z.to_nat len) frompos)).

(** Modelled from the spec: the backend gather/copy,
    [memcpy(&toptr[i*stride], &fromptr[offset + pos[i]], stride)]. *)
Definition NumpyArray_contiguous_copy_64 (fromptr : buffer)
    (len stride offset : Z) (pos : Index64) : Error * buffer :=
  (success,
   flat_map (fun p => read_bytes fromptr (offset + p) stride)
            (take (Z.to_nat len) pos)).

(** Modelled from the spec: the gather of whole leading-dimension items that
    a carry describes,
    [memcpy(&toptr[i*stride], &fromptr[offset + pos[i]*stride], stride)]. *)
Definition NumpyArray_getitem_next_null_64 (fromptr : buffer)
    (len stride offset : Z) (pos : Index64) : Error * buffer :=
  (success,
   flat_map (fun p => read_bytes fromptr (offset + p * stride) stride)
            (take (Z.to_nat len) pos)).

(** Modelled from the spec: the half-open, sign-aware normalisation of
    ordinary range slicing.  A missing bound takes the end that the
    direction of the step selects, a negative bound counts from the end,
    and both are clamped to the extent. *)
Definition regularize_rangeslice (start stop : Z)
    (posstep hasstart hasstop : bool) (length : Z) : Z * Z :=
  if posstep then
    let start := if negb hasstart then 0
                 else if start <? 0 then start + length else start in
    let start := if start <? 0 then 0 else start in
    let start := if length <? start then length else start in
    let stop := if negb hasstop then length
                else if stop <? 0 then stop + length else stop in
    let stop := if stop <? 0 then 0 else stop in
    let stop := if length <? stop then length else stop in
    let stop := if stop <? start then start else stop in
    (start, stop)
  else
    let start := if negb hasstart then length - 1
                 else if start <? 0 then start + length else start in
    let start := if start <? -1 then -1 else start in
    let start := if length - 1 <? start then length - 1 else start in
    let stop := if negb hasstop then -1
                else if stop <? 0 then stop + length else stop in
    let stop := if stop <? -1 then -1 else stop in
    let stop := if length - 1 <? stop then length - 1 else stop in
    let stop := if start <? stop then start else stop in
    (start, stop).

End kernel.

(** ** The view *)

Record NumpyArray : Type := Build_NumpyArray {
  identities_ : IdentitiesPtr;
  parameters_ : Parameters;
  ptr_ : buffer;
  shape_ : list Z;
  strides_ : list Z;
  byteoffset_ : Z;
  itemsize_ : Z;
  format_ : string;
  dtype_ : dtype;
  ptr_lib_ : kernel.Lib
}.

(** [NumpyArray::NumpyArray]; every construction site of the source goes
    through it. *)
Definition NumpyArray_new (identities : IdentitiesPtr)
    (parameters : Parameters) (ptr : buffer) (shape strides : list Z)
    (byteoffset itemsize : Z) (format : string) (dtype : dtype)
    (ptr_lib : kernel.Lib) : outcome NumpyArray :=
  if negb (length shape =? length strides)%nat then
    Thrown (invalid_argument
      ("len(shape), which is " ++ pretty (length shape)
       ++ ", must be equal to len(strides), which is "
       ++ pretty (length strides)))
  else
    Returned (Build_NumpyArray identities parameters ptr shape strides
                byteoffset itemsize format dtype ptr_lib).

(** The constructor with [ptr_lib] left at its default. *)
Definition NumpyArray_make identities parameters ptr shape strides
    byteoffset itemsize format dtype : outcome NumpyArray :=
  NumpyArray_new identities parameters ptr shape strides byteoffset itemsize
    format dtype kernel.cpu_kernels.

(** The nodes of the tree that [NumpyArray.cpp] builds or inspects.  A sibling
    class that the file only tests for with [dynamic_cast] is a [CSibling]
    with its class name. *)
Inductive Content : Type :=
| CNumpyArray (a : NumpyArray)
| CEmptyArray (parameters : Parameters)
| CRegularArray (identities : IdentitiesPtr) (parameters : Parameters)
    (content : Content) (size : Z)
| CByteMaskedArray (identities : IdentitiesPtr) (parameters : Parameters)
    (mask : Index8) (content : Content) (valid_when : bool)
| CVirtualArray (array : Content)
| CSibling (classname : string) (parameters : Parameters).

Fixpoint Content_parameters (c : Content) : Parameters :=
  match c with
  | CNumpyArray a => parameters_ a
  | CEmptyArray p => p
  | CRegularArray _ p _ _ => p
  | CByteMaskedArray _ p _ _ _ => p
  | CVirtualArray a => Content_parameters a
  | CSibling _ p => p
  end.

Definition Content_classname (c : Content) : string :=
  match c with
  | CNumpyArray _ => "NumpyArray"
  | CEmptyArray _ => "EmptyArray"
  | CRegularArray _ _ _ _ => "RegularArray"
  | CByteMaskedArray _ _ _ _ _ => "ByteMaskedArray"
  | CVirtualArray _ => "VirtualArray"
  | CSibling n _ => n
  end.

Definition classname : string := "NumpyArray".

Definition has_identities (self : NumpyArray) : bool :=
  bool_decide (identities_ self <> None).

Definition ndim (self : NumpyArray) : Z := Z.of_nat (length (shape_ self)).

(** [NumpyArray::isempty] *)
Definition isempty (self : NumpyArray) : bool :=
  existsb (fun x => x =? 0) (shape_ self).

(** [NumpyArray::isscalar] *)
Definition isscalar (self : NumpyArray) : bool := ndim self =? 0.

(** [NumpyArray::length] *)
Definition NumpyArray_length (self : NumpyArray) : Z :=
  if isscalar self then -1 else shape_ self @ 0.

(** [NumpyArray::bytelength] *)
Definition bytelength (self : NumpyArray) : Z :=
  if isscalar self then itemsize_ self
  else shape_ self @ 0 * strides_ self @ 0.

(** [NumpyArray::shallow_copy] *)
Definition shallow_copy (self : NumpyArray) : outcome NumpyArray :=
  NumpyArray_make (identities_ self) (parameters_ self) (ptr_ self)
    (shape_ self) (strides_ self) (byteoffset_ self) (itemsize_ self)
    (format_ self) (dtype_ self).

(** [NumpyArray::iscontiguous]: the loop runs [i] from [ndim() - 1] down to
    [0]; [iscontiguous_loop] takes [i + 1]. *)
Fixpoint iscontiguous_loop (shape strides : list Z) (i1 : nat) (x : Z) : bool :=
  match i1 with
  | O => true
  | S i =>
      if negb (x =? strides @ i) then false
      else iscontiguous_loop shape strides i (x * shape @ i)
  end.

Definition iscontiguous (self : NumpyArray) : bool :=
  iscontiguous_loop (shape_ self) (strides_ self)
    (length (shape_ self)) (itemsize_ self).

Definition Index_length (i : list Z) : Z := Z.of_nat (length i).

(** [flatten_shape] and [flatten_strides] *)
Definition flatten_shape (shape : list Z) : list Z :=
  if (length shape =? 1)%nat then []
  else (shape @ 0 * shape @ 1) :: drop 2 shape.

Definition flatten_strides (strides : list Z) : list Z :=
  if (length strides =? 1)%nat then []
  else drop 1 strides.

(** [NumpyArray::contiguous_next]; each call takes one unit of [fuel]. *)
Fixpoint contiguous_next (fuel : nat) (self : NumpyArray) (bytepos : Index64)
    : outcome NumpyArray :=
  match fuel with
  | O => OutOfFuel
  | S fuel' =>
      if iscontiguous self then
        let '(err, ptr) :=
          kernel.NumpyArray_contiguous_copy_64 (ptr_ self)
            (Index_length bytepos) (strides_ self @ 0) (byteoffset_ self)
            bytepos in
        check handle_error err classname (has_identities self);
        NumpyArray_make (identities_ self) (parameters_ self) ptr
          (shape_ self) (strides_ self) 0 (itemsize_ self) (format_ self)
          (dtype_ self)
      else if (length (shape_ self) =? 1)%nat then
        let '(err, ptr) :=
          kernel.NumpyArray_contiguous_copy_64 (ptr_ self)
            (Index_length bytepos) (itemsize_ self) (byteoffset_ self)
            bytepos in
        check handle_error err classname (has_identities self);
        let strides := [itemsize_ self] in
        NumpyArray_make (identities_ self) (parameters_ self) ptr
          (shape_ self) strides 0 (itemsize_ self) (format_ self)
          (dtype_ self)
      else
        do next <- NumpyArray_make (identities_ self) (parameters_ self)
                     (ptr_ self) (flatten_shape (shape_ self))
                     (flatten_strides (strides_ self)) (byteoffset_ self)
                     (itemsize_ self) (format_ self) (dtype_ self);
        let '(err, nextbytepos) :=
          kernel.NumpyArray_contiguous_next_64 bytepos (Index_length bytepos)
            (shape_ self @ 1) (strides_ self @ 1) in
        check handle_error err classname (has_identities self);
        do out <- contiguous_next fuel' next nextbytepos;
        let outstrides := (shape_ self @ 1 * strides_ out @ 0)
                          :: strides_ out in
        NumpyArray_make (identities_ out) (parameters_ out) (ptr_ out)
          (shape_ self) outstrides (byteoffset_ out) (itemsize_ self)
          (format_ self) (dtype_ self)
  end.

(** [NumpyArray::contiguous]; the recursion of [contiguous_next] drops one
    dimension at each call, so [ndim()] calls are its budget. *)
Definition contiguous (self : NumpyArray) : outcome NumpyArray :=
  if iscontiguous self then
    NumpyArray_make (identities_ self) (parameters_ self) (ptr_ self)
      (shape_ self) (strides_ self) (byteoffset_ self) (itemsize_ self)
      (format_ self) (dtype_ self)
  else
    let '(err, bytepos) :=
      kernel.NumpyArray_contiguous_init_64 (shape_ self @ 0)
        (strides_ self @ 0) in
    check handle_error err classname (has_identities self);
    contiguous_next (length (shape_ self)) self bytepos.

(** [NumpyArray::toRegularArray] *)
Fixpoint toRegularArray_loop (shape : list Z) (i : nat) (out : Content)
    : Content :=
  match i with
  | O => out
  | S i' =>
      toRegularArray_loop shape i' (CRegularArray None ∅ out (shape @ i))
  end.

Definition toRegularArray (self : NumpyArray) : outcome Content :=
  if isscalar self then
    do c <- shallow_copy self; Returned (CNumpyArray c)
  else
    do contiguous_self <- contiguous self;
    let flatshape := [fold_left (fun acc x => acc * x) (shape_ self) 1] in
    let flatstrides := [itemsize_ self] in
    do out <- NumpyArray_make (identities_ self) (parameters_ self)
                (ptr_ contiguous_self) flatshape flatstrides
                (byteoffset_ contiguous_self) (itemsize_ contiguous_self)
                (format_ contiguous_self) (dtype_ contiguous_self);
    Returned (toRegularArray_loop (shape_ self)
                (length (shape_ self) - 1)%nat (CNumpyArray out)).

(** [NumpyArray::getitem_at_nowrap] *)
Definition getitem_at_nowrap (self : NumpyArray) (at_ : Z)
    : outcome NumpyArray :=
  let byteoffset := byteoffset_ self + strides_ self @ 0 * at_ in
  let shape := drop 1 (shape_ self) in
  let strides := drop 1 (strides_ self) in
  do identities <-
    match identities_ self with
    | Some ids =>
        check (if Identities.length ids <=? at_
               then handle_error (failure "index out of range" kSliceNone at_)
                      "Identities" false
               else Returned tt);
        Returned (Some (Identities.getitem_range_nowrap ids at_ (at_ + 1)))
    | None => Returned None
    end;
  NumpyArray_make identities (parameters_ self) (ptr_ self) shape strides
    byteoffset (itemsize_ self) (format_ self) (dtype_ self).

(** [NumpyArray::getitem_at] *)
Definition getitem_at (self : NumpyArray) (at_ : Z) : outcome NumpyArray :=
  let regular_at := at_ in
  let regular_at :=
    if regular_at <? 0 then regular_at + shape_ self @ 0 else regular_at in
  check (if (regular_at <? 0) || (shape_ self @ 0 <=? regular_at)
         then handle_error (failure "index out of range" kSliceNone at_)
                classname (has_identities self)
         else Returned tt);
  getitem_at_nowrap self regular_at.

(** [NumpyArray::carry] *)
Definition carry (self : NumpyArray) (carry : Index64) (allow_lazy : bool)
    : outcome NumpyArray :=
  let '(err, ptr) :=
    kernel.NumpyArray_getitem_next_null_64 (ptr_ self) (Index_length carry)
      (strides_ self @ 0) (byteoffset_ self) carry in
  check handle_error err classname (has_identities self);
  do identities <-
    match identities_ self with
    | Some ids => do r <- Identities.getitem_carry_64 ids carry;
                  Returned (Some r)
    | None => Returned None
    end;
  let shape := Index_length carry :: drop 1 (shape_ self) in
  NumpyArray_make identities (parameters_ self) ptr shape (strides_ self) 0
    (itemsize_ self) (format_ self) (dtype_ self).

(** ** Slices *)

Module Slice.

(** [Slice::none()], the marker of a missing bound. *)
Definition none : Z := kSliceNone.

(** Modelled from the spec: the closed union of slice items. *)
Inductive SliceItem : Type :=
| SliceAt (at_ : Z)
| SliceRange (start stop step : Z)
| SliceEllipsis
| SliceNewAxis
| SliceArray64 (index : Index64) (shape : list Z)
| SliceField (key : string)
| SliceFields (keys : list string)
| SliceMissing64 (index : Index64) (content : SliceItem)
| SliceJagged64 (offsets : Index64) (content : SliceItem).

Definition hasstart (start : Z) : bool := negb (start =? none).
Definition hasstop (stop : Z) : bool := negb (stop =? none).

Abbreviation t := (list SliceItem).

Definition head (s : t) : option SliceItem := List.head s.
Definition tail (s : t) : t := drop 1 s.
Definition length (s : t) : Z := Z.of_nat (List.length s).

(** Modelled from the spec: the number of dimensions that the items of a
    slice consume. *)
Definition dimlength (s : t) : Z :=
  fold_left (fun out x => match x with
                          | SliceAt _ | SliceRange _ _ _ | SliceArray64 _ _ =>
                              out + 1
                          | _ => out
                          end) s 0.

(** Modelled from the spec: a slice is advanced when it holds an array
    index. *)
Definition isadvanced (s : t) : bool :=
  existsb (fun x => match x with SliceArray64 _ _ => true | _ => false end) s.

End Slice.
Export Slice(SliceItem, SliceAt, SliceRange, SliceEllipsis, SliceNewAxis,
             SliceArray64, SliceField, SliceFields, SliceMissing64,
             SliceJagged64).

(** [Content::minmax_depth] through [NumpyArray::form] and
    [NumpyForm::minmax_depth]: the inner shape has one entry fewer than the
    shape. *)
Definition minmax_depth (self : NumpyArray) : Z * Z :=
  let inner_shape := drop 1 (shape_ self) in
  (Z.of_nat (length inner_shape) + 1, Z.of_nat (length inner_shape) + 1).

Definition too_many_dimensions (self : NumpyArray) : outcome unit :=
  if ndim self <? 2 then
    handle_error (failure "too many dimensions in slice" kSliceNone kSliceNone)
      classname (has_identities self)
  else Returned tt.

Section getitem_bystrides.

(** The dispatching overload, which each of the four others calls back. *)
Variable dispatch :
  NumpyArray -> option SliceItem -> Slice.t -> Z -> outcome NumpyArray.

(** [NumpyArray::getitem_bystrides(const SliceAt&, ...)] *)
Definition getitem_bystrides_at (self : NumpyArray) (at_ : Z)
    (tail : Slice.t) (length : Z) : outcome NumpyArray :=
  check too_many_dimensions self;
  let i := at_ in
  let i := if i <? 0 then i + shape_ self @ 1 else i in
  check (if (i <? 0) || (shape_ self @ 1 <=? i)
         then handle_error (failure "index out of range" kSliceNone at_)
                classname (has_identities self)
         else Returned tt);
  let nextbyteoffset := byteoffset_ self + i * strides_ self @ 1 in
  do next <- NumpyArray_make (identities_ self) (parameters_ self)
               (ptr_ self) (flatten_shape (shape_ self))
               (flatten_strides (strides_ self)) nextbyteoffset
               (itemsize_ self) (format_ self) (dtype_ self);
  let nexthead := Slice.head tail in
  let nexttail := Slice.tail tail in
  do out <- dispatch next nexthead nexttail length;
  let outshape := length :: drop 1 (shape_ out) in
  NumpyArray_make (identities_ out) (parameters_ out) (ptr_ out) outshape
    (strides_ out) (byteoffset_ out) (itemsize_ self) (format_ self)
    (dtype_ self).

(** The extent that a range selects: [d + (m != 0 ? 1 : 0)]. *)
Definition range_lenhead (start stop step : Z) : Z :=
  let numer := Z.abs (start - stop) in
  let denom := Z.abs step in
  let d := Z.quot numer denom in
  let m := Z.rem numer denom in
  d + (if negb (m =? 0) then 1 else 0).

(** [NumpyArray::getitem_bystrides(const SliceRange&, ...)] *)
Definition getitem_bystrides_range (self : NumpyArray)
    (range_start range_stop range_step : Z) (tail : Slice.t) (length : Z)
    : outcome NumpyArray :=
  check too_many_dimensions self;
  let start := range_start in
  let stop := range_stop in
  let step := range_step in
  let step := if step =? Slice.none then 1 else step in
  let '(start, stop) :=
    kernel.regularize_rangeslice start stop (0 <? step)
      (Slice.hasstart range_start) (Slice.hasstop range_stop)
      (shape_ self @ 1) in
  let lenhead := range_lenhead start stop step in
  let nextbyteoffset := byteoffset_ self + start * strides_ self @ 1 in
  do next <- NumpyArray_make (identities_ self) (parameters_ self)
               (ptr_ self) (flatten_shape (shape_ self))
               (flatten_strides (strides_ self)) nextbyteoffset
               (itemsize_ self) (format_ self) (dtype_ self);
  let nexthead := Slice.head tail in
  let nexttail := Slice.tail tail in
  do out <- dispatch next nexthead nexttail (length * lenhead);
  let outshape := length :: lenhead :: drop 1 (shape_ out) in
  let outstrides := strides_ self @ 0 :: strides_ self @ 1 * step
                    :: drop 1 (strides_ out) in
  NumpyArray_make (identities_ out) (parameters_ out) (ptr_ out) outshape
    outstrides (byteoffset_ out) (itemsize_ self) (format_ self)
    (dtype_ self).

(** [NumpyArray::getitem_bystrides(const SliceEllipsis&, ...)] *)
Definition getitem_bystrides_ellipsis (self : NumpyArray) (tail : Slice.t)
    (length : Z) : outcome NumpyArray :=
  let mindepth := fst (minmax_depth self) in
  if (Slice.length tail =? 0) || (mindepth - 1 =? Slice.dimlength tail) then
    let nexthead := Slice.head tail in
    let nexttail := Slice.tail tail in
    dispatch self nexthead nexttail length
  else
    let items := SliceEllipsis :: tail in
    let nexthead := Some (SliceRange Slice.none Slice.none 1) in
    let nexttail := items in
    dispatch self nexthead nexttail length.

(** [NumpyArray::getitem_bystrides(const SliceNewAxis&, ...)] *)
Definition getitem_bystrides_newaxis (self : NumpyArray) (tail : Slice.t)
    (length : Z) : outcome NumpyArray :=
  let nexthead := Slice.head tail in
  let nexttail := Slice.tail tail in
  do out <- dispatch self nexthead nexttail length;
  let outshape := length :: 1 :: drop 1 (shape_ out) in
  let outstrides := strides_ out @ 0 :: strides_ out in
  NumpyArray_make (identities_ out) (parameters_ out) (ptr_ out) outshape
    outstrides (byteoffset_ out) (itemsize_ self) (format_ self)
    (dtype_ self).

End getitem_bystrides.

(** [NumpyArray::getitem_bystrides(const SliceItemPtr&, ...)]; each dispatch
    takes one unit of [fuel]. *)
Fixpoint getitem_bystrides (fuel : nat) (self : NumpyArray)
    (head : option SliceItem) (tail : Slice.t) (length : Z)
    : outcome NumpyArray :=
  match fuel with
  | O => OutOfFuel
  | S fuel' =>
      match head with
      | None =>
          NumpyArray_make (identities_ self) (parameters_ self) (ptr_ self)
            (shape_ self) (strides_ self) (byteoffset_ self) (itemsize_ self)
            (format_ self) (dtype_ self)
      | Some (SliceAt at_) =>
          getitem_bystrides_at (getitem_bystrides fuel') self at_ tail length
      | Some (SliceRange start stop step) =>
          getitem_bystrides_range (getitem_bystrides fuel') self
            start stop step tail length
      | Some SliceEllipsis =>
          getitem_bystrides_ellipsis (getitem_bystrides fuel') self tail length
      | Some SliceNewAxis =>
          getitem_bystrides_newaxis (getitem_bystrides fuel') self tail length
      | Some _ =>
          Thrown (runtime_error
            "unrecognized slice item type for NumpyArray::getitem_bystrides")
      end
  end.

(** [getitem_too_general]; a tail that is used up has a null head. *)
Fixpoint getitem_too_general (head : option SliceItem) (tail : Slice.t)
    : bool :=
  match head with
  | None => false
  | Some (SliceMissing64 _ _) | Some (SliceJagged64 _ _) => true
  | Some _ =>
      match tail with
      | [] => false
      | x :: tail' => getitem_too_general (Some x) tail'
      end
  end.

(** The dispatches that one by-strides resolution can take: two for each
    dimension of the view and one for each item of the slice, and the last,
    null one. *)
Definition getitem_bystrides_fuel (self : NumpyArray) (where_ : Slice.t)
    : nat :=
  (2 * length (shape_ self) + length where_ + 4)%nat.

(** [NumpyArray::getitem] *)
Definition getitem (self : NumpyArray) (where_ : Slice.t) : outcome Content :=
  if isscalar self then
    Thrown (runtime_error "cannot get-item on a scalar")
  else if getitem_too_general (Slice.head where_) (Slice.tail where_) then
    if ndim self =? 1 then Delegated "Content::getitem"
    else
      check toRegularArray self;
      Delegated "RegularArray::getitem"
  else if negb (Slice.isadvanced where_) && negb (has_identities self) then
    let nextshape := 1 :: shape_ self in
    let nextstrides := shape_ self @ 0 * strides_ self @ 0 :: strides_ self in
    do next <- NumpyArray_make (identities_ self) (parameters_ self)
                 (ptr_ self) nextshape nextstrides (byteoffset_ self)
                 (itemsize_ self) (format_ self) (dtype_ self);
    let nexthead := Slice.head where_ in
    let nexttail := Slice.tail where_ in
    do out <- getitem_bystrides (getitem_bystrides_fuel next where_) next
                nexthead nexttail 1;
    let outshape := drop 1 (shape_ out) in
    let outstrides := drop 1 (strides_ out) in
    do r <- NumpyArray_make (identities_ out) (parameters_ out) (ptr_ out)
              outshape outstrides (byteoffset_ out) (itemsize_ self)
              (format_ self) (dtype_ self);
    Returned (CNumpyArray r)
  else
    do safe <- contiguous self;
    let nextshape := 1 :: shape_ safe in
    let nextstrides := shape_ safe @ 0 * strides_ safe @ 0 :: strides_ safe in
    check NumpyArray_make (identities_ safe) (parameters_ safe) (ptr_ safe)
            nextshape nextstrides (byteoffset_ safe) (itemsize_ self)
            (format_ self) (dtype_ self);
    Delegated "NumpyArray::getitem_next".

(** ** Merging *)

(** The promotion chain of [NumpyArray::merge]: the value of the local
    [dtype], or [None] where the chain ends in its throwing [else]. *)
Definition merge_dtype (dtype_ other : dtype) : option dtype :=
  let same (a b : dtype) : bool := dtype_eqb a b in
  if same dtype_ complex256 || same other complex256 then Some complex256
  else if (same dtype_ float128 && is_complex other)
          || (same other float128 && is_complex dtype_) then Some complex256
  else if same dtype_ complex128 || same other complex128 then Some complex128
  else if ((same dtype_ float64 || same dtype_ uint64 || same dtype_ int64
            || same dtype_ uint32 || same dtype_ int32) && is_complex other)
          || ((same other float64 || same other uint64 || same other int64
               || same other uint32 || same other int32) && is_complex dtype_)
       then Some complex128
  else if same dtype_ complex64 || same other complex64 then Some complex64
  else if same dtype_ float128 || same other float128 then Some float128
  else if same dtype_ float64 || same other float64 then Some float64
  else if (same dtype_ float32
           && (same other uint64 || same other int64 || same other uint32
               || same other int32))
          || (same other float32
              && (same dtype_ uint64 || same dtype_ int64 || same dtype_ uint32
                  || same dtype_ int32)) then Some float64
  else if same dtype_ float32 || same other float32 then Some float32
  else if (same dtype_ float16
           && (same other uint64 || same other int64 || same other uint32
               || same other int32))
          || (same other float16
              && (same dtype_ uint64 || same dtype_ int64 || same dtype_ uint32
                  || same dtype_ int32)) then Some float64
  else if (same dtype_ float16 && (same other uint16 || same other int16))
          || (same other float16 && (same dtype_ uint16 || same dtype_ int16))
       then Some float32
  else if same dtype_ float16 || same other float16 then Some float16
  else if (same dtype_ uint64 && is_signed other)
          || (same other uint64 && is_signed dtype_) then Some float64
  else if same dtype_ uint64 || same other uint64 then Some uint64
  else if same dtype_ int64 || same other int64 then Some int64
  else if (same dtype_ uint32 && is_signed other)
          || (same other uint32 && is_signed dtype_) then Some int64
  else if same dtype_ uint32 || same other uint32 then Some uint32
  else if same dtype_ int32 || same other int32 then Some int32
  else if (same dtype_ uint16 && is_signed other)
          || (same other uint16 && is_signed dtype_) then Some int32
  else if same dtype_ uint16 || same other uint16 then Some uint16
  else if same dtype_ int16 || same other int16 then Some int16
  else if (same dtype_ uint8 && is_signed other)
          || (same other uint8 && is_signed dtype_) then Some int16
  else if same dtype_ uint8 || same other uint8 then Some uint8
  else if same dtype_ int8 || same other int8 then Some int8
  else if same dtype_ boolean && same other boolean then Some boolean
  else None.

(** The cases of the inner [switch] over an operand's type, for each target
    type of the outer [switch]. *)
Inductive fill_case : Set :=
| fill_frombool        (* kernel::NumpyArray_fill_frombool<TO> *)
| fill_from            (* kernel::NumpyArray_fill<FROM, TO> *)
| fill_throws          (* "FIXME: merge from float16 not implemented" *)
| fill_no_case.        (* the switch has no case for the operand's type *)

Definition merge_fill_case (to from : dtype) : fill_case :=
  match to, from with
  | int8, boolean => fill_frombool
  | int8, int8 => fill_from
  | int16, boolean => fill_frombool
  | int16, (int8 | int16 | uint8) => fill_from
  | int32, boolean => fill_frombool
  | int32, (int8 | int16 | int32 | uint8 | uint16) => fill_from
  | int64, boolean => fill_frombool
  | int64, (int8 | int16 | int32 | int64 | uint8 | uint16 | uint32) =>
      fill_from
  | uint8, boolean => fill_frombool
  | uint8, uint8 => fill_from
  | uint16, boolean => fill_frombool
  | uint16, (uint8 | uint16) => fill_from
  | uint32, boolean => fill_frombool
  | uint32, (uint8 | uint16 | uint32) => fill_from
  | uint64, boolean => fill_frombool
  | uint64, (uint8 | uint16 | uint32 | uint64) => fill_from
  | float32, boolean => fill_frombool
  | float32, (int8 | int16 | uint8 | uint16 | float32) => fill_from
  | float32, float16 => fill_throws
  | float64, boolean => fill_frombool
  | float64, (int8 | int16 | int32 | int64 | uint8 | uint16 | uint32 | uint64
              | float32 | float64) => fill_from
  | float64, float16 => fill_throws
  | _, _ => fill_no_case
  end.

Definition dquote : string := String (ascii_of_nat 34) EmptyString.

(** [kernel::ptr_alloc<uint8_t>]: fresh memory, zeroed in the model. *)
Definition ptr_alloc (n : Z) : buffer := replicate (Z.to_nat n) Byte.x00.

(** A [memcpy] of [bs] into [b] at byte position [pos]. *)
Definition store (b : buffer) (pos : Z) (bs : list Byte.byte) : buffer :=
  take (Z.to_nat pos) b ++ bs ++ drop (Z.to_nat pos + length bs) b.

(** The reducer interface of [awkward/Reducer.h]: one aggregation primitive
    for each source type, each returning the freshly allocated result, and the
    type of that result. *)
Record Reducer : Type := {
  apply_bool : buffer -> Z -> Index64 -> Index64 -> Z -> buffer;
  apply_int8 : buffer -> Z -> Index64 -> Index64 -> Z -> buffer;
  apply_int16 : buffer -> Z -> Index64 -> Index64 -> Z -> buffer;
  apply_int32 : buffer -> Z -> Index64 -> Index64 -> Z -> buffer;
  apply_int64 : buffer -> Z -> Index64 -> Index64 -> Z -> buffer;
  apply_uint8 : buffer -> Z -> Index64 -> Index64 -> Z -> buffer;
  apply_uint16 : buffer -> Z -> Index64 -> Index64 -> Z -> buffer;
  apply_uint32 : buffer -> Z -> Index64 -> Index64 -> Z -> buffer;
  apply_uint64 : buffer -> Z -> Index64 -> Index64 -> Z -> buffer;
  apply_float32 : buffer -> Z -> Index64 -> Index64 -> Z -> buffer;
  apply_float64 : buffer -> Z -> Index64 -> Index64 -> Z -> buffer;
  return_dtype : dtype -> dtype
}.

(** Modelled from the spec: the validity array that accompanies a masked
    reduction; a group with no element is flagged, [toptr[i] = 1], and a group
    that some element of [parents] names is not, [toptr[i] = 0]. *)
Definition NumpyArray_reduce_mask_ByteMaskedArray_64 (parents : Index64)
    (parentsoffset lenparents outlength : Z) : Error * Index8 :=
  (success,
   map (fun i : nat =>
          if existsb (fun p => p =? Z.of_nat i)
               (take (Z.to_nat lenparents) (drop (Z.to_nat parentsoffset) parents))
          then 0 else 1)
       (seq 0 (Z.to_nat outlength))).


Section backend.

(** The typed kernels of the compute backend, which the file treats as an
    opaque library: the conversion of one element between two types, which
    the fill kernels apply to every element, and the sorting kernels of
    [awkward/cpu-kernels/sorting.h]. *)
Variable cast : dtype -> dtype -> list Byte.byte -> list Byte.byte.
Variable sorting_ranges_length : Index64 -> Z -> Z -> Z -> Error * Z.
Variable sorting_ranges : Z -> Index64 -> Z -> Z -> Z -> Error * Index64.
Variable NumpyArray_sort :
  dtype -> buffer -> Z -> Index64 -> Z -> Z -> bool -> bool -> Error * buffer.

(** Modelled from the spec: the width/sign-converting fill kernel,
    [toptr[tooffset + i] = (TO)fromptr[fromoffset + i]]. *)
Definition NumpyArray_fill (FROM TO : dtype) (toptr : buffer) (tooffset : Z)
    (fromptr : buffer) (fromoffset length : Z) : Error * buffer :=
  (success,
   fold_left
     (fun buf (i : nat) =>
        store buf ((tooffset + Z.of_nat i) * dtype_to_itemsize TO)
          (cast FROM TO
             (read_bytes fromptr
                ((fromoffset + Z.of_nat i) * dtype_to_itemsize FROM)
                (dtype_to_itemsize FROM))))
     (seq 0 (Z.to_nat length)) toptr).

Definition NumpyArray_fill_frombool (TO : dtype) :=
  NumpyArray_fill boolean TO.

(** [NumpyArray::merge_bytes] *)
Definition merge_bytes (self other : NumpyArray) : outcome Content :=
  do contiguous_self <- contiguous self;
  do contiguous_other <- contiguous other;
  let ptr := ptr_alloc (NumpyArray_length self + NumpyArray_length other) in
  let '(err, ptr) :=
    NumpyArray_fill uint8 uint8 ptr 0 (ptr_ contiguous_self)
      (byteoffset_ contiguous_self) (NumpyArray_length contiguous_self) in
  check handle_error err classname false;
  let '(err, ptr) :=
    NumpyArray_fill uint8 uint8 ptr (NumpyArray_length self)
      (ptr_ contiguous_other) (byteoffset_ contiguous_other)
      (NumpyArray_length contiguous_other) in
  check handle_error err classname false;
  let shape := [NumpyArray_length self + NumpyArray_length other] in
  let strides := [1] in
  do out <- NumpyArray_make None (parameters_ self) ptr shape strides 0 1
              (format_ self) (dtype_ self);
  Returned (CNumpyArray out).

(** The loop of [NumpyArray::merge] over the inner dimensions, [i] running
    from [shape_.size() - 1] down to [1]. *)
Fixpoint merge_shape_loop (shape_ other_shape : list Z) (i : nat)
    (st : list Z * list Z * Z * Z) : outcome (list Z * list Z * Z * Z) :=
  match i with
  | O => Returned st
  | S i' =>
      let '(shape, strides, self_flatlength, other_flatlength) := st in
      if negb (shape_ @ i =? other_shape @ i) then
        Thrown (invalid_argument "cannot merge arrays with different shapes")
      else
        merge_shape_loop shape_ other_shape i'
          (take 1 shape ++ shape_ @ i :: drop 1 shape,
           strides @ 0 * shape_ @ i :: strides,
           self_flatlength * shape_ @ i,
           other_flatlength * shape_ @ i)
  end.

(** One inner [switch] of the fill phase with the [handle_error] after it. *)
Definition merge_fill_operand (TO FROM : dtype) (ptr : buffer) (tooffset : Z)
    (fromptr : buffer) (fromoffset length : Z) : outcome buffer :=
  match merge_fill_case TO FROM with
  | fill_frombool =>
      let '(err, ptr) :=
        NumpyArray_fill_frombool TO ptr tooffset fromptr fromoffset length in
      check handle_error err classname false; Returned ptr
  | fill_from =>
      let '(err, ptr) :=
        NumpyArray_fill FROM TO ptr tooffset fromptr fromoffset length in
      check handle_error err classname false; Returned ptr
  | fill_throws =>
      Thrown (runtime_error "FIXME: merge from float16 not implemented")
  | fill_no_case => Returned ptr
  end.

(** The outer [switch (dtype)] of the fill phase. *)
Definition merge_fill (dtype : dtype) (self_dtype other_dtype : util.dtype)
    (ptr : buffer) (self_ptr : buffer) (self_offset self_flatlength : Z)
    (other_ptr : buffer) (other_offset other_flatlength : Z)
    : outcome buffer :=
  match dtype with
  | boolean =>
      let '(err, ptr) :=
        NumpyArray_fill_frombool boolean ptr 0 self_ptr self_offset
          self_flatlength in
      check handle_error err classname false;
      let '(err, ptr) :=
        NumpyArray_fill_frombool boolean ptr self_flatlength other_ptr
          other_offset other_flatlength in
      check handle_error err classname false;
      Returned ptr
  | int8 | int16 | int32 | int64 | uint8 | uint16 | uint32 | uint64
  | float32 | float64 =>
      do ptr <- merge_fill_operand dtype self_dtype ptr 0 self_ptr
                  self_offset self_flatlength;
      merge_fill_operand dtype other_dtype ptr self_flatlength other_ptr
        other_offset other_flatlength
  | float16 =>
      Thrown (runtime_error "FIXME: merge to float16 not implemented")
  | float128 =>
      Thrown (runtime_error "FIXME: merge to float128 not implemented")
  | complex64 =>
      Thrown (runtime_error "FIXME: merge to complex64 not implemented")
  | complex128 =>
      Thrown (runtime_error "FIXME: merge to complex128 not implemented")
  | complex256 =>
      Thrown (runtime_error "FIXME: merge to complex256 not implemented")
  | NOT_PRIMITIVE =>
      Thrown (runtime_error
                ("unhandled merge case: to " ++ dtype_to_name dtype))
  end.

(** The classes whose [reverse_merge] takes over a merge. *)
Definition reverse_merges (classname : string) : bool :=
  bool_decide (classname ∈
    ["IndexedArray32"; "IndexedArrayU32"; "IndexedArray64";
     "IndexedOptionArray32"; "IndexedOptionArray64"; "ByteMaskedArray";
     "BitMaskedArray"; "UnmaskedArray"; "UnionArray8_32"; "UnionArray8_U32";
     "UnionArray8_64"]).

Definition is_bytestring (p : Parameters) : bool :=
  parameter_equals p "__array__" (dquote ++ "byte" ++ dquote)
  || parameter_equals p "__array__" (dquote ++ "char" ++ dquote).

(** [NumpyArray::merge], from the test for scalars on; [other] is no
    [VirtualArray] here. *)
Definition merge_flat (self : NumpyArray) (other : Content)
    : outcome Content :=
  if ndim self =? 0 then
    Thrown (invalid_argument "cannot merge Numpy scalars")
  else
    let fast :=
      if is_bytestring (parameters_ self)
         && is_bytestring (Content_parameters other)
      then match other with
           | CNumpyArray othernumpy =>
               if (ndim self =? 1) && (ndim othernumpy =? 1)
                  && (itemsize_ self =? 1) && (itemsize_ othernumpy =? 1)
               then Some othernumpy else None
           | _ => None
           end
      else None in
    match fast with
    | Some othernumpy => merge_bytes self othernumpy
    | None =>
        do contiguous_self <- contiguous self;
        match other with
        | CNumpyArray rawother =>
            check (if negb (ndim self =? ndim rawother)
                   then Thrown (invalid_argument
                                  "cannot merge arrays with different shapes")
                   else Returned tt);
            do dtype <-
              match merge_dtype (dtype_ self) (dtype_ rawother) with
              | Some dtype => Returned dtype
              | None =>
                  Thrown (invalid_argument
                    ("cannot merge Numpy format " ++ dquote ++ format_ self
                     ++ dquote ++ " with " ++ dquote ++ format_ rawother
                     ++ dquote))
              end;
            let itemsize := dtype_to_itemsize dtype in
            let other_shape := shape_ rawother in
            do st <- merge_shape_loop (shape_ self) other_shape
                       (length (shape_ self) - 1)%nat
                       ([shape_ self @ 0 + other_shape @ 0], [itemsize],
                        shape_ self @ 0, other_shape @ 0);
            let '(shape, strides, self_flatlength, other_flatlength) := st in
            let ptr :=
              ptr_alloc (itemsize * (self_flatlength + other_flatlength)) in
            do contiguous_other <- contiguous rawother;
            let self_offset :=
              Z.quot (byteoffset_ contiguous_self)
                     (itemsize_ contiguous_self) in
            let other_offset :=
              Z.quot (byteoffset_ contiguous_other)
                     (itemsize_ contiguous_other) in
            do ptr <- merge_fill dtype (dtype_ self) (dtype_ rawother) ptr
                        (ptr_ contiguous_self) self_offset self_flatlength
                        (ptr_ contiguous_other) other_offset other_flatlength;
            do out <- NumpyArray_make None (parameters_ self) ptr shape
                        strides 0 itemsize (dtype_to_format dtype) dtype;
            Returned (CNumpyArray out)
        | _ =>
            Thrown (invalid_argument
              ("cannot merge " ++ classname ++ " with "
               ++ Content_classname other))
        end
    end.

(** [NumpyArray::merge] *)
Fixpoint merge (self : NumpyArray) (other : Content) : outcome Content :=
  match other with
  | CVirtualArray array => merge self array
  | _ =>
      if negb (parameters_equal (parameters_ self) (Content_parameters other))
      then Delegated "Content::merge_as_union"
      else
        match other with
        | CEmptyArray _ =>
            do c <- shallow_copy self; Returned (CNumpyArray c)
        | CByteMaskedArray _ _ _ _ _ =>
            check shallow_copy self;
            Delegated "ByteMaskedArray::reverse_merge"
        | CSibling name _ =>
            if reverse_merges name then
              check shallow_copy self;
              Delegated (name ++ "::reverse_merge")
            else merge_flat self other
        | _ => merge_flat self other
        end
  end.

(** ** Segmented reduction and sorting *)

(** [NumpyArray::reduce_next]; the re-entry after [toRegularArray] takes one
    unit of [fuel]. *)
Fixpoint reduce_next_fuel (fuel : nat) (self : NumpyArray) (reducer : Reducer)
    (negaxis : Z) (starts parents : Index64) (outlength : Z)
    (mask keepdims : bool) : outcome Content :=
  match fuel with
  | O => OutOfFuel
  | S fuel' =>
      if (length (shape_ self) =? 0)%nat then
        Thrown (runtime_error "attempting to reduce a scalar")
      else if negb (length (shape_ self) =? 1)%nat || negb (iscontiguous self)
      then
        do r <- toRegularArray self;
        match r with
        | CNumpyArray a =>
            reduce_next_fuel fuel' a reducer negaxis starts parents outlength
              mask keepdims
        | _ => Delegated (Content_classname r ++ "::reduce_next")
        end
      else
        let offset := Z.quot (byteoffset_ self) (itemsize_ self) in
        do ptr <-
          match dtype_ self with
          | boolean =>
              Returned (apply_bool reducer (ptr_ self) offset starts parents
                          outlength)
          | int8 =>
              Returned (apply_int8 reducer (ptr_ self) offset starts parents
                          outlength)
          | int16 =>
              Returned (apply_int16 reducer (ptr_ self) offset starts parents
                          outlength)
          | int32 =>
              Returned (apply_int32 reducer (ptr_ self) offset starts parents
                          outlength)
          | int64 =>
              Returned (apply_int64 reducer (ptr_ self) offset starts parents
                          outlength)
          | uint8 =>
              Returned (apply_uint8 reducer (ptr_ self) offset starts parents
                          outlength)
          | uint16 =>
              Returned (apply_uint16 reducer (ptr_ self) offset starts parents
                          outlength)
          | uint32 =>
              Returned (apply_uint32 reducer (ptr_ self) offset starts parents
                          outlength)
          | uint64 =>
              Returned (apply_uint64 reducer (ptr_ self) offset starts parents
                          outlength)
          | float16 => Thrown (runtime_error "FIXME: reducers on float16")
          | float32 =>
              Returned (apply_float32 reducer (ptr_ self) offset starts
                          parents outlength)
          | float64 =>
              Returned (apply_float64 reducer (ptr_ self) offset starts
                          parents outlength)
          | float128 => Thrown (runtime_error "FIXME: reducers on float128")
          | complex64 => Thrown (runtime_error "FIXME: reducers on complex64")
          | complex128 =>
              Thrown (runtime_error "FIXME: reducers on complex128")
          | complex256 =>
              Thrown (runtime_error "FIXME: reducers on complex256")
          | NOT_PRIMITIVE =>
              Thrown (invalid_argument
                ("cannot apply reducers to NumpyArray with format " ++ dquote
                 ++ format_ self ++ dquote))
          end;
        let dtype := return_dtype reducer (dtype_ self) in
        let format := dtype_to_format dtype in
        let itemsize := dtype_to_itemsize dtype in
        let shape := [outlength] in
        let strides := [itemsize] in
        do out <- NumpyArray_make None ∅ ptr shape strides 0 itemsize format
                    dtype;
        let out := CNumpyArray out in
        do out <-
          (if mask then
             let '(err, mask) :=
               NumpyArray_reduce_mask_ByteMaskedArray_64 parents 0
                 (Index_length parents) outlength in
             check handle_error err classname false;
             Returned (CByteMaskedArray None ∅ mask out false)
           else Returned out);
        let out := if keepdims then CRegularArray None ∅ out 1 else out in
        Returned out
  end.

(** One call from outside and at most one re-entry. *)
Definition reduce_next := reduce_next_fuel 2.

(** [NumpyArray::array_sort<T>]; [T] is the type of the elements. *)
Definition array_sort (T : dtype) (data : buffer) (length offset : Z)
    (starts parents : Index64) (outlength : Z) (ascending stable : bool)
    : outcome buffer :=
  let ptr := ptr_alloc (length * dtype_to_itemsize T) in
  if length =? 0 then Returned ptr
  else
    let '(err1, ranges_length) :=
      sorting_ranges_length parents 0 (Index_length parents) outlength in
    check handle_error err1 classname false;
    let '(err2, outranges) :=
      sorting_ranges ranges_length parents 0 (Index_length parents)
        outlength in
    check handle_error err2 classname false;
    let '(err3, ptr) :=
      NumpyArray_sort T data length outranges ranges_length
        (Index_length parents) ascending stable in
    check handle_error err3 classname false;
    Returned ptr.

(** [NumpyArray::sort_next]; the re-entry after [toRegularArray] takes one
    unit of [fuel]. *)
Fixpoint sort_next_fuel (fuel : nat) (self : NumpyArray) (negaxis : Z)
    (starts parents : Index64) (outlength : Z)
    (ascending stable keepdims : bool) : outcome Content :=
  match fuel with
  | O => OutOfFuel
  | S fuel' =>
      if (length (shape_ self) =? 0)%nat then
        Thrown (runtime_error "attempting to sort a scalar")
      else if negb (length (shape_ self) =? 1)%nat || negb (iscontiguous self)
      then
        do r <- toRegularArray self;
        match r with
        | CNumpyArray a =>
            sort_next_fuel fuel' a negaxis starts parents outlength ascending
              stable keepdims
        | _ => Delegated (Content_classname r ++ "::sort_next")
        end
      else
        let offset := Z.quot (byteoffset_ self) (itemsize_ self) in
        do ptr <-
          match dtype_ self with
          | boolean | int8 | int16 | int32 | int64
          | uint8 | uint16 | uint32 | uint64 | float32 | float64 =>
              array_sort (dtype_ self) (ptr_ self) (NumpyArray_length self)
                offset starts parents outlength ascending stable
          | float16 =>
              Thrown (runtime_error "FIXME: sort for float16 not implemented")
          | float128 =>
              Thrown (runtime_error "FIXME: sort for float128 not implemented")
          | complex64 =>
              Thrown (runtime_error "FIXME: sort for complex64 not implemented")
          | complex128 =>
              Thrown (runtime_error
                        "FIXME: sort for complex128 not implemented")
          | complex256 =>
              Thrown (runtime_error
                        "FIXME: sort for complex256 not implemented")
          | NOT_PRIMITIVE =>
              Thrown (invalid_argument
                ("cannot sort NumpyArray with format " ++ dquote
                 ++ format_ self ++ dquote))
          end;
        do out <- NumpyArray_make None (parameters_ self) ptr (shape_ self)
                    (strides_ self) 0 (itemsize_ self) (format_ self)
                    (dtype_ self);
        let out := CNumpyArray out in
        let out :=
          if keepdims then
            CRegularArray None ∅ out
              (Z.quot (Index_length parents) (Index_length starts))
          else out in
        Returned out
  end.

Definition sort_next := sort_next_fuel 2.

End backend.

(** The view at the bottom of the wrappers that [reduce_next] and
    [sort_next] put around their result. *)
Fixpoint leaf (c : Content) : option NumpyArray :=
  match c with
  | CNumpyArray a => Some a
  | CRegularArray _ _ content _ => leaf content
  | CByteMaskedArray _ _ _ content _ => leaf content
  | CVirtualArray array => leaf array
  | CEmptyArray _ | CSibling _ _ => None
  end.

(** The right operands with which [merge] gets as far as its test for
    scalars: those it does not hand to [merge_as_union], give back the left
    operand for, or pass to a [reverse_merge]. *)
Fixpoint merge_reaches_scalar_test (parameters : Parameters) (other : Content)
    : bool :=
  match other with
  | CVirtualArray array => merge_reaches_scalar_test parameters array
  | CEmptyArray _ | CByteMaskedArray _ _ _ _ _ => false
  | CSibling name ps =>
      parameters_equal parameters ps && negb (reverse_merges name)
  | CNumpyArray _ | CRegularArray _ _ _ _ =>
      parameters_equal parameters (Content_parameters other)
  end.

(** The test that guards the byte/char fast path of [merge], for two flat
    arrays. *)
Definition merge_bytes_applies (self other : NumpyArray) : bool :=
  is_bytestring (parameters_ self) && is_bytestring (parameters_ other)
  && (ndim self =? 1) && (ndim other =? 1)
  && (itemsize_ self =? 1) && (itemsize_ other =? 1).

(** The target types whose fill phase runs to its end for operands of the
    types [a] and [b]: the switch has kernels for the target, and neither
    operand meets a throwing case. *)
Definition fill_case_throws (c : fill_case) : bool :=
  match c with fill_throws => true | _ => false end.

Definition merge_fill_implemented (to a b : dtype) : bool :=
  match to with
  | boolean => true
  | int8 | int16 | int32 | int64 | uint8 | uint16 | uint32 | uint64
  | float32 | float64 =>
      negb (fill_case_throws (merge_fill_case to a))
      && negb (fill_case_throws (merge_fill_case to b))
  | _ => false
  end.

(** The dispatches that a slice item costs when it is the head: an ellipsis
    may grow into a range, and a new axis may be followed by one. *)
Definition head_weight (head : option SliceItem) : nat :=
  match head with
  | None => 0
  | Some SliceEllipsis | Some SliceNewAxis => 3
  | Some _ => 1
  end.



(** The identities of a view cover its leading dimension. *)
Definition identities_cover (self : NumpyArray) : Prop :=
  match identities_ self with
  | None => True
  | Some ids => shape_ self @ 0 <= Identities.length ids
  end.

(** The data model of the specification: what a well-formed view satisfies. *)
Definition shape_strides_agree (self : NumpyArray) : Prop :=
  length (shape_ self) = length (strides_ self).

(** The packed row-major layout of the specification: the stride of a
    dimension is the item size times the extents of the dimensions inside
    it. *)
Definition product (l : list Z) : Z := fold_right Z.mul 1 l.
Arguments product : simpl never.

Fixpoint packed_strides (itemsize : Z) (shape : list Z) : list Z :=
  match shape with
  | [] => []
  | _ :: inner => itemsize * product inner :: packed_strides itemsize inner
  end.

(** The packed copy of a view over the buffer [ptr]: what contiguity
    normalisation is to produce. *)
Definition packed_copy (self : NumpyArray) (ptr : buffer) : NumpyArray :=
  Build_NumpyArray (identities_ self) (parameters_ self) ptr (shape_ self)
    (packed_strides (itemsize_ self) (shape_ self)) 0 (itemsize_ self)
    (format_ self) (dtype_ self) kernel.cpu_kernels.

(** The bytes of the element that the index [idx], one entry for each
    dimension, selects: [itemsize] bytes at
    [byteoffset + sum idx[k]*strides[k]]. *)
Fixpoint element_offset (idx strides : list Z) : Z :=
  match idx, strides with
  | i :: idx', s :: strides' => i * s + element_offset idx' strides'
  | _, _ => 0
  end.

Definition element_at (self : NumpyArray) (idx : list Z) : list Byte.byte :=
  read_bytes (ptr_ self)
    (byteoffset_ self + element_offset idx (strides_ self)) (itemsize_ self).

(** An index is in range when it has an entry within the extent of each
    dimension. *)
Definition index_in_range (idx shape : list Z) : Prop :=
  Forall2 (fun i s => 0 <= i < s) idx shape.

(** * Further operations of the file

    The remaining member functions of [NumpyArray] and of [NumpyForm] that
    the file defines without the JSON and string builders, in the order of
    the source. *)

(** ** Views over index arrays *)

Module Index.

(** An [IndexOf<T>] as the constructors of [NumpyArray] read it: its memory,
    and its offset and length in elements. *)
Record t : Type := Build_t {
  ptr : buffer;
  offset : Z;
  length : Z;
  ptr_lib : kernel.Lib
}.

End Index.

(** The product of an [int64_t] and a [size_t]: both operands are taken as
    [size_t] and the product wraps around at [2^64]. *)
Definition size_t_mul (a b : Z) : Z := (a * b) mod 2 ^ 64.

(** A [size_t] passed for an [ssize_t] parameter: the value that has the
    same 64 bits in two's complement. *)
Definition ssize_t_of_size_t (z : Z) : Z :=
  if z <? 2 ^ 63 then z else z - 2 ^ 64.

(** The five constructors [NumpyArray::NumpyArray(const IndexOf<T> index)]
    differ in [T] only; [sizeof] is [sizeof(T)].  The byte offset is
    [index.offset() * sizeof(T)], a product in [size_t]. *)
Definition NumpyArray_of_Index (sizeof : Z) (dtype : dtype)
    (index : Index.t) : outcome NumpyArray :=
  NumpyArray_new None ∅ (Index.ptr index) [Index.length index] [sizeof]
    (ssize_t_of_size_t (size_t_mul (Index.offset index) sizeof)) sizeof
    (dtype_to_format dtype) dtype (Index.ptr_lib index).

Definition NumpyArray_of_Index8 := NumpyArray_of_Index 1 int8.
Definition NumpyArray_of_IndexU8 := NumpyArray_of_Index 1 uint8.
Definition NumpyArray_of_Index32 := NumpyArray_of_Index 4 int32.
Definition NumpyArray_of_IndexU32 := NumpyArray_of_Index 4 uint32.
Definition NumpyArray_of_Index64 := NumpyArray_of_Index 8 int64.

(** ** Identities *)

(** [NumpyArray::setidentities(const IdentitiesPtr&)]; the member assigns
    [identities_], the model returns the view that results. *)
Definition setidentities (self : NumpyArray) (identities : IdentitiesPtr)
    : outcome NumpyArray :=
  check (match identities with
         | Some ids =>
             if negb (NumpyArray_length self =? Identities.length ids)
             then handle_error
                    (failure
                       "content and its identities must have the same length"
                       kSliceNone kSliceNone)
                    classname (has_identities self)
             else Returned tt
         | None => Returned tt
         end);
  Returned (Build_NumpyArray identities (parameters_ self) (ptr_ self)
              (shape_ self) (strides_ self) (byteoffset_ self)
              (itemsize_ self) (format_ self) (dtype_ self) (ptr_lib_ self)).

(** [NumpyArray::check_for_iteration] *)
Definition check_for_iteration (self : NumpyArray) : outcome unit :=
  match identities_ self with
  | Some ids =>
      if Identities.length ids <? shape_ self @ 0
      then handle_error
             (failure "len(identities) < len(array)" kSliceNone kSliceNone)
             "Identities" false
      else Returned tt
  | None => Returned tt
  end.

(** ** Copies *)

(** [Identities::deep_copy], declared in [awkward/Identities.h]: identities
    with the same rows, in memory of their own. *)
Definition Identities_deep_copy (ids : Identities.t) : Identities.t := ids.

(** [NumpyArray::deep_copy] *)
Definition deep_copy (self : NumpyArray)
    (copyarrays copyindexes copyidentities : bool) : outcome NumpyArray :=
  do tmp <- (if copyarrays then contiguous self else Returned self);
  let ptr := ptr_ tmp in
  let shape := shape_ tmp in
  let strides := strides_ tmp in
  let byteoffset := byteoffset_ tmp in
  let identities :=
    if copyidentities && has_identities self
    then option_map Identities_deep_copy (identities_ self)
    else identities_ self in
  NumpyArray_make identities (parameters_ self) ptr shape strides byteoffset
    (itemsize_ self) (format_ self) (dtype_ self).

(** ** Selections along the leading dimension *)

(** [NumpyArray::getitem_nothing] *)
Definition getitem_nothing (self : NumpyArray) : outcome NumpyArray :=
  let shape := [0] in
  let strides := [itemsize_ self] in
  let identities :=
    match identities_ self with
    | Some ids => Some (Identities.getitem_range_nowrap ids 0 0)
    | None => None
    end in
  NumpyArray_make identities (parameters_ self) (ptr_ self) shape strides
    (byteoffset_ self) (itemsize_ self) (format_ self) (dtype_ self).

(** [NumpyArray::getitem_range_nowrap] *)
Definition getitem_range_nowrap (self : NumpyArray) (start stop : Z)
    : outcome NumpyArray :=
  let byteoffset := byteoffset_ self + strides_ self @ 0 * start in
  let shape := (stop - start) :: drop 1 (shape_ self) in
  do identities <-
    match identities_ self with
    | Some ids =>
        check (if Identities.length ids <? stop
               then handle_error
                      (failure "index out of range" kSliceNone stop)
                      "Identities" false
               else Returned tt);
        Returned (Some (Identities.getitem_range_nowrap ids start stop))
    | None => Returned None
    end;
  NumpyArray_make identities (parameters_ self) (ptr_ self) shape
    (strides_ self) byteoffset (itemsize_ self) (format_ self) (dtype_ self).

(** [NumpyArray::getitem_range] *)
Definition getitem_range (self : NumpyArray) (start stop : Z)
    : outcome NumpyArray :=
  let '(regular_start, regular_stop) :=
    kernel.regularize_rangeslice start stop true
      (negb (start =? Slice.none)) (negb (stop =? Slice.none))
      (shape_ self @ 0) in
  getitem_range_nowrap self regular_start regular_stop.

(** ** Fields, which a flat array has none of *)

(** [NumpyArray::getitem_field] and [NumpyArray::getitem_fields] *)
Definition getitem_field (self : NumpyArray) (key : string)
    : outcome Content :=
  Thrown (invalid_argument ("cannot slice " ++ classname ++ " by field name")).

Definition getitem_fields (self : NumpyArray) (keys : list string)
    : outcome Content :=
  Thrown (invalid_argument
            ("cannot slice " ++ classname ++ " by field names")).

(** [util::quote] with double quotes, without its escaping of the quotes
    inside the string. *)
Definition quote (s : string) : string := dquote ++ s ++ dquote.

(** [NumpyArray::numfields], [fieldindex], [key], [haskey] and [keys] *)
Definition numfields (self : NumpyArray) : Z := -1.

Definition fieldindex (self : NumpyArray) (key : string) : outcome Z :=
  Thrown (invalid_argument
            ("key " ++ quote key ++ " does not exist (data are not records)")).

Definition key (self : NumpyArray) (fieldindex : Z) : outcome string :=
  Thrown (invalid_argument
            ("fieldindex " ++ dquote ++ pretty fieldindex ++ dquote
             ++ " does not exist (data are not records)")).

Definition haskey (self : NumpyArray) (key : string) : bool := false.

Definition keys (self : NumpyArray) : list string := [].

(** ** Validity *)

(** The first index [i >= from] at which [bad] holds: the early [return] of
    a [for] loop over a vector. *)
Fixpoint first_index (bad : Z -> bool) (v : list Z) (from : nat)
    : option nat :=
  match v with
  | [] => None
  | x :: v' => if bad x then Some from else first_index bad v' (S from)
  end.

(** [NumpyArray::validityerror]; the remainder by an item size of [0],
    undefined in C++, is the stride itself. *)
Definition validityerror (self : NumpyArray) (path : string) : string :=
  if (length (shape_ self) =? 0)%nat then
    "at " ++ path ++ " (" ++ classname ++ "): shape is zero-dimensional"
  else
    match first_index (fun x => x <? 0) (shape_ self) 0 with
    | Some i =>
        "at " ++ path ++ " (" ++ classname ++ "): shape[" ++ pretty i
        ++ "] < 0"
    | None =>
        match first_index (fun s => negb (Z.rem s (itemsize_ self) =? 0))
                (strides_ self) 0 with
        | Some i =>
            "at " ++ path ++ " (" ++ classname ++ "): shape[" ++ pretty i
            ++ "] % itemsize != 0"
        | None => ""
        end
    end.

(** [NumpyArray::shallow_simplify] and [NumpyArray::fillna] *)
Definition shallow_simplify (self : NumpyArray) : outcome NumpyArray :=
  shallow_copy self.

Definition fillna (self : NumpyArray) (value : Content) : outcome NumpyArray :=
  shallow_copy self.

(** ** Structure: counting, flattening, padding *)

Section structure.

(** [Content::axis_wrap_if_negative], which the file inherits, and two
    things that the platform and the backend fix: the object representation
    of an [int64_t], and the kernel that fills the counts of [num]. *)
Variable axis_wrap_if_negative : NumpyArray -> Z -> Z.
Variable int64_bytes : Z -> list Byte.byte.
Variable RegularArray_num_64 : kernel.Lib -> Z -> Z -> Error * buffer.

(** The [while] loop of [NumpyArray::num]; [n] bounds the iterations that
    [i < ndim() - 1] leaves. *)
Fixpoint num_loop (n : nat) (self : NumpyArray) (posaxis : Z)
    (shape : list Z) (reps size : Z) (i : nat) (depth : Z)
    : list Z * Z * Z * Z :=
  match n with
  | O => (shape, reps, size, depth)
  | S n' =>
      if depth <? posaxis then
        num_loop n' self posaxis (shape ++ [shape_ self @ i])
          (reps * shape_ self @ i) (shape_ self @ (i + 1)%nat) (i + 1)%nat
          (depth + 1)
      else (shape, reps, size, depth)
  end.

(** The [for] loop of [NumpyArray::num] over [j], from [shape.size()] down
    to [1]. *)
Fixpoint num_strides (shape : list Z) (j : nat) (x : Z) (strides : list Z)
    : list Z :=
  match j with
  | O => strides
  | S j' => num_strides shape j' (x * shape @ j') (x :: strides)
  end.

(** [NumpyArray::num] *)
Definition num (self : NumpyArray) (axis depth : Z) : outcome NumpyArray :=
  let posaxis := axis_wrap_if_negative self axis in
  if posaxis =? depth then
    let out := Index.Build_t (int64_bytes (NumpyArray_length self)) 0 1
                 kernel.cpu_kernels in
    do v <- NumpyArray_of_Index64 out;
    getitem_at_nowrap v 0
  else
    let '(shape, reps, size, depth) :=
      num_loop (length (shape_ self) - 1) self posaxis [] 1
        (NumpyArray_length self) 0 depth in
    if depth <? posaxis then
      Thrown (invalid_argument "'axis' out of range for 'num'")
    else
      let x := 8 in
      let strides := num_strides shape (length shape) x [] in
      let '(err, tonum) := RegularArray_num_64 (ptr_lib_ self) size reps in
      check handle_error err classname (has_identities self);
      NumpyArray_new None ∅ tonum shape strides 0 8 (dtype_to_format int64)
        int64 (ptr_lib_ self).

(** [NumpyArray::offsets_and_flattened]; the re-entry after
    [toRegularArray] takes one unit of [fuel].  A view that is no scalar
    re-enters once at most. *)
Fixpoint offsets_and_flattened_fuel (fuel : nat) (self : NumpyArray)
    (axis depth : Z) : outcome (Index64 * Content) :=
  match fuel with
  | O => OutOfFuel
  | S fuel' =>
      let posaxis := axis_wrap_if_negative self axis in
      if posaxis =? depth then
        Thrown (invalid_argument "axis=0 not allowed for flatten")
      else if negb (length (shape_ self) =? 1)%nat || negb (iscontiguous self)
      then
        do r <- toRegularArray self;
        match r with
        | CNumpyArray a => offsets_and_flattened_fuel fuel' a posaxis depth
        | _ => Delegated (Content_classname r ++ "::offsets_and_flattened")
        end
      else
        Thrown (invalid_argument "axis out of range for flatten")
  end.

(** [NumpyArray::rpad_and_clip] *)
Fixpoint rpad_and_clip_fuel (fuel : nat) (self : NumpyArray)
    (target axis depth : Z) : outcome Content :=
  match fuel with
  | O => OutOfFuel
  | S fuel' =>
      if ndim self =? 0 then
        Thrown (runtime_error "cannot rpad a scalar")
      else if (1 <? ndim self) || negb (iscontiguous self) then
        do r <- toRegularArray self;
        match r with
        | CNumpyArray a => rpad_and_clip_fuel fuel' a target axis depth
        | _ => Delegated (Content_classname r ++ "::rpad_and_clip")
        end
      else
        let posaxis := axis_wrap_if_negative self axis in
        if negb (posaxis =? depth) then
          Thrown (invalid_argument "axis exceeds the depth of this array")
        else Delegated "Content::rpad_axis0"
  end.

Definition rpad_and_clip := rpad_and_clip_fuel 2.

(** [NumpyArray::rpad] *)
Fixpoint rpad_fuel (fuel : nat) (self : NumpyArray) (target axis depth : Z)
    : outcome Content :=
  match fuel with
  | O => OutOfFuel
  | S fuel' =>
      if ndim self =? 0 then
        Thrown (runtime_error "cannot rpad a scalar")
      else if (1 <? ndim self) || negb (iscontiguous self) then
        do r <- toRegularArray self;
        match r with
        | CNumpyArray a => rpad_fuel fuel' a target axis depth
        | _ => Delegated (Content_classname r ++ "::rpad")
        end
      else
        let posaxis := axis_wrap_if_negative self axis in
        if negb (posaxis =? depth) then
          Thrown (invalid_argument "axis exceeds the depth of this array")
        else if target <? NumpyArray_length self then
          do c <- shallow_copy self; Returned (CNumpyArray c)
        else rpad_and_clip self target posaxis depth
  end.

Definition rpad := rpad_fuel 2.

(** [NumpyArray::localindex] *)
Definition localindex (self : NumpyArray) (axis depth : Z) : outcome Content :=
  let posaxis := axis_wrap_if_negative self axis in
  if posaxis =? depth then Delegated "Content::localindex_axis0"
  else if (length (shape_ self) <=? 1)%nat then
    Thrown (invalid_argument "'axis' out of range for localindex")
  else
    do r <- toRegularArray self;
    Delegated (Content_classname r ++ "::localindex").

(** [NumpyArray::combinations] *)
Definition combinations (self : NumpyArray) (n : Z) (replacement : bool)
    (recordlookup : option (list string)) (parameters : Parameters)
    (axis depth : Z) : outcome Content :=
  if n <? 1 then
    Thrown (invalid_argument "in combinations, 'n' must be at least 1")
  else
    let posaxis := axis_wrap_if_negative self axis in
    if posaxis =? depth then Delegated "Content::combinations_axis0"
    else if (length (shape_ self) <=? 1)%nat then
      Thrown (invalid_argument "'axis' out of range for combinations")
    else
      do r <- toRegularArray self;
      Delegated (Content_classname r ++ "::combinations").

End structure.

(** ** Whether two arrays can be merged *)

(** The classes that [mergeable] looks through to their content; the model
    holds the content of a [ByteMaskedArray] only. *)
Definition mergeable_through (classname : string) : bool :=
  bool_decide (classname ∈
    ["IndexedArray32"; "IndexedArrayU32"; "IndexedArray64";
     "IndexedOptionArray32"; "IndexedOptionArray64"; "BitMaskedArray";
     "UnmaskedArray"]).

Definition is_union (classname : string) : bool :=
  bool_decide (classname ∈
    ["UnionArray8_32"; "UnionArray8_U32"; "UnionArray8_64"]).

(** The test of [mergeable] on the two types that is written out name by
    name. *)
Definition mergeable_dtypes (dtype_ other : dtype) : bool :=
  let same (a b : dtype) : bool := dtype_eqb a b in
  same dtype_ boolean || same dtype_ int8 || same dtype_ int16
  || same dtype_ int32 || same dtype_ int64 || same dtype_ uint8
  || same dtype_ uint16 || same dtype_ uint32 || same dtype_ uint64
  || same dtype_ float16 || same dtype_ float32 || same dtype_ float64
  || same dtype_ float128 || same dtype_ complex64 || same dtype_ complex128
  || same dtype_ complex256 || same dtype_ boolean
  || same other int8 || same other int16 || same other int32
  || same other int64 || same other uint8 || same other uint16
  || same other uint32 || same other uint64 || same other float16
  || same other float32 || same other float64 || same other float128
  || same other complex64 || same other complex128 || same other complex256.

(** The loop of [mergeable] over the inner dimensions, [i] running from
    [shape_.size() - 1] down to [1]. *)
Fixpoint mergeable_shape_loop (shape_ other_shape : list Z) (i : nat) : bool :=
  match i with
  | O => true
  | S i' =>
      if negb (shape_ @ i =? other_shape @ i) then false
      else mergeable_shape_loop shape_ other_shape i'
  end.

(** [NumpyArray::mergeable], from the test for scalars on. *)
Definition mergeable_flat (self : NumpyArray) (other : Content)
    (mergebool : bool) : bool :=
  if ndim self =? 0 then false
  else
    match other with
    | CNumpyArray rawother =>
        if negb (ndim self =? ndim rawother) then false
        else if negb mergebool
                && negb (dtype_eqb (dtype_ self) (dtype_ rawother))
                && (dtype_eqb (dtype_ self) boolean
                    || dtype_eqb (dtype_ rawother) boolean) then false
        else if negb (mergeable_dtypes (dtype_ self) (dtype_ rawother))
        then false
        else
          mergeable_shape_loop (shape_ self) (shape_ rawother)
            (length (shape_ self) - 1)
    | _ => false
    end.

(** [NumpyArray::mergeable] *)
Fixpoint mergeable (self : NumpyArray) (other : Content) (mergebool : bool)
    : outcome bool :=
  match other with
  | CVirtualArray array => mergeable self array mergebool
  | _ =>
      if negb (parameters_equal (parameters_ self) (Content_parameters other))
      then Returned false
      else
        match other with
        | CEmptyArray _ => Returned true
        | CByteMaskedArray _ _ _ content _ => mergeable self content mergebool
        | CSibling name _ =>
            if is_union name then Returned true
            else if mergeable_through name
            then Delegated (name ++ "::content")
            else Returned (mergeable_flat self other mergebool)
        | _ => Returned (mergeable_flat self other mergebool)
        end
  end.

(** ** The form of a view and its type *)

Module NumpyForm.

Record t : Type := Build_t {
  has_identities_ : bool;
  parameters_ : Parameters;
  form_key_ : option string;
  inner_shape_ : list Z;
  itemsize_ : Z;
  format_ : string;
  dtype_ : dtype
}.

End NumpyForm.

(** A [Form]: a [NumpyForm], or the form of a sibling class with what
    [NumpyForm::equal] reads of it. *)
Inductive Form : Type :=
| FNumpyForm (f : NumpyForm.t)
| FSibling (has_identities : bool) (parameters : Parameters)
    (form_key : option string).

Definition Form_has_identities (f : Form) : bool :=
  match f with
  | FNumpyForm t => NumpyForm.has_identities_ t
  | FSibling ids _ _ => ids
  end.

Definition Form_parameters (f : Form) : Parameters :=
  match f with
  | FNumpyForm t => NumpyForm.parameters_ t
  | FSibling _ ps _ => ps
  end.

Definition Form_form_key (f : Form) : option string :=
  match f with
  | FNumpyForm t => NumpyForm.form_key_ t
  | FSibling _ _ k => k
  end.

(** [Form::form_key_equals], declared in [awkward/Content.h]: two keys are
    equal when both are null or both hold the same string. *)
Definition form_key_equals (form_key other_form_key : option string) : bool :=
  bool_decide (form_key = other_form_key).

(** The types that [NumpyForm::type] builds. *)
Inductive Type_ : Type :=
| PrimitiveType (parameters : Parameters) (typestr : string) (dtype : dtype)
| RegularType (parameters : Parameters) (typestr : string) (type : Type_)
    (size : Z).

Section NumpyForm_methods.

Variable self : NumpyForm.t.

(** [NumpyForm::primitive] *)
Definition NumpyForm_primitive : string :=
  dtype_to_name (NumpyForm.dtype_ self).

(** [NumpyForm::purelist_isregular], [purelist_depth], [minmax_depth] and
    [branch_depth] *)
Definition NumpyForm_purelist_isregular : bool := true.

Definition NumpyForm_purelist_depth : Z :=
  Z.of_nat (length (NumpyForm.inner_shape_ self)) + 1.

Definition NumpyForm_minmax_depth : Z * Z :=
  (Z.of_nat (length (NumpyForm.inner_shape_ self)) + 1,
   Z.of_nat (length (NumpyForm.inner_shape_ self)) + 1).

Definition NumpyForm_branch_depth : bool * Z :=
  (false, Z.of_nat (length (NumpyForm.inner_shape_ self)) + 1).

(** [NumpyForm::numfields], [haskey] and [keys] *)
Definition NumpyForm_numfields : Z := -1.
Definition NumpyForm_haskey (key : string) : bool := false.
Definition NumpyForm_keys : list string := [].

(** [NumpyForm::shallow_copy] *)
Definition NumpyForm_shallow_copy : NumpyForm.t :=
  NumpyForm.Build_t (NumpyForm.has_identities_ self)
    (NumpyForm.parameters_ self) (NumpyForm.form_key_ self)
    (NumpyForm.inner_shape_ self) (NumpyForm.itemsize_ self)
    (NumpyForm.format_ self) (NumpyForm.dtype_ self).

(** [NumpyForm::equal] *)
Definition NumpyForm_equal (other : Form)
    (check_identities check_parameters check_form_key compatibility_check
       : bool) : bool :=
  if check_identities
     && negb (Bool.eqb (NumpyForm.has_identities_ self)
                (Form_has_identities other)) then false
  else if check_parameters
          && negb (parameters_equal (NumpyForm.parameters_ self)
                     (Form_parameters other)) then false
  else if check_form_key
          && negb (form_key_equals (NumpyForm.form_key_ self)
                     (Form_form_key other)) then false
  else
    match other with
    | FNumpyForm t =>
        bool_decide (NumpyForm.inner_shape_ self = NumpyForm.inner_shape_ t)
        && bool_decide (NumpyForm.format_ self = NumpyForm.format_ t)
    | _ => false
    end.

(** [util::gettypestr], declared in [awkward/util.h]. *)
Variable gettypestr : Parameters -> gmap string string -> string.

(** The loop of [NumpyForm::type], [i] running from [inner_shape_.size() - 1]
    down to [0]; [type_loop] takes [i + 1]. *)
Fixpoint NumpyForm_type_loop (typestrs : gmap string string) (i1 : nat)
    (out : Type_) : Type_ :=
  match i1 with
  | O => out
  | S i =>
      NumpyForm_type_loop typestrs i
        (RegularType ∅ (gettypestr (NumpyForm.parameters_ self) typestrs) out
           (NumpyForm.inner_shape_ self @ i))
  end.

(** [NumpyForm::type] *)
Definition NumpyForm_type (typestrs : gmap string string) : outcome Type_ :=
  if dtype_eqb (NumpyForm.dtype_ self) NOT_PRIMITIVE then
    Thrown (invalid_argument
              ("Numpy format " ++ dquote ++ NumpyForm.format_ self ++ dquote
               ++ " cannot be expressed as a PrimitiveType"))
  else
    let out :=
      PrimitiveType (NumpyForm.parameters_ self)
        (gettypestr (NumpyForm.parameters_ self) typestrs)
        (NumpyForm.dtype_ self) in
    Returned (NumpyForm_type_loop typestrs
                (length (NumpyForm.inner_shape_ self)) out).

End NumpyForm_methods.

(** [NumpyArray::form] *)
Definition form (self : NumpyArray) (materialize : bool) : NumpyForm.t :=
  let inner_shape := drop 1 (shape_ self) in
  NumpyForm.Build_t (has_identities self) (parameters_ self) None inner_shape
    (itemsize_ self) (format_ self) (dtype_ self).

(** [NumpyArray::type] *)
Definition type gettypestr (self : NumpyArray)
    (typestrs : gmap string string) : outcome Type_ :=
  NumpyForm_type (form self true) gettypestr typestrs.

(** [NumpyArray::has_virtual_form] and [NumpyArray::has_virtual_length] *)
Definition has_virtual_form (self : NumpyArray) : bool := false.
Definition has_virtual_length (self : NumpyArray) : bool := false.

(** ** Sorting positions *)

Section argsort.

(** The sorting kernels of [awkward/cpu-kernels/sorting.h] that
    [index_sort] calls. *)
Variable sorting_ranges_length : Index64 -> Z -> Z -> Z -> Error * Z.
Variable sorting_ranges : Z -> Index64 -> Z -> Z -> Z -> Error * Index64.
Variable NumpyArray_argsort :
  dtype -> buffer -> Z -> Index64 -> Z -> bool -> bool -> Error * buffer.

(** [NumpyArray::index_sort<T>]; [T] is the type of the elements. *)
Definition index_sort (T : dtype) (data : buffer) (length offset : Z)
    (starts parents : Index64) (outlength : Z) (ascending stable : bool)
    : outcome buffer :=
  let ptr := ptr_alloc (length * 8) in
  if length =? 0 then Returned ptr
  else
    let '(err1, ranges_length) :=
      sorting_ranges_length parents 0 (Index_length parents) outlength in
    check handle_error err1 classname false;
    let '(err2, outranges) :=
      sorting_ranges ranges_length parents 0 (Index_length parents)
        outlength in
    check handle_error err2 classname false;
    let '(err3, ptr) :=
      NumpyArray_argsort T data length outranges ranges_length ascending
        stable in
    check handle_error err3 classname false;
    Returned ptr.

(** [NumpyArray::argsort_next]; the re-entry after [toRegularArray] takes
    one unit of [fuel]. *)
Fixpoint argsort_next_fuel (fuel : nat) (self : NumpyArray) (negaxis : Z)
    (starts parents : Index64) (outlength : Z)
    (ascending stable keepdims : bool) : outcome Content :=
  match fuel with
  | O => OutOfFuel
  | S fuel' =>
      if (length (shape_ self) =? 0)%nat then
        Thrown (runtime_error "attempting to argsort a scalar")
      else if negb (length (shape_ self) =? 1)%nat || negb (iscontiguous self)
      then
        do r <- toRegularArray self;
        match r with
        | CNumpyArray a =>
            argsort_next_fuel fuel' a negaxis starts parents outlength
              ascending stable keepdims
        | _ => Delegated (Content_classname r ++ "::argsort_next")
        end
      else
        let offset := Z.quot (byteoffset_ self) (itemsize_ self) in
        do ptr <-
          match dtype_ self with
          | boolean | int8 | int16 | int32 | int64
          | uint8 | uint16 | uint32 | uint64 | float32 | float64 =>
              index_sort (dtype_ self) (ptr_ self) (NumpyArray_length self)
                offset starts parents outlength ascending stable
          | float16 =>
              Thrown (runtime_error
                        "FIXME: argsort for float16 not implemented")
          | float128 =>
              Thrown (runtime_error
                        "FIXME: argsort for float128 not implemented")
          | complex64 =>
              Thrown (runtime_error
                        "FIXME: argsort for complex64 not implemented")
          | complex128 =>
              Thrown (runtime_error
                        "FIXME: argsort for complex128 not implemented")
          | complex256 =>
              Thrown (runtime_error
                        "FIXME: argsort for complex256 not implemented")
          | NOT_PRIMITIVE =>
              Thrown (invalid_argument
                ("cannot sort NumpyArray with format " ++ dquote
                 ++ format_ self ++ dquote))
          end;
        let itemsize := 8 in
        let dtype := int64 in
        let strides := [itemsize] in
        do out <- NumpyArray_make None ∅ ptr (shape_ self) strides 0 itemsize
                    (dtype_to_format dtype) dtype;
        let out := CNumpyArray out in
        let out :=
          if keepdims then
            CRegularArray None ∅ out
              (Z.quot (Index_length parents) (Index_length starts))
          else out in
        Returned out
  end.

Definition argsort_next := argsort_next_fuel 2.

End argsort.

(** ** Moving a view to another backend *)

Definition Lib_eqb (a b : kernel.Lib) : bool :=
  match a, b with
  | kernel.cpu_kernels, kernel.cpu_kernels => true
  | kernel.cuda_kernels, kernel.cuda_kernels => true
  | _, _ => false
  end.

Section copy_to.

(** [kernel::copy_to<T>]: the memory at the target after the copy of
    [length] elements of type [T]. *)
Variable kernel_copy_to :
  dtype -> kernel.Lib -> kernel.Lib -> buffer -> Z -> Error * buffer.

(** [NumpyArray::copy_to] *)
Definition copy_to (self : NumpyArray) (ptr_lib : kernel.Lib)
    : outcome NumpyArray :=
  if Lib_eqb (ptr_lib_ self) ptr_lib then
    NumpyArray_new (identities_ self) (parameters_ self) (ptr_ self)
      (shape_ self) (strides_ self) (byteoffset_ self) (itemsize_ self)
      (format_ self) (dtype_ self) (ptr_lib_ self)
  else
    let length := fold_left (fun length i => length * i) (shape_ self) 1 in
    do ptr <-
      match dtype_ self with
      | boolean | int8 | int16 | int32 | int64
      | uint8 | uint16 | uint32 | uint64 | float32 | float64 =>
          let '(err, ptr) :=
            kernel_copy_to (dtype_ self) ptr_lib (ptr_lib_ self) (ptr_ self)
              length in
          check handle_error err "" false;
          Returned ptr
      | float16 =>
          Thrown (runtime_error "FIXME: copy_to of float16 not implemented")
      | float128 =>
          Thrown (runtime_error "FIXME: copy_to of float128 not implemented")
      | complex64 =>
          Thrown (runtime_error "FIXME: copy_to of complex64 not implemented")
      | complex128 =>
          Thrown (runtime_error
                    "FIXME: copy_to of complex128 not implemented")
      | complex256 =>
          Thrown (runtime_error
                    "FIXME: copy_to of complex256 not implemented")
      | NOT_PRIMITIVE =>
          Thrown (invalid_argument
                    ("cannot copy format '" ++ format_ self
                     ++ " to a device (e.g. GPU)"))
      end;
    NumpyArray_new (identities_ self) (parameters_ self) ptr (shape_ self)
      (strides_ self) (byteoffset_ self) (itemsize_ self) (format_ self)
      (dtype_ self) ptr_lib.

End copy_to.

(** ** The carry path of [getitem] *)

(** An [Index64] of [n] elements after a kernel has written the element
    [f i] at each position [i]. *)
Definition Index64_filled (n : Z) (f : nat -> Z) : Index64 :=
  map f (seq 0 (Z.to_nat n)).

(** Modelled from the spec: [SliceArray64::ravel] and
    [SliceArray64::length] of an [Array(flat_indices, logical_shape)], its
    flat indices and their number. *)
Definition SliceArray64_ravel (index : Index64) (shape : list Z) : Index64 :=
  index.

Definition SliceArray64_length (index : Index64) (shape : list Z) : Z :=
  Index_length index.

(** The loop of [getitem_next(const SliceArray64&, ...)] over the shape of
    the array, last entry first. *)
Definition insert_arraystrides (arrayshape outstrides : list Z) : list Z :=
  fold_left (fun outstrides x => x * outstrides @ 0 :: outstrides)
    (rev arrayshape) outstrides.

Section getitem_next.

(** The kernels of [awkward/cpu-kernels/getitem.h] that compute a carry;
    each writes the elements of the arrays that its caller allocated. *)
Variable NumpyArray_getitem_next_at_64 :
  Index64 -> Z -> Z -> Z -> Error * (nat -> Z).
Variable NumpyArray_getitem_next_range_64 :
  Index64 -> Z -> Z -> Z -> Z -> Z -> Error * (nat -> Z).
Variable NumpyArray_getitem_next_range_advanced_64 :
  Index64 -> Index64 -> Z -> Z -> Z -> Z -> Z
  -> Error * ((nat -> Z) * (nat -> Z)).
Variable regularize_arrayslice_64 : Index64 -> Z -> Z -> Error * Index64.
Variable NumpyArray_getitem_next_array_64 :
  Index64 -> Index64 -> Z -> Z -> Z -> Error * ((nat -> Z) * (nat -> Z)).
Variable NumpyArray_getitem_next_array_advanced_64 :
  Index64 -> Index64 -> Index64 -> Z -> Z -> Error * (nat -> Z).

(** The terminal case of the dispatching overload, a null [head]. *)
Definition getitem_next_null (self : NumpyArray) (carry : Index64)
    (stride : Z) : outcome NumpyArray :=
  let '(err, ptr) :=
    kernel.NumpyArray_getitem_next_null_64 (ptr_ self) (Index_length carry)
      stride (byteoffset_ self) carry in
  check handle_error err classname (has_identities self);
  do identities <-
    match identities_ self with
    | Some ids => do r <- Identities.getitem_carry_64 ids carry;
                  Returned (Some r)
    | None => Returned None
    end;
  let shape := Index_length carry :: drop 1 (shape_ self) in
  let strides := stride :: drop 1 (strides_ self) in
  NumpyArray_make identities (parameters_ self) ptr shape strides 0
    (itemsize_ self) (format_ self) (dtype_ self).

Section overloads.

(** The dispatching overload, which each of the five others calls back. *)
Variable dispatch :
  NumpyArray -> option SliceItem -> Slice.t -> Index64 -> Index64 -> Z -> Z
  -> bool -> outcome NumpyArray.

(** The view one dimension further in that every overload builds. *)
Definition getitem_next_next (self : NumpyArray) (first : bool)
    : outcome NumpyArray :=
  NumpyArray_make (if first then identities_ self else None)
    (parameters_ self) (ptr_ self) (flatten_shape (shape_ self))
    (flatten_strides (strides_ self)) (byteoffset_ self) (itemsize_ self)
    (format_ self) (dtype_ self).

(** [NumpyArray::getitem_next(const SliceAt&, ...)] *)
Definition getitem_next_at (self : NumpyArray) (at_ : Z) (tail : Slice.t)
    (carry advanced : Index64) (length stride : Z) (first : bool)
    : outcome NumpyArray :=
  check too_many_dimensions self;
  do next <- getitem_next_next self first;
  let nexthead := Slice.head tail in
  let nexttail := Slice.tail tail in
  let regular_at := at_ in
  let regular_at :=
    if regular_at <? 0 then regular_at + shape_ self @ 1 else regular_at in
  check (if negb ((0 <=? regular_at) && (regular_at <? shape_ self @ 1))
         then handle_error (failure "index out of range" kSliceNone at_)
                classname (has_identities self)
         else Returned tt);
  let '(err, nextcarry) :=
    NumpyArray_getitem_next_at_64 carry (Index_length carry)
      (shape_ self @ 1) regular_at in
  let nextcarry := Index64_filled (Index_length carry) nextcarry in
  check handle_error err classname (has_identities self);
  do out <- dispatch next nexthead nexttail nextcarry advanced length
              (strides_ next @ 0) false;
  let outshape := length :: drop 1 (shape_ out) in
  NumpyArray_make (identities_ out) (parameters_ out) (ptr_ out) outshape
    (strides_ out) (byteoffset_ out) (itemsize_ self) (format_ self)
    (dtype_ self).

(** [NumpyArray::getitem_next(const SliceRange&, ...)] *)
Definition getitem_next_range (self : NumpyArray)
    (range_start range_stop range_step : Z) (tail : Slice.t)
    (carry advanced : Index64) (length stride : Z) (first : bool)
    : outcome NumpyArray :=
  check too_many_dimensions self;
  let start := range_start in
  let stop := range_stop in
  let step := range_step in
  let step := if step =? Slice.none then 1 else step in
  let '(start, stop) :=
    kernel.regularize_rangeslice start stop (0 <? step)
      (Slice.hasstart range_start) (Slice.hasstop range_stop)
      (shape_ self @ 1) in
  let lenhead := range_lenhead start stop step in
  do next <- getitem_next_next self first;
  let nexthead := Slice.head tail in
  let nexttail := Slice.tail tail in
  if Index_length advanced =? 0 then
    let '(err, nextcarry) :=
      NumpyArray_getitem_next_range_64 carry (Index_length carry) lenhead
        (shape_ self @ 1) start step in
    let nextcarry := Index64_filled (Index_length carry * lenhead) nextcarry in
    check handle_error err classname (has_identities self);
    do out <- dispatch next nexthead nexttail nextcarry advanced
                (length * lenhead) (strides_ next @ 0) false;
    let outshape := length :: lenhead :: drop 1 (shape_ out) in
    let outstrides := lenhead * strides_ out @ 0 :: strides_ out in
    NumpyArray_make (identities_ out) (parameters_ out) (ptr_ out) outshape
      outstrides (byteoffset_ out) (itemsize_ self) (format_ self)
      (dtype_ self)
  else
    let '(err, (nextcarry, nextadvanced)) :=
      NumpyArray_getitem_next_range_advanced_64 carry advanced
        (Index_length carry) lenhead (shape_ self @ 1) start step in
    let nextcarry := Index64_filled (Index_length carry * lenhead) nextcarry in
    let nextadvanced :=
      Index64_filled (Index_length carry * lenhead) nextadvanced in
    check handle_error err classname (has_identities self);
    do out <- dispatch next nexthead nexttail nextcarry nextadvanced
                (length * lenhead) (strides_ next @ 0) false;
    let outshape := length :: lenhead :: drop 1 (shape_ out) in
    let outstrides := lenhead * strides_ out @ 0 :: strides_ out in
    NumpyArray_make (identities_ out) (parameters_ out) (ptr_ out) outshape
      outstrides (byteoffset_ out) (itemsize_ self) (format_ self)
      (dtype_ self).

(** [NumpyArray::getitem_next(const SliceEllipsis&, ...)] *)
Definition getitem_next_ellipsis (self : NumpyArray) (tail : Slice.t)
    (carry advanced : Index64) (length stride : Z) (first : bool)
    : outcome NumpyArray :=
  let mindepth := fst (minmax_depth self) in
  if (Slice.length tail =? 0) || (mindepth - 1 =? Slice.dimlength tail) then
    let nexthead := Slice.head tail in
    let nexttail := Slice.tail tail in
    dispatch self nexthead nexttail carry advanced length stride false
  else
    let items := SliceEllipsis :: tail in
    let nexthead := Some (SliceRange Slice.none Slice.none 1) in
    let nexttail := items in
    dispatch self nexthead nexttail carry advanced length stride false.

(** [NumpyArray::getitem_next(const SliceNewAxis&, ...)] *)
Definition getitem_next_newaxis (self : NumpyArray) (tail : Slice.t)
    (carry advanced : Index64) (length stride : Z) (first : bool)
    : outcome NumpyArray :=
  let nexthead := Slice.head tail in
  let nexttail := Slice.tail tail in
  do out <- dispatch self nexthead nexttail carry advanced length stride
              false;
  let outshape := length :: 1 :: drop 1 (shape_ out) in
  let outstrides := strides_ out @ 0 :: strides_ out in
  NumpyArray_make (identities_ out) (parameters_ out) (ptr_ out) outshape
    outstrides (byteoffset_ out) (itemsize_ self) (format_ self)
    (dtype_ self).

(** [NumpyArray::getitem_next(const SliceArray64&, ...)] *)
Definition getitem_next_array (self : NumpyArray) (array_index : Index64)
    (array_shape : list Z) (tail : Slice.t) (carry advanced : Index64)
    (length stride : Z) (first : bool) : outcome NumpyArray :=
  check too_many_dimensions self;
  do next <- getitem_next_next self first;
  let nexthead := Slice.head tail in
  let nexttail := Slice.tail tail in
  let flathead := SliceArray64_ravel array_index array_shape in
  let '(err, flathead) :=
    regularize_arrayslice_64 flathead (Index_length flathead)
      (shape_ self @ 1) in
  check handle_error err classname (has_identities self);
  if Index_length advanced =? 0 then
    let '(err, (nextcarry, nextadvanced)) :=
      NumpyArray_getitem_next_array_64 carry flathead (Index_length carry)
        (Index_length flathead) (shape_ self @ 1) in
    let nextcarry :=
      Index64_filled (Index_length carry * Index_length flathead) nextcarry in
    let nextadvanced :=
      Index64_filled (Index_length carry * Index_length flathead)
        nextadvanced in
    check handle_error err classname (has_identities self);
    do out <- dispatch next nexthead nexttail nextcarry nextadvanced
                (length * Index_length flathead) (strides_ next @ 0) false;
    let arrayshape := array_shape in
    let outshape := length :: arrayshape ++ drop 1 (shape_ out) in
    let outstrides := insert_arraystrides arrayshape (strides_ out) in
    NumpyArray_make
      (if (List.length arrayshape =? 1)%nat then identities_ out else None)
      (parameters_ out) (ptr_ out) outshape outstrides (byteoffset_ out)
      (itemsize_ self) (format_ self) (dtype_ self)
  else
    let '(err, nextcarry) :=
      NumpyArray_getitem_next_array_advanced_64 carry advanced flathead
        (Index_length carry) (shape_ self @ 1) in
    let nextcarry := Index64_filled (Index_length carry) nextcarry in
    check handle_error err classname (has_identities self);
    do out <- dispatch next nexthead nexttail nextcarry advanced
                (length * SliceArray64_length array_index array_shape)
                (strides_ next @ 0) false;
    let outshape := length :: drop 1 (shape_ out) in
    NumpyArray_make (identities_ out) (parameters_ out) (ptr_ out) outshape
      (strides_ out) (byteoffset_ out) (itemsize_ self) (format_ self)
      (dtype_ self).

End overloads.

(** [NumpyArray::getitem_next(const SliceItemPtr&, ...)] with a carry; each
    dispatch takes one unit of [fuel]. *)
Fixpoint getitem_next (fuel : nat) (self : NumpyArray)
    (head : option SliceItem) (tail : Slice.t) (carry advanced : Index64)
    (length stride : Z) (first : bool) : outcome NumpyArray :=
  match fuel with
  | O => OutOfFuel
  | S fuel' =>
      match head with
      | None => getitem_next_null self carry stride
      | Some (SliceAt at_) =>
          getitem_next_at (getitem_next fuel') self at_ tail carry advanced
            length stride first
      | Some (SliceRange start stop step) =>
          getitem_next_range (getitem_next fuel') self start stop step tail
            carry advanced length stride first
      | Some SliceEllipsis =>
          getitem_next_ellipsis (getitem_next fuel') self tail carry advanced
            length stride first
      | Some SliceNewAxis =>
          getitem_next_newaxis (getitem_next fuel') self tail carry advanced
            length stride first
      | Some (SliceArray64 index shape) =>
          getitem_next_array (getitem_next fuel') self index shape tail carry
            advanced length stride first
      | Some (SliceField _) =>
          Thrown (invalid_argument
            ("cannot slice " ++ classname
             ++ " by a field name because it has no fields"))
      | Some (SliceFields _) =>
          Thrown (invalid_argument
            ("cannot slice " ++ classname
             ++ " by field names because it has no fields"))
      | Some (SliceMissing64 _ _) =>
          Thrown (runtime_error
            ("undefined operation: NumpyArray::getitem_next(missing) "
             ++ "(defer to Content::getitem_next(missing))"))
      | Some (SliceJagged64 _ _) =>
          Thrown (runtime_error "FIXME: NumpyArray::getitem_next(jagged)")
      end
  end.

(** The last branch of [NumpyArray::getitem], with its call of
    [getitem_next] followed. *)
Definition getitem_carry (self : NumpyArray) (where_ : Slice.t)
    : outcome Content :=
  do safe <- contiguous self;
  let nextshape := 1 :: shape_ safe in
  let nextstrides := shape_ safe @ 0 * strides_ safe @ 0 :: strides_ safe in
  do next <- NumpyArray_make (identities_ safe) (parameters_ safe)
               (ptr_ safe) nextshape nextstrides (byteoffset_ safe)
               (itemsize_ self) (format_ self) (dtype_ self);
  let nexthead := Slice.head where_ in
  let nexttail := Slice.tail where_ in
  let nextcarry := [0] in
  let nextadvanced := [] in
  do out <- getitem_next (getitem_bystrides_fuel next where_) next nexthead
              nexttail nextcarry nextadvanced 1 (strides_ next @ 0) true;
  let outshape := drop 1 (shape_ out) in
  let outstrides := drop 1 (strides_ out) in
  do r <- NumpyArray_make (identities_ out) (parameters_ out) (ptr_ out)
            outshape outstrides (byteoffset_ out) (itemsize_ self)
            (format_ self) (dtype_ self);
  Returned (CNumpyArray r).

End getitem_next.

(** ** Measures of a result, for the properties *)

(** The sizes of the regular nodes around a leaf, outermost first. *)
Fixpoint regular_sizes (c : Content) : list Z :=
  match c with
  | CRegularArray _ _ content size => size :: regular_sizes content
  | _ => []
  end.

(** The sizes of the regular types around a primitive type, outermost
    first, and the primitive type inside. *)
Fixpoint Type_sizes (t : Type_) : list Z :=
  match t with
  | RegularType _ _ t' size => size :: Type_sizes t'
  | PrimitiveType _ _ _ => []
  end.

Fixpoint Type_primitive (t : Type_) : dtype :=
  match t with
  | RegularType _ _ t' _ => Type_primitive t'
  | PrimitiveType _ _ dt => dt
  end.

(** The row-major position of the element that [idx] selects in an array
    of the given shape. *)
Fixpoint linear_index (idx shape : list Z) : Z :=
  match idx, shape with
  | i :: idx', _ :: shape' => i * product shape' + linear_index idx' shape'
  | _, _ => 0
  end.

(** The items of a basic slice: an index, a range, an ellipsis or a new
    axis. *)
Definition basic_item (x : SliceItem) : bool :=
  match x with
  | SliceAt _ | SliceRange _ _ _ | SliceEllipsis | SliceNewAxis => true
  | _ => false
  end.

(** The element types that the type-dispatching operations of the file
    name and leave unimplemented. *)
Definition unimplemented (dt : dtype) : bool :=
  match dt with
  | float16 | float128 | complex64 | complex128 | complex256 => true
  | _ => false
  end.

(** ** Sample views and a sample backend, for the worked instances *)

Definition bytes_upto (n : nat) : buffer :=
  map (fun k => default Byte.x00 (Byte.of_nat k)) (seq 0 n).

Definition int16_view (shape strides : list Z) (byteoffset : Z)
    : NumpyArray :=
  Build_NumpyArray None ∅ (bytes_upto 64) shape strides byteoffset 2 "h"
    int16 kernel.cpu_kernels.

Definition int8_scalar : NumpyArray :=
  Build_NumpyArray None ∅ (bytes_upto 8) [] [] 0 1 "b" int8
    kernel.cpu_kernels.

Definition no_cast (FROM TO : dtype) (bs : list Byte.byte) : list Byte.byte :=
  bs.

Definition byte_parameters : Parameters :=
  {[ "__array__" := (dquote ++ "byte" ++ dquote)%string ]}.

Definition uint8_bytes : NumpyArray :=
  Build_NumpyArray None byte_parameters (bytes_upto 8) [3] [1] 0 1 "B" uint8
    kernel.cpu_kernels.

Definition int8_bytes : NumpyArray :=
  Build_NumpyArray None byte_parameters (bytes_upto 8) [2] [1] 4 1 "b" int8
    kernel.cpu_kernels.

(** A reducer that counts nothing: zeros of type [int64]. *)
Definition zero_reducer : Reducer :=
  let zeros := fun (_ : buffer) (_ : Z) (_ _ : Index64) (outlength : Z) =>
                 ptr_alloc (8 * outlength) in
  {| apply_bool := zeros; apply_int8 := zeros; apply_int16 := zeros;
     apply_int32 := zeros; apply_int64 := zeros; apply_uint8 := zeros;
     apply_uint16 := zeros; apply_uint32 := zeros; apply_uint64 := zeros;
     apply_float32 := zeros; apply_float64 := zeros;
     return_dtype := fun _ => int64 |}.

(** Sorting kernels that see one run and leave its order as it is. *)
Definition one_range_length (_ : Index64) (_ _ _ : Z) : Error * Z :=
  (success, 2).
Definition one_range (_ : Z) (parents : Index64) (_ _ _ : Z)
    : Error * Index64 :=
  (success, [0; Index_length parents]).
Definition keep_order (_ : dtype) (data : buffer) (_ : Z) (_ : Index64)
    (_ _ : Z) (_ _ : bool) : Error * buffer :=
  (success, data).

(** Carry kernels that enter an item and run along a range the way
    [awkward/cpu-kernels] does, and idle ones for the slices by arrays. *)
Definition enter_item (carry : Index64) (lencarry skip at_ : Z)
    : Error * (nat -> Z) :=
  (success, fun i => skip * carry @ i + at_).
Definition along_range (carry : Index64) (lencarry lenhead skip start step : Z)
    : Error * (nat -> Z) :=
  (success,
   fun k => skip * carry @ (Nat.div k (Z.to_nat lenhead)) + start
            + Z.of_nat (Nat.modulo k (Z.to_nat lenhead)) * step).
Definition idle_range_advanced (_ _ : Index64) (_ _ _ _ _ : Z)
    : Error * ((nat -> Z) * (nat -> Z)) :=
  (success, (fun _ => 0, fun _ => 0)).
Definition idle_arrayslice (flathead : Index64) (_ _ : Z) : Error * Index64 :=
  (success, flathead).
Definition idle_array (_ _ : Index64) (_ _ _ : Z)
    : Error * ((nat -> Z) * (nat -> Z)) :=
  (success, (fun _ => 0, fun _ => 0)).
Definition idle_array_advanced (_ _ _ : Index64) (_ _ : Z)
    : Error * (nat -> Z) :=
  (success, fun _ => 0).

(** An axis taken as it is given, the eight bytes of a count with the low
    byte first, and the kernel of [num] that writes [size] [length] times. *)
Definition axis_as_given (_ : NumpyArray) (axis : Z) : Z := axis.
Definition low_byte_first (z : Z) : list Byte.byte :=
  map (fun k : nat =>
         default Byte.x00
           (Byte.of_nat (Z.to_nat (Z.shiftr z (8 * Z.of_nat k) mod 256))))
      (seq 0 8).
Definition write_counts (_ : kernel.Lib) (size length : Z) : Error * buffer :=
  (success, flat_map (fun _ : nat => low_byte_first size)
              (seq 0 (Z.to_nat length))).

(** An argsort that finds every run in order already, a copy between
    backends that keeps the bytes, and a type string that is never set. *)
Definition positions_in_order (_ : dtype) (_ : buffer) (length : Z)
    (_ : Index64) (_ : Z) (_ _ : bool) : Error * buffer :=
  (success, flat_map (fun k : nat => low_byte_first (Z.of_nat k))
              (seq 0 (Z.to_nat length))).
Definition same_bytes (_ : dtype) (_ _ : kernel.Lib) (ptr : buffer) (_ : Z)
    : Error * buffer :=
  (success, ptr).

(** * Properties *)

(** ** Outcomes, messages and the constructor *)

Lemma contains_app_r (p a s : string) :
  contains p s = true -> contains p (a ++ s) = true.
Proof.
  intros H. induction a as [|c a IH]; simpl; [exact H|].
  rewrite IH. apply orb_true_r.
Qed.

Lemma handle_error_failure (msg : string) (id att : Z) (cls : string)
    (ids : bool) :
  exists w, handle_error (failure msg id att) cls ids
            = Thrown (invalid_argument w)
            /\ forall p, contains p msg = true -> contains p w = true.
Proof.
  unfold handle_error, failure; simpl.
  eexists; split; [reflexivity|].
  intros p Hp. repeat apply contains_app_r. exact Hp.
Qed.

Lemma handle_error_success (cls : string) (ids : bool) :
  handle_error success cls ids = Returned tt.
Proof. reflexivity. Qed.

Lemma raises_index_out_of_range {A} (id att : Z) (cls : string) (ids : bool)
    (k : unit -> outcome A) :
  raises (bind (handle_error (failure "index out of range" id att) cls ids) k)
         IndexError.
Proof.
  destruct (handle_error_failure "index out of range" id att cls ids)
    as (w & Hw & Hc).
  rewrite Hw; simpl. eexists; split; [reflexivity|].
  unfold error_is; simpl what_of. apply Hc. reflexivity.
Qed.

Lemma NumpyArray_make_agree ids ps ptr shape strides off isz fmt dt :
  length shape = length strides ->
  NumpyArray_make ids ps ptr shape strides off isz fmt dt
  = Returned (Build_NumpyArray ids ps ptr shape strides off isz fmt dt
                kernel.cpu_kernels).
Proof.
  intros H. unfold NumpyArray_make, NumpyArray_new.
  rewrite H, Nat.eqb_refl. reflexivity.
Qed.

Lemma NumpyArray_new_inv ids ps ptr shape strides off isz fmt dt lib v :
  NumpyArray_new ids ps ptr shape strides off isz fmt dt lib = Returned v ->
  length shape = length strides
  /\ v = Build_NumpyArray ids ps ptr shape strides off isz fmt dt lib.
Proof.
  unfold NumpyArray_new.
  destruct (length shape =? length strides)%nat eqn:E; simpl; [|discriminate].
  intros [= <-]. apply Nat.eqb_eq in E. auto.
Qed.

Lemma NumpyArray_make_inv ids ps ptr shape strides off isz fmt dt v :
  NumpyArray_make ids ps ptr shape strides off isz fmt dt = Returned v ->
  length shape = length strides
  /\ v = Build_NumpyArray ids ps ptr shape strides off isz fmt dt
           kernel.cpu_kernels.
Proof. apply NumpyArray_new_inv. Qed.

(** C6.  A construction whose shape and strides differ in length fails with
    the spec's ShapeError, and whatever the constructor returns has as many
    strides as it has dimensions. *)
Theorem NumpyArray_new_shape_strides ids ps ptr shape strides off isz fmt dt
    lib :
  (length shape <> length strides ->
   raises (NumpyArray_new ids ps ptr shape strides off isz fmt dt lib)
          ShapeError)
  /\ (forall v,
        NumpyArray_new ids ps ptr shape strides off isz fmt dt lib
        = Returned v ->
        length (shape_ v) = length (strides_ v)).
Proof.
  split.
  - intros Hne. unfold NumpyArray_new.
    destruct (length shape =? length strides)%nat eqn:E.
    + apply Nat.eqb_eq in E. contradiction.
    + simpl. eexists; split; [reflexivity|]. reflexivity.
  - intros v Hv. apply NumpyArray_new_inv in Hv as [Hlen ->]. exact Hlen.
Qed.

Lemma NumpyArray_new_shape_strides_witness :
  raises (NumpyArray_new None ∅ (bytes_upto 8) [2; 2] [2] 0 2 "h" int16
            kernel.cpu_kernels) ShapeError
  /\ (forall v,
        NumpyArray_new None ∅ (bytes_upto 8) [2; 2] [4; 2] 0 2 "h" int16
          kernel.cpu_kernels = Returned v ->
        length (shape_ v) = length (strides_ v)).
Proof.
  split.
  - apply (NumpyArray_new_shape_strides None ∅ (bytes_upto 8) [2; 2] [2] 0 2
             "h" int16 kernel.cpu_kernels). simpl. lia.
  - apply (NumpyArray_new_shape_strides None ∅ (bytes_upto 8) [2; 2] [4; 2] 0
             2 "h" int16 kernel.cpu_kernels).
Defined.

(** C10.  A scalar view is contiguous and is not empty, while its logical
    length is [-1]. *)
Theorem scalar_contiguous_not_empty (self : NumpyArray) :
  ndim self = 0 ->
  iscontiguous self = true
  /\ isempty self = false
  /\ NumpyArray_length self = -1.
Proof.
  unfold ndim, iscontiguous, isempty, NumpyArray_length, isscalar, ndim.
  intros H. destruct (shape_ self) as [|s shape]; [|simpl in H; lia].
  simpl. auto.
Qed.

Lemma scalar_contiguous_not_empty_witness :
  let self := Build_NumpyArray None ∅ (bytes_upto 8) [] [] 4 2 "h" int16
                kernel.cpu_kernels in
  iscontiguous self = true /\ isempty self = false
  /\ NumpyArray_length self = -1.
Proof.
  apply (scalar_contiguous_not_empty
           (Build_NumpyArray None ∅ (bytes_upto 8) [] [] 4 2 "h" int16
              kernel.cpu_kernels)).
  reflexivity.
Defined.

(** ** The promotion chain *)

Lemma merge_dtype_comm (a b : dtype) : merge_dtype a b = merge_dtype b a.
Proof. destruct a, b; reflexivity. Qed.

(** C2, on the source: the specification gives 128-bit complex for every
    integer, yet an 8-bit integer merged with 64-bit complex stays 64-bit
    complex. *)
Lemma merge_dtype_int8_complex64 :
  is_integer int8 = true /\ is_complex complex64 = true
  /\ merge_dtype int8 complex64 = Some complex64
  /\ merge_dtype int8 complex64 <> Some complex128.
Proof. repeat split; discriminate. Qed.

(** C2, amended.  An integer of 32 or 64 bits merged with 64-bit or 128-bit
    complex is promoted to 128-bit complex, in either order of the operands;
    an integer of 8 or 16 bits leaves the width of the complex operand as it
    is, and the widest complex type absorbs every integer. *)
Theorem merge_dtype_integer_complex (a b : dtype) :
  is_integer a = true -> is_complex b = true ->
  merge_dtype b a = merge_dtype a b
  /\ merge_dtype a b =
       Some (match b with
             | complex256 => complex256
             | complex128 => complex128
             | _ => match a with
                    | int32 | int64 | uint32 | uint64 => complex128
                    | _ => complex64
                    end
             end).
Proof. destruct a, b; try discriminate; intros _ _; split; reflexivity. Qed.

Lemma merge_dtype_integer_complex_witness :
  merge_dtype complex64 uint32 = merge_dtype uint32 complex64
  /\ merge_dtype uint32 complex64 = Some complex128.
Proof.
  apply (merge_dtype_integer_complex uint32 complex64); reflexivity.
Defined.

(** ** Indexing the leading dimension *)

Lemma getitem_at_in_range (self : NumpyArray) (at_ : Z) :
  0 <= at_ < shape_ self @ 0 ->
  getitem_at self at_ = getitem_at_nowrap self at_.
Proof.
  intros H. unfold getitem_at.
  replace (at_ <? 0) with false by lia.
  replace ((at_ <? 0) || (shape_ self @ 0 <=? at_)) with false by lia.
  reflexivity.
Qed.

Lemma getitem_at_wraps (self : NumpyArray) (at_ : Z) :
  - shape_ self @ 0 <= at_ < 0 ->
  getitem_at self at_ = getitem_at_nowrap self (at_ + shape_ self @ 0).
Proof.
  intros H. unfold getitem_at.
  replace (at_ <? 0) with true by lia.
  replace ((at_ + shape_ self @ 0 <?  0)
           || (shape_ self @ 0 <=? at_ + shape_ self @ 0)) with false by lia.
  reflexivity.
Qed.

Lemma getitem_at_out_of_range (self : NumpyArray) (at_ : Z) :
  0 <= shape_ self @ 0 ->
  shape_ self @ 0 <= at_ \/ at_ + shape_ self @ 0 < 0 ->
  raises (getitem_at self at_) IndexError.
Proof.
  intros HN H. unfold getitem_at.
  set (r := if at_ <? 0 then at_ + shape_ self @ 0 else at_).
  assert (Hr : (r <? 0) || (shape_ self @ 0 <=? r) = true).
  { subst r. destruct (Z.ltb_spec at_ 0); lia. }
  rewrite Hr. apply raises_index_out_of_range.
Qed.

Lemma getitem_at_nowrap_returns (self : NumpyArray) (at_ : Z) :
  shape_strides_agree self -> identities_cover self ->
  at_ < shape_ self @ 0 ->
  getitem_at_nowrap self at_
  = Returned
      (Build_NumpyArray
         (match identities_ self with
          | Some ids =>
              Some (Identities.getitem_range_nowrap ids at_ (at_ + 1))
          | None => None
          end)
         (parameters_ self) (ptr_ self) (drop 1 (shape_ self))
         (drop 1 (strides_ self))
         (byteoffset_ self + strides_ self @ 0 * at_) (itemsize_ self)
         (format_ self) (dtype_ self) kernel.cpu_kernels).
Proof.
  intros Hwf Hids Hat. unfold getitem_at_nowrap.
  assert (Hlen : length (drop 1 (shape_ self))
                 = length (drop 1 (strides_ self))).
  { rewrite !length_drop. rewrite Hwf. reflexivity. }
  unfold identities_cover in Hids.
  destruct (identities_ self) as [ids|]; simpl.
  - replace (Identities.length ids <=? at_) with false by lia. simpl.
    apply NumpyArray_make_agree, Hlen.
  - apply NumpyArray_make_agree, Hlen.
Qed.

(** C5.  On a view whose leading extent [N] is at least [1], index [-1]
    selects what index [N - 1] selects, a negative index selecting what the
    index [N] higher does, and it is the view of that element; an index [at]
    with [at >= N] or [at + N < 0] raises the spec's IndexError, as does
    index [10] on an array of length [3]. *)
Theorem getitem_at_negative_index (self : NumpyArray) :
  shape_strides_agree self -> identities_cover self ->
  1 <= ndim self -> 1 <= shape_ self @ 0 ->
  let N := shape_ self @ 0 in
  getitem_at self (-1) = getitem_at self (N - 1)
  /\ (forall at_, - N <= at_ < 0 ->
                  getitem_at self at_ = getitem_at self (at_ + N))
  /\ (exists v, getitem_at self (-1) = Returned v
                /\ shape_ v = drop 1 (shape_ self)
                /\ strides_ v = drop 1 (strides_ self)
                /\ byteoffset_ v
                   = byteoffset_ self + strides_ self @ 0 * (N - 1)
                /\ ptr_ v = ptr_ self)
  /\ (forall at_, N <= at_ \/ at_ + N < 0 ->
                  raises (getitem_at self at_) IndexError)
  /\ (N = 3 -> raises (getitem_at self 10) IndexError).
Proof.
  intros Hwf Hids Hnd HN N.
  assert (E1 : getitem_at self (-1) = getitem_at_nowrap self (N - 1)).
  { rewrite getitem_at_wraps by (fold N; lia). f_equal. subst N. lia. }
  assert (E2 : getitem_at self (N - 1) = getitem_at_nowrap self (N - 1)).
  { apply getitem_at_in_range. fold N. lia. }
  split; [congruence|]. split.
  { intros at_ Hat. rewrite getitem_at_wraps by (fold N; lia).
    symmetry. apply getitem_at_in_range. fold N. lia. }
  split.
  - rewrite E1, getitem_at_nowrap_returns by (auto; fold N; lia).
    eexists; split; [reflexivity|]. simpl. auto.
  - split.
    + intros at_ Hat. apply getitem_at_out_of_range; fold N; lia.
    + intros H3. apply getitem_at_out_of_range; fold N; lia.
Qed.

Lemma getitem_at_negative_index_witness :
  getitem_at (int16_view [3] [2] 0) (-1) = getitem_at (int16_view [3] [2] 0) 2
  /\ raises (getitem_at (int16_view [3] [2] 0) 10) IndexError.
Proof.
  assert (H := getitem_at_negative_index (int16_view [3] [2] 0)).
  destruct H as (H1 & _ & _ & _ & H4).
  - reflexivity.
  - exact I.
  - vm_compute; discriminate.
  - vm_compute; discriminate.
  - split; [exact H1 | apply H4; reflexivity].
Defined.

(** ** Scalars *)

Lemma getitem_scalar (self : NumpyArray) (where_ : Slice.t) :
  ndim self = 0 ->
  getitem self where_ = Thrown (runtime_error "cannot get-item on a scalar").
Proof. intros H. unfold getitem, isscalar. rewrite H. reflexivity. Qed.

Lemma merge_flat_scalar cast (self : NumpyArray) (other : Content) :
  ndim self = 0 ->
  merge_flat cast self other
  = Thrown (invalid_argument "cannot merge Numpy scalars").
Proof. intros H. unfold merge_flat. rewrite H. reflexivity. Qed.

(** C8, on the source: the test for scalars comes after the dispatch
    on the class of the other operand, so a scalar merged with an empty array
    is handed back and nothing is raised. *)
Lemma merge_scalar_empty_returns :
  ndim int8_scalar = 0
  /\ merge no_cast int8_scalar (CEmptyArray ∅)
     = Returned (CNumpyArray int8_scalar)
  /\ ~ raises (merge no_cast int8_scalar (CEmptyArray ∅)) ShapeError.
Proof.
  split; [reflexivity|]. split; [reflexivity|].
  intros (e & He & _). discriminate He.
Qed.

(** C8, amended.  On a scalar view, [getitem] raises the spec's ShapeError
    for every slice, and [merge] raises it for every right operand with which
    it gets as far as its test for scalars, every flat array with the same
    parameters among them; neither returns a value there.  Merged with an
    empty array of the same parameters, a scalar whose shape and strides
    agree is handed back, as the shallow copy of itself, and nothing is
    raised. *)
Theorem scalar_getitem_merge_raise cast (self : NumpyArray) :
  ndim self = 0 ->
  (forall where_, raises (getitem self where_) ShapeError
                  /\ ~ returns (getitem self where_))
  /\ (forall other,
        merge_reaches_scalar_test (parameters_ self) other = true ->
        raises (merge cast self other) ShapeError
        /\ ~ returns (merge cast self other))
  /\ (forall other,
        parameters_equal (parameters_ self) (parameters_ other) = true ->
        raises (merge cast self (CNumpyArray other)) ShapeError
        /\ ~ returns (merge cast self (CNumpyArray other)))
  /\ (shape_strides_agree self ->
      forall parameters,
        parameters_equal (parameters_ self) parameters = true ->
        shallow_copy self
        = Returned
            (Build_NumpyArray (identities_ self) (parameters_ self)
               (ptr_ self) (shape_ self) (strides_ self) (byteoffset_ self)
               (itemsize_ self) (format_ self) (dtype_ self)
               kernel.cpu_kernels)
        /\ merge cast self (CEmptyArray parameters)
           = (do c <- shallow_copy self; Returned (CNumpyArray c))
        /\ merge cast self (CEmptyArray parameters)
           = Returned
               (CNumpyArray
                  (Build_NumpyArray (identities_ self) (parameters_ self)
                     (ptr_ self) (shape_ self) (strides_ self)
                     (byteoffset_ self) (itemsize_ self) (format_ self)
                     (dtype_ self) kernel.cpu_kernels))
        /\ ~ raises (merge cast self (CEmptyArray parameters)) ShapeError).
Proof.
  intros H.
  assert (Hflat : forall other,
            raises (merge_flat cast self other) ShapeError
            /\ ~ returns (merge_flat cast self other)).
  { intros other. rewrite merge_flat_scalar by exact H. split.
    - eexists; split; reflexivity.
    - intros [a Ha]; discriminate. }
  assert (Hmerge : forall other,
            merge_reaches_scalar_test (parameters_ self) other = true ->
            raises (merge cast self other) ShapeError
            /\ ~ returns (merge cast self other)).
  { induction other as [o|ps|ids ps content IH size
                        |ids ps mask content IH vw|array IH|name ps];
      simpl; intros Hr; try discriminate.
    - rewrite Hr. apply Hflat.
    - rewrite Hr. apply Hflat.
    - apply IH, Hr.
    - apply andb_prop in Hr as [Hp Hn]. rewrite Hp.
      apply negb_true_iff in Hn. rewrite Hn. apply Hflat. }
  split; [|split; [|split]].
  - intros where_. rewrite getitem_scalar by exact H. split.
    + eexists; split; reflexivity.
    + intros [a Ha]; discriminate.
  - exact Hmerge.
  - intros other Hp. apply Hmerge. exact Hp.
  - intros Hwf parameters Hp.
    assert (Hcopy : shallow_copy self
                    = Returned
                        (Build_NumpyArray (identities_ self)
                           (parameters_ self) (ptr_ self) (shape_ self)
                           (strides_ self) (byteoffset_ self)
                           (itemsize_ self) (format_ self) (dtype_ self)
                           kernel.cpu_kernels)).
    { unfold shallow_copy. apply NumpyArray_make_agree, Hwf. }
    assert (Hempty : merge cast self (CEmptyArray parameters)
                     = (do c <- shallow_copy self; Returned (CNumpyArray c))).
    { cbn [merge Content_parameters]. rewrite Hp. reflexivity. }
    split; [exact Hcopy|]. split; [exact Hempty|].
    rewrite Hempty, Hcopy. cbn [bind]. split; [reflexivity|].
    intros (e & He & _). discriminate He.
Qed.

Lemma scalar_getitem_merge_raise_witness :
  raises (getitem int8_scalar [SliceAt 0]) ShapeError
  /\ raises (merge no_cast int8_scalar
               (CNumpyArray (int16_view [3] [2] 0))) ShapeError
  /\ returns (merge no_cast int8_scalar (CEmptyArray ∅)).
Proof.
  destruct (scalar_getitem_merge_raise no_cast int8_scalar)
    as (H1 & _ & H2 & H3).
  - reflexivity.
  - split; [|split].
    + apply (H1 [SliceAt 0]).
    + apply (H2 (int16_view [3] [2] 0)). reflexivity.
    + destruct (H3 eq_refl ∅) as (_ & _ & H4 & _); [reflexivity|].
      eexists. exact H4.
Defined.
(** ** Packed layouts *)

Lemma vec_at_lookup (l : list Z) (i : nat) (x : Z) :
  l !! i = Some x -> l @ i = x.
Proof. intros H. unfold vec_at. rewrite nth_lookup, H. reflexivity. Qed.

Lemma lookup_vec_at (l : list Z) (i : nat) :
  (i < length l)%nat -> l !! i = Some (l @ i).
Proof.
  intros H. destruct (lookup_lt_is_Some_2 l i H) as [x Hx].
  rewrite Hx. f_equal. symmetry. apply vec_at_lookup, Hx.
Qed.

Lemma take_S_vec_at (l : list Z) (i : nat) :
  (i < length l)%nat -> take (S i) l = take i l ++ [l @ i].
Proof. intros H. apply take_S_r, lookup_vec_at, H. Qed.

Lemma product_nil : product [] = 1.
Proof. reflexivity. Qed.

Lemma product_cons (a : Z) (l : list Z) : product (a :: l) = a * product l.
Proof. reflexivity. Qed.

Lemma product_app (l l' : list Z) :
  product (l ++ l') = product l * product l'.
Proof.
  induction l as [|a l IH]; simpl.
  - rewrite product_nil. lia.
  - rewrite !product_cons, IH. lia.
Qed.

Lemma packed_strides_snoc (x a : Z) (l : list Z) :
  packed_strides x (l ++ [a]) = packed_strides (x * a) l ++ [x].
Proof.
  induction l as [|s l IH]; simpl.
  - rewrite product_nil. f_equal. lia.
  - rewrite IH. f_equal. rewrite !product_app, product_cons, product_nil. lia.
Qed.

Lemma packed_strides_length (x : Z) (l : list Z) :
  length (packed_strides x l) = length l.
Proof. induction l; simpl; congruence. Qed.

Lemma iscontiguous_loop_packed (shape strides : list Z) (i : nat) (x : Z) :
  (i <= length shape)%nat -> length shape = length strides ->
  iscontiguous_loop shape strides i x = true
  <-> take i strides = packed_strides x (take i shape).
Proof.
  intros Hi Hlen. revert x. induction i as [|i IH]; intros x.
  - simpl. rewrite !take_0. simpl. tauto.
  - rewrite !take_S_vec_at by lia. rewrite packed_strides_snoc. simpl.
    destruct (Z.eqb_spec x (strides @ i)) as [->|Hne]; simpl.
    + rewrite IH by lia. split.
      * intros ->. reflexivity.
      * intros H. apply app_inj_2 in H; [tauto | reflexivity].
    + split; [discriminate|].
      intros H. apply app_inj_2 in H as [_ H]; [|reflexivity].
      congruence.
Qed.

Lemma iscontiguous_packed (self : NumpyArray) :
  shape_strides_agree self ->
  iscontiguous self = true
  <-> strides_ self = packed_strides (itemsize_ self) (shape_ self).
Proof.
  intros Hwf. unfold iscontiguous.
  rewrite iscontiguous_loop_packed by (auto; lia).
  rewrite take_ge by (rewrite Hwf; lia). rewrite take_ge by lia. tauto.
Qed.

(** ** Gathering by chunks *)

Lemma flat_map_chunk_lookup {A B} (f : A -> list B) (c : nat) (l : list A)
    (i k : nat) (p : A) :
  (forall q, length (f q) = c) -> l !! i = Some p -> (k < c)%nat ->
  flat_map f l !! (i * c + k)%nat = f p !! k.
Proof.
  intros Hc. revert i. induction l as [|a l IH]; intros i Hi Hk.
  - discriminate.
  - simpl. destruct i as [|i]; simpl in Hi.
    + injection Hi as ->. simpl. apply lookup_app_l. rewrite Hc. exact Hk.
    + rewrite lookup_app_r by (rewrite Hc; lia).
      rewrite Hc. replace (S i * c + k - c)%nat with (i * c + k)%nat by lia.
      apply IH; assumption.
Qed.

Lemma read_bytes_length (b : buffer) (pos len : Z) :
  length (read_bytes b pos len) = Z.to_nat len.
Proof. unfold read_bytes. rewrite length_map, length_seq. reflexivity. Qed.

Lemma read_bytes_lookup (b : buffer) (pos len : Z) (k : nat) :
  (k < Z.to_nat len)%nat ->
  read_bytes b pos len !! k = Some (getbyte_raw b (pos + Z.of_nat k)).
Proof.
  intros Hk. unfold read_bytes. rewrite list_lookup_fmap.
  rewrite lookup_seq_lt by exact Hk. reflexivity.
Qed.

Lemma read_bytes_ext (b b' : buffer) (pos pos' len : Z) :
  (forall k : nat, (k < Z.to_nat len)%nat ->
     getbyte_raw b (pos + Z.of_nat k) = getbyte_raw b' (pos' + Z.of_nat k)) ->
  read_bytes b pos len = read_bytes b' pos' len.
Proof.
  intros H. unfold read_bytes. apply map_ext_in.
  intros k Hk. apply in_seq in Hk. apply H. lia.
Qed.

(** Reading inside chunk [i] of a gathered buffer reads the source at the
    position that the chunk was copied from. *)
Lemma read_gathered (src : buffer) (base stride : Z) (pos : list Z) (i : nat)
    (p off n : Z) :
  pos !! i = Some p -> 0 <= off -> off + n <= stride ->
  read_bytes (flat_map (fun q => read_bytes src (base + q) stride) pos)
    (Z.of_nat i * stride + off) n
  = read_bytes src (base + p + off) n.
Proof.
  intros Hi Hoff Hn. apply read_bytes_ext. intros k Hk.
  assert (Hs : 0 <= Z.of_nat i * stride) by nia.
  unfold getbyte_raw at 1.
  replace (Z.of_nat i * stride + off + Z.of_nat k <? 0) with false by lia.
  rewrite nth_lookup.
  replace (Z.to_nat (Z.of_nat i * stride + off + Z.of_nat k))
    with (i * Z.to_nat stride + Z.to_nat (off + Z.of_nat k))%nat
    by (rewrite !Z2Nat.inj_add, Z2Nat.inj_mul, Nat2Z.id by lia; lia).
  rewrite (flat_map_chunk_lookup _ (Z.to_nat stride) pos i _ p);
    [|intros q; apply read_bytes_length|exact Hi|lia].
  rewrite read_bytes_lookup by lia. simpl. f_equal. lia.
Qed.

Lemma read_bytes_nonpositive (b : buffer) (pos len : Z) :
  len <= 0 -> read_bytes b pos len = [].
Proof.
  intros H. unfold read_bytes. replace (Z.to_nat len) with 0%nat by lia.
  reflexivity.
Qed.

Lemma element_offset_packed_bound (itemsize : Z) (idx shape : list Z) :
  0 <= itemsize -> index_in_range idx shape ->
  0 <= element_offset idx (packed_strides itemsize shape)
  /\ element_offset idx (packed_strides itemsize shape) + itemsize
     <= itemsize * product shape.
Proof.
  intros Hsz H. induction H as [|i s idx shape Hi _ IH]; simpl.
  - rewrite product_nil. lia.
  - rewrite product_cons. destruct IH as [IH1 IH2]. split; nia.
Qed.

Lemma take_Index_length (l : list Z) :
  take (Z.to_nat (Index_length l)) l = l.
Proof. apply take_ge. unfold Index_length. lia. Qed.

(** ** Contiguity normalisation *)

Lemma index_in_range_nil (idx : list Z) : index_in_range idx [] -> idx = [].
Proof. intros H. inversion H. reflexivity. Qed.

Lemma index_in_range_cons (idx : list Z) (s : Z) (shape : list Z) :
  index_in_range idx (s :: shape) ->
  exists i idx', idx = i :: idx' /\ 0 <= i < s /\ index_in_range idx' shape.
Proof. intros H. inversion H; subst. eauto. Qed.

Lemma contiguous_next_spec (fuel : nat) (self : NumpyArray)
    (bytepos : Index64) :
  shape_strides_agree self -> (1 <= length (shape_ self))%nat ->
  (length (shape_ self) <= fuel)%nat ->
  exists ptr,
    contiguous_next fuel self bytepos = Returned (packed_copy self ptr)
    /\ forall (i : nat) (p : Z) (idx : list Z),
         bytepos !! i = Some p ->
         index_in_range idx (drop 1 (shape_ self)) ->
         read_bytes ptr
           (Z.of_nat i * (itemsize_ self * product (drop 1 (shape_ self)))
            + element_offset idx
                (packed_strides (itemsize_ self) (drop 1 (shape_ self))))
           (itemsize_ self)
         = read_bytes (ptr_ self)
             (byteoffset_ self + p
              + element_offset idx (drop 1 (strides_ self)))
             (itemsize_ self).
Proof.
  revert self bytepos. induction fuel as [|fuel IH]; intros self bytepos
    Hwf Hnd Hfuel; [lia|].
  cbn [contiguous_next].
  destruct (iscontiguous self) eqn:Hc.
  - (* the view is packed already: one copy of whole items *)
    apply iscontiguous_packed in Hc; [|exact Hwf].
    unfold kernel.NumpyArray_contiguous_copy_64.
    rewrite take_Index_length, handle_error_success. cbn [bind].
    rewrite NumpyArray_make_agree by exact Hwf.
    eexists; split.
    { unfold packed_copy. rewrite <- Hc. reflexivity. }
    intros i p idx Hi Hidx.
    destruct (Z.le_gt_cases (itemsize_ self) 0) as [Hsz|Hsz].
    { rewrite !read_bytes_nonpositive by exact Hsz. reflexivity. }
    destruct (shape_ self) as [|s0 rest] eqn:Hshape; [simpl in Hnd; lia|].
    rewrite Hc. simpl in Hidx |- *.
    destruct (element_offset_packed_bound (itemsize_ self) idx rest)
      as [Hlo Hhi]; [lia|exact Hidx|].
    apply read_gathered; [exact Hi|exact Hlo|exact Hhi].
  - unfold shape_strides_agree in Hwf.
    destruct (shape_ self) as [|s0 [|s1 rest]] eqn:Hshape;
      [simpl in Hnd; lia| |];
      destruct (strides_ self) as [|st0 [|st1 strest]] eqn:Hstrides;
      try (simpl in Hwf; lia).
    + (* one dimension, strided *)
      simpl.
      eexists; split.
      { unfold packed_copy. rewrite Hshape. simpl.
        rewrite product_nil, Z.mul_1_r. reflexivity. }
      intros i p idx Hi Hidx.
      apply index_in_range_nil in Hidx as ->. simpl.
      rewrite product_nil, Z.mul_1_r, take_Index_length.
      apply read_gathered; [exact Hi|lia|lia].
    + (* flatten the two outermost dimensions and recurse *)
      unfold flatten_shape, flatten_strides.
      change (length (s0 :: s1 :: rest) =? 1)%nat with false.
      change (length (st0 :: st1 :: strest) =? 1)%nat with false.
      cbv iota. cbn [skipn].
      rewrite drop_0.
      rewrite NumpyArray_make_agree by (simpl in *; lia).
      cbn [bind].
      unfold kernel.NumpyArray_contiguous_next_64.
      rewrite take_Index_length, handle_error_success. cbn [bind].
      set (next := Build_NumpyArray _ _ _ _ _ _ _ _ _ _).
      set (nextbytepos := flat_map _ bytepos).
      destruct (IH next nextbytepos) as (ptr & Hout & Hread).
      { unfold shape_strides_agree, next. simpl in *. lia. }
      { simpl. lia. }
      { simpl in *. lia. }
      rewrite Hout. cbn [bind]. subst next. unfold vec_at.
      simpl in Hread |- *. rewrite ?drop_0 in Hread.
      rewrite NumpyArray_make_agree
        by (simpl; rewrite packed_strides_length; simpl in Hwf; lia).
      eexists; split.
      { unfold packed_copy. rewrite Hshape. simpl. rewrite product_cons.
        f_equal; f_equal; try reflexivity. f_equal. lia. }
      intros i p idx Hi Hidx.
      apply index_in_range_cons in Hidx as (j & idx' & -> & Hj & Hidx').
      simpl. rewrite product_cons.
      specialize (Hread (i * Z.to_nat s1 + Z.to_nat j)%nat (p + j * st1) idx').
      replace (Z.of_nat i * (itemsize_ self * (s1 * product rest))
               + (j * (itemsize_ self * product rest)
                  + element_offset idx'
                      (packed_strides (itemsize_ self) rest)))
        with (Z.of_nat (i * Z.to_nat s1 + Z.to_nat j)
              * (itemsize_ self * product rest)
              + element_offset idx' (packed_strides (itemsize_ self) rest))
        by (rewrite Nat2Z.inj_add, Nat2Z.inj_mul, !Z2Nat.id by lia; lia).
      rewrite Hread; [f_equal; lia| |exact Hidx'].
      subst nextbytepos. unfold vec_at. cbn [nth].
      rewrite (flat_map_chunk_lookup _ (Z.to_nat s1) bytepos i (Z.to_nat j) p);
        [|intros q; rewrite length_map, length_seq; reflexivity
         |exact Hi|lia].
      rewrite list_lookup_fmap, lookup_seq_lt by lia. simpl.
      f_equal. rewrite Z2Nat.id by lia. reflexivity.
Qed.

Lemma iscontiguous_packed_copy (self : NumpyArray) (ptr : buffer) :
  iscontiguous (packed_copy self ptr) = true.
Proof.
  apply iscontiguous_packed.
  - unfold shape_strides_agree, packed_copy; simpl.
    symmetry. apply packed_strides_length.
  - reflexivity.
Qed.

Lemma contiguous_fixed (c : NumpyArray) :
  shape_strides_agree c -> iscontiguous c = true ->
  ptr_lib_ c = kernel.cpu_kernels ->
  contiguous c = Returned c.
Proof.
  intros Hwf Hc Hlib. unfold contiguous. rewrite Hc.
  rewrite NumpyArray_make_agree by exact Hwf.
  destruct c; simpl in *. subst. reflexivity.
Qed.

(** What [contiguous] returns: the view itself when it is packed already,
    and otherwise a packed copy at the start of a new buffer that holds the
    same elements. *)
Lemma contiguous_spec (self : NumpyArray) :
  shape_strides_agree self ->
  exists c,
    contiguous self = Returned c
    /\ shape_strides_agree c
    /\ iscontiguous c = true
    /\ ptr_lib_ c = kernel.cpu_kernels
    /\ shape_ c = shape_ self
    /\ strides_ c = packed_strides (itemsize_ self) (shape_ self)
    /\ itemsize_ c = itemsize_ self
    /\ dtype_ c = dtype_ self
    /\ (iscontiguous self = false -> byteoffset_ c = 0)
    /\ forall idx, index_in_range idx (shape_ self) ->
                   element_at c idx = element_at self idx.
Proof.
  intros Hwf. unfold contiguous.
  destruct (iscontiguous self) eqn:Hc.
  - rewrite NumpyArray_make_agree by exact Hwf.
    eexists; split; [reflexivity|].
    apply iscontiguous_packed in Hc as Hp; [|exact Hwf].
    repeat split; simpl; auto; try discriminate.
  - unfold kernel.NumpyArray_contiguous_init_64.
    rewrite handle_error_success. cbn [bind].
    destruct (shape_ self) as [|s0 rest] eqn:Hshape.
    { unfold iscontiguous in Hc. rewrite Hshape in Hc. discriminate. }
    destruct (contiguous_next_spec (length (s0 :: rest)) self
                (map (fun i : nat => Z.of_nat i * strides_ self @ 0)
                     (seq 0 (Z.to_nat ((s0 :: rest) @ 0)))))
      as (ptr & Hout & Hread).
    { exact Hwf. } { rewrite Hshape; simpl; lia. } { rewrite Hshape; lia. }
    rewrite Hout. eexists; split; [reflexivity|].
    split. { unfold shape_strides_agree, packed_copy; simpl.
             symmetry; apply packed_strides_length. }
    split; [apply iscontiguous_packed_copy|].
    unfold packed_copy; simpl. rewrite Hshape.
    repeat split; auto.
    intros idx Hidx.
    apply index_in_range_cons in Hidx as (i & idx' & -> & Hi & Hidx').
    unfold element_at; simpl.
    unfold shape_strides_agree in Hwf. rewrite Hshape in Hwf, Hread.
    destruct (strides_ self) as [|st0 strest] eqn:Hstrides;
      [simpl in Hwf; lia|].
    specialize (Hread (Z.to_nat i) (i * st0) idx').
    simpl in Hread. rewrite ?drop_0 in Hread.
    rewrite Z2Nat.id in Hread by lia.
    simpl. rewrite !Z.add_assoc, Z.add_0_l.
    rewrite <- Hread; [reflexivity| |exact Hidx'].
    rewrite list_lookup_fmap, lookup_seq_lt by (unfold vec_at; simpl; lia).
    simpl. unfold vec_at; simpl. rewrite Z2Nat.id by lia. reflexivity.
Qed.

(** C3.  Contiguity normalisation returns a packed view [c] of the same shape
    that a second normalisation hands back as it is, buffer included, and
    every element read through [c] is the element read through the view
    itself. *)
Theorem contiguous_round_trip (self : NumpyArray) :
  shape_strides_agree self ->
  exists c,
    contiguous self = Returned c
    /\ contiguous c = Returned c
    /\ (do c1 <- contiguous self; contiguous c1) = contiguous self
    /\ iscontiguous c = true
    /\ shape_ c = shape_ self
    /\ forall idx, index_in_range idx (shape_ self) ->
                   element_at c idx = element_at self idx.
Proof.
  intros Hwf.
  destruct (contiguous_spec self Hwf)
    as (c & Hc & Hwfc & Hcont & Hlib & Hshape & _ & _ & _ & _ & Hread).
  assert (Hcc : contiguous c = Returned c)
    by (apply contiguous_fixed; assumption).
  exists c. rewrite Hc. cbn [bind]. auto 10.
Qed.

Lemma contiguous_round_trip_witness :
  exists c,
    contiguous (int16_view [2; 3] [24; 4] 2) = Returned c
    /\ contiguous c = Returned c
    /\ (do c1 <- contiguous (int16_view [2; 3] [24; 4] 2); contiguous c1)
       = contiguous (int16_view [2; 3] [24; 4] 2)
    /\ iscontiguous c = true
    /\ shape_ c = [2; 3]
    /\ forall idx, index_in_range idx [2; 3] ->
                   element_at c idx
                   = element_at (int16_view [2; 3] [24; 4] 2) idx.
Proof.
  apply (contiguous_round_trip (int16_view [2; 3] [24; 4] 2)).
  reflexivity.
Defined.

(** ** Fresh buffers start at byte 0 *)

Lemma bind_returned_inv {A B} (m : outcome A) (k : A -> outcome B) (b : B) :
  bind m k = Returned b -> exists a, m = Returned a /\ k a = Returned b.
Proof. destruct m; simpl; try discriminate. eauto. Qed.

Ltac inv_returned H :=
  repeat first
    [ progress (cbn [bind] in H)
    | match type of H with
      | bind ?m _ = Returned _ =>
          let a := fresh "a" in
          let E := fresh "E" in
          apply bind_returned_inv in H as (a & E & H)
      | (let '(_, _) := ?p in _) = Returned _ =>
          let E := fresh "E" in destruct p eqn:E
      | (if ?b then _ else _) = Returned _ =>
          let E := fresh "E" in destruct b eqn:E; try discriminate H
      | match ?x with _ => _ end = Returned _ =>
          let E := fresh "E" in destruct x eqn:E; try discriminate H
      end ].

Lemma NumpyArray_make_byteoffset ids ps ptr shape strides off isz fmt dt v :
  NumpyArray_make ids ps ptr shape strides off isz fmt dt = Returned v ->
  byteoffset_ v = off.
Proof. intros H. apply NumpyArray_make_inv in H as [_ ->]. reflexivity. Qed.

Lemma carry_byteoffset (self : NumpyArray) (c : Index64) (allow_lazy : bool)
    (out : NumpyArray) :
  carry self c allow_lazy = Returned out -> byteoffset_ out = 0.
Proof.
  unfold carry. intros H. inv_returned H.
  all: eapply NumpyArray_make_byteoffset; eassumption.
Qed.

Lemma contiguous_next_byteoffset (fuel : nat) (self : NumpyArray)
    (bytepos : Index64) (out : NumpyArray) :
  contiguous_next fuel self bytepos = Returned out -> byteoffset_ out = 0.
Proof.
  revert self bytepos out. induction fuel as [|fuel IH];
    intros self bytepos out H; [discriminate|].
  cbn [contiguous_next] in H.
  destruct (iscontiguous self).
  - inv_returned H. eapply NumpyArray_make_byteoffset; eassumption.
  - destruct (length (shape_ self) =? 1)%nat.
    + inv_returned H. eapply NumpyArray_make_byteoffset; eassumption.
    + apply bind_returned_inv in H as (next & _ & H).
      unfold kernel.NumpyArray_contiguous_next_64 in H.
      apply bind_returned_inv in H as (? & _ & H).
      apply bind_returned_inv in H as (out' & Hout' & H).
      apply NumpyArray_make_byteoffset in H. rewrite H.
      eapply IH, Hout'.
Qed.

Lemma merge_bytes_byteoffset cast (self other : NumpyArray) (c : Content) :
  merge_bytes cast self other = Returned c ->
  exists out, c = CNumpyArray out /\ byteoffset_ out = 0
              /\ dtype_ out = dtype_ self
              /\ shape_ out
                 = [NumpyArray_length self + NumpyArray_length other].
Proof.
  unfold merge_bytes, NumpyArray_fill. intros H. inv_returned H.
  injection H as <-. eexists; split; [reflexivity|].
  match goal with
  | E : NumpyArray_make _ _ _ _ _ _ _ _ _ = Returned _ |- _ =>
      apply NumpyArray_make_inv in E as [_ ->]
  end.
  simpl. auto.
Qed.

(** ** Merging two flat arrays *)

Lemma merge_fill_returns cast (d a b : dtype) (ptr sp : buffer) (so sl : Z)
    (op : buffer) (oo ol : Z) :
  merge_fill_implemented d a b = true ->
  exists ptr', merge_fill cast d a b ptr sp so sl op oo ol = Returned ptr'.
Proof.
  unfold merge_fill, merge_fill_implemented, merge_fill_operand,
    NumpyArray_fill_frombool, NumpyArray_fill.
  destruct d; try discriminate; try (intros _; cbn [bind]; eauto; fail);
    destruct (merge_fill_case _ a), (merge_fill_case _ b);
    try discriminate; intros _; cbn; eauto.
Qed.

Lemma merge_fill_throws cast (d a b : dtype) (ptr sp : buffer) (so sl : Z)
    (op : buffer) (oo ol : Z) :
  merge_fill_implemented d a b = false ->
  exists e, merge_fill cast d a b ptr sp so sl op oo ol = Thrown e.
Proof.
  unfold merge_fill, merge_fill_implemented, merge_fill_operand,
    NumpyArray_fill_frombool, NumpyArray_fill.
  destruct d; try discriminate; try (intros _; cbn [bind]; eauto; fail);
    destruct (merge_fill_case _ a), (merge_fill_case _ b);
    try discriminate; intros _; cbn; eauto.
Qed.

Lemma merge_fill_implemented_comm (d a b : dtype) :
  merge_fill_implemented d a b = merge_fill_implemented d b a.
Proof. unfold merge_fill_implemented. destruct d; auto using andb_comm. Qed.

Lemma forallb_pointwise {A} (f g : A -> bool) (l : list A) :
  (forall x, f x = g x) -> forallb f l = forallb g l.
Proof. intros H. induction l as [|a l IH]; simpl; congruence. Qed.

Lemma parameters_equal_sym (p q : Parameters) :
  parameters_equal p q = parameters_equal q p.
Proof.
  unfold parameters_equal, parameter_equals.
  rewrite !forallb_app, andb_comm.
  f_equal; apply forallb_pointwise; intros k;
    apply bool_decide_ext; split; congruence.
Qed.

Lemma merge_bytes_applies_sym (x y : NumpyArray) :
  merge_bytes_applies x y = merge_bytes_applies y x.
Proof.
  unfold merge_bytes_applies.
  destruct (is_bytestring (parameters_ x)), (is_bytestring (parameters_ y)),
    (ndim x =? 1), (ndim y =? 1), (itemsize_ x =? 1), (itemsize_ y =? 1);
    reflexivity.
Qed.

(** The flat array that the promoting branch of [merge] builds. *)
Lemma merge_flat_1d cast (x y : NumpyArray) (nx ny : Z) :
  shape_strides_agree x -> shape_strides_agree y ->
  shape_ x = [nx] -> shape_ y = [ny] ->
  merge_bytes_applies x y = false ->
  match merge_dtype (dtype_ x) (dtype_ y) with
  | None => exists e, merge_flat cast x (CNumpyArray y) = Thrown e
  | Some d =>
      if merge_fill_implemented d (dtype_ x) (dtype_ y) then
        exists ptr,
          merge_flat cast x (CNumpyArray y)
          = Returned (CNumpyArray
              (Build_NumpyArray None (parameters_ x) ptr [nx + ny]
                 [dtype_to_itemsize d] 0 (dtype_to_itemsize d)
                 (dtype_to_format d) d kernel.cpu_kernels))
      else exists e, merge_flat cast x (CNumpyArray y) = Thrown e
  end.
Proof.
  intros Hx Hy Hsx Hsy Hfast.
  destruct (contiguous_spec x Hx) as (cx & Hcx & _).
  destruct (contiguous_spec y Hy) as (cy & Hcy & _).
  unfold merge_flat.
  assert (Hnx : ndim x = 1) by (unfold ndim; rewrite Hsx; reflexivity).
  assert (Hny : ndim y = 1) by (unfold ndim; rewrite Hsy; reflexivity).
  rewrite Hnx. change (1 =? 0) with false. cbv iota.
  unfold merge_bytes_applies in Hfast. rewrite Hnx, Hny in Hfast.
  replace (if is_bytestring (parameters_ x)
              && is_bytestring (Content_parameters (CNumpyArray y))
           then if (1 =? 1) && (ndim y =? 1) && (itemsize_ x =? 1)
                   && (itemsize_ y =? 1)
                then Some y else None
           else None) with (@None NumpyArray).
  2:{ simpl. rewrite Hny.
      destruct (is_bytestring (parameters_ x)),
        (is_bytestring (parameters_ y)), (itemsize_ x =? 1),
        (itemsize_ y =? 1); simpl in *; congruence. }
  rewrite Hcx. cbn [bind]. rewrite Hny. change (negb (1 =? 1)) with false.
  cbv iota. cbn [bind].
  destruct (merge_dtype (dtype_ x) (dtype_ y)) as [d|]; [|cbn [bind]; eauto].
  cbn [bind]. rewrite Hsx, Hsy. cbn [length Nat.sub merge_shape_loop bind].
  rewrite Hcy. cbn [bind]. unfold vec_at. cbn [nth].
  destruct (merge_fill_implemented d (dtype_ x) (dtype_ y)) eqn:Hfill.
  - edestruct (merge_fill_returns cast) as [ptr' Hptr]; [exact Hfill|].
    rewrite Hptr. cbn [bind].
    rewrite NumpyArray_make_agree by reflexivity. cbn [bind]. eauto.
  - edestruct (merge_fill_throws cast) as [e He]; [exact Hfill|].
    rewrite He. cbn [bind]. eauto.
Qed.

Lemma merge_flat_fast cast (x y : NumpyArray) :
  ndim x <> 0 -> merge_bytes_applies x y = true ->
  merge_flat cast x (CNumpyArray y) = merge_bytes cast x y.
Proof.
  intros Hnd Hfast. unfold merge_flat, merge_bytes_applies in *.
  replace (ndim x =? 0) with false by lia. simpl.
  destruct (is_bytestring (parameters_ x)),
    (is_bytestring (parameters_ y)), (ndim x =? 1), (ndim y =? 1),
    (itemsize_ x =? 1), (itemsize_ y =? 1); simpl in *;
    congruence.
Qed.

Lemma merge_numpy_equal_parameters cast (x y : NumpyArray) :
  merge cast x (CNumpyArray y)
  = if parameters_equal (parameters_ x) (parameters_ y)
    then merge_flat cast x (CNumpyArray y)
    else Delegated "Content::merge_as_union".
Proof.
  simpl. destruct (parameters_equal (parameters_ x) (parameters_ y));
    reflexivity.
Qed.

(** C1, on the source: two one-dimensional arrays whose types the
    promotion table pairs, both tagged as bytes, are concatenated on the fast
    path, and the result keeps the type of the left operand. *)
Lemma merge_bytes_keeps_left_dtype :
  merge_dtype uint8 int8 = Some int16
  /\ exists ox oy,
       merge no_cast uint8_bytes (CNumpyArray int8_bytes)
       = Returned (CNumpyArray ox)
       /\ merge no_cast int8_bytes (CNumpyArray uint8_bytes)
          = Returned (CNumpyArray oy)
       /\ dtype_ ox = uint8 /\ dtype_ oy = int8 /\ dtype_ ox <> dtype_ oy.
Proof.
  split; [reflexivity|].
  eexists; eexists. split; [vm_compute; reflexivity|].
  split; [vm_compute; reflexivity|].
  simpl. repeat split. discriminate.
Qed.

(** C1, amended.  Two one-dimensional arrays that [merge] concatenates give
    an array whose leading length is the sum of theirs.  Off the byte/char
    fast path its type is the entry of the promotion table, the merge in the
    other order returns as well, and it returns an array of the same type;
    on the fast path the result keeps the type of the left operand. *)
Theorem merge_dtype_commutes cast (x y : NumpyArray) (nx ny : Z)
    (r : Content) :
  shape_strides_agree x -> shape_strides_agree y ->
  shape_ x = [nx] -> shape_ y = [ny] ->
  merge cast x (CNumpyArray y) = Returned r ->
  exists ox,
    r = CNumpyArray ox
    /\ shape_ ox = [nx + ny]
    /\ (merge_bytes_applies x y = false ->
        merge_dtype (dtype_ x) (dtype_ y) = Some (dtype_ ox)
        /\ merge_dtype (dtype_ y) (dtype_ x) = Some (dtype_ ox)
        /\ exists oy,
             merge cast y (CNumpyArray x) = Returned (CNumpyArray oy)
             /\ dtype_ oy = dtype_ ox
             /\ shape_ oy = [ny + nx])
    /\ (merge_bytes_applies x y = true -> dtype_ ox = dtype_ x).
Proof.
  intros Hx Hy Hsx Hsy Hr.
  rewrite merge_numpy_equal_parameters in Hr.
  destruct (parameters_equal (parameters_ x) (parameters_ y)) eqn:Hp;
    [|discriminate].
  assert (Hnx : ndim x <> 0) by (unfold ndim; rewrite Hsx; simpl; lia).
  destruct (merge_bytes_applies x y) eqn:Hfast.
  - rewrite merge_flat_fast in Hr by assumption.
    apply merge_bytes_byteoffset in Hr as (out & -> & _ & Hd & Hs).
    exists out. split; [reflexivity|].
    unfold NumpyArray_length, isscalar, ndim in Hs.
    rewrite Hsx, Hsy in Hs. simpl in Hs.
    split; [exact Hs|]. split; [discriminate|auto].
  - pose proof (merge_flat_1d cast x y nx ny Hx Hy Hsx Hsy Hfast) as H.
    destruct (merge_dtype (dtype_ x) (dtype_ y)) as [d|] eqn:Hd;
      [|destruct H as [e He]; congruence].
    destruct (merge_fill_implemented d (dtype_ x) (dtype_ y)) eqn:Hfill;
      [|destruct H as [e He]; congruence].
    destruct H as [ptr Hptr]. rewrite Hptr in Hr. injection Hr as <-.
    eexists; split; [reflexivity|]. cbn [shape_ dtype_].
    split; [reflexivity|]. split; [|discriminate].
    intros _. split; [reflexivity|].
    rewrite merge_dtype_comm in Hd. split; [exact Hd|].
    rewrite merge_numpy_equal_parameters, parameters_equal_sym, Hp.
    rewrite merge_bytes_applies_sym in Hfast.
    pose proof (merge_flat_1d cast y x ny nx Hy Hx Hsy Hsx Hfast) as H'.
    rewrite Hd, merge_fill_implemented_comm, Hfill in H'.
    destruct H' as [ptr' Hptr']. rewrite Hptr'.
    eexists; split; [reflexivity|]. simpl. auto.
Qed.

Lemma merge_dtype_commutes_witness :
  exists ox oy,
    merge no_cast (int16_view [3] [2] 0) (CNumpyArray (int16_view [2] [4] 8))
    = Returned (CNumpyArray ox)
    /\ merge no_cast (int16_view [2] [4] 8) (CNumpyArray (int16_view [3] [2] 0))
       = Returned (CNumpyArray oy)
    /\ dtype_ oy = dtype_ ox
    /\ shape_ ox = [3 + 2].
Proof.
  destruct (merge_dtype_commutes no_cast (int16_view [3] [2] 0)
              (int16_view [2] [4] 8) 3 2
              (CNumpyArray
                 (Build_NumpyArray None ∅
                    [Byte.x00; Byte.x01; Byte.x02; Byte.x03; Byte.x04;
                     Byte.x05; Byte.x08; Byte.x09; Byte.x0c; Byte.x0d]
                    [5] [2] 0 2 "h" int16 kernel.cpu_kernels)))
    as (ox & Hox & Hs & Hoff & _).
  - reflexivity.
  - reflexivity.
  - reflexivity.
  - reflexivity.
  - vm_compute. reflexivity.
  - destruct Hoff as (_ & _ & oy & Hoy & Hd & _); [reflexivity|].
    exists ox, oy. repeat split; try assumption.
    rewrite <- Hox. vm_compute. reflexivity.
Defined.

Lemma merge_numpy_byteoffset cast (self other : NumpyArray) (c : Content) :
  merge cast self (CNumpyArray other) = Returned c ->
  exists out, c = CNumpyArray out /\ byteoffset_ out = 0.
Proof.
  rewrite merge_numpy_equal_parameters. intros H.
  destruct (parameters_equal _ _); [|discriminate].
  unfold merge_flat in H. inv_returned H.
  - apply merge_bytes_byteoffset in H as (out & -> & Hoff & _). eauto.
  - injection H as <-. eexists; split; [reflexivity|].
    eapply NumpyArray_make_byteoffset; eassumption.
Qed.

(** Whatever [merge] returns is a flat array, and it is either built over a
    new buffer, from byte 0 on, or the shallow copy of the left operand that
    the merge with an empty array hands back. *)
Lemma merge_byteoffset cast (self : NumpyArray) (other c : Content) :
  merge cast self other = Returned c ->
  exists out,
    c = CNumpyArray out
    /\ (byteoffset_ out = 0 \/ shallow_copy self = Returned out).
Proof.
  revert c. induction other as [o|ps|ids ps content IH size
                               |ids ps mask content IH vw|array IH|name ps];
    intros c H.
  - apply merge_numpy_byteoffset in H as (out & -> & Hoff). eauto.
  - simpl in H. destruct (negb _); [discriminate|].
    apply bind_returned_inv in H as (out & Hout & H).
    injection H as <-. eauto.
  - simpl in H. destruct (negb _); [discriminate|].
    unfold merge_flat in H. inv_returned H; [|discriminate H].
    match goal with
    | E : (if ?b then None else None) = Some _ |- _ =>
        destruct b; discriminate E
    end.
  - simpl in H. destruct (negb _); [discriminate|].
    apply bind_returned_inv in H as (? & _ & H). discriminate.
  - simpl in H. apply IH, H.
  - simpl in H. destruct (negb _); [discriminate|].
    destruct (reverse_merges name).
    + apply bind_returned_inv in H as (? & _ & H). discriminate.
    + unfold merge_flat in H. inv_returned H; [|discriminate H].
      match goal with
      | E : (if ?b then None else None) = Some _ |- _ =>
          destruct b; discriminate E
      end.
Qed.

Lemma reduce_next_fuel_leaf (fuel : nat) (self : NumpyArray)
    (reducer : Reducer) (negaxis : Z) (starts parents : Index64)
    (outlength : Z) (mask keepdims : bool) (c : Content) :
  reduce_next_fuel fuel self reducer negaxis starts parents outlength mask
    keepdims = Returned c ->
  exists out, leaf c = Some out /\ byteoffset_ out = 0.
Proof.
  revert self c. induction fuel as [|fuel IH]; intros self c H;
    [discriminate|].
  cbn [reduce_next_fuel] in H.
  destruct (length (shape_ self) =? 0)%nat; [discriminate|].
  destruct (negb (length (shape_ self) =? 1)%nat || negb (iscontiguous self)).
  - apply bind_returned_inv in H as (r & _ & H).
    destruct r; try discriminate. eapply IH, H.
  - apply bind_returned_inv in H as (ptr & _ & H).
    apply bind_returned_inv in H as (out & Hout & H).
    apply NumpyArray_make_byteoffset in Hout.
    unfold NumpyArray_reduce_mask_ByteMaskedArray_64 in H.
    destruct mask, keepdims; cbn in H; injection H as <-; cbn; eauto.
Qed.

Lemma sort_next_fuel_leaf srl sr srt (fuel : nat) (self : NumpyArray)
    (negaxis : Z) (starts parents : Index64) (outlength : Z)
    (ascending stable keepdims : bool) (c : Content) :
  sort_next_fuel srl sr srt fuel self negaxis starts parents outlength
    ascending stable keepdims = Returned c ->
  exists out, leaf c = Some out /\ byteoffset_ out = 0.
Proof.
  revert self c. induction fuel as [|fuel IH]; intros self c H;
    [discriminate|].
  cbn [sort_next_fuel] in H.
  destruct (length (shape_ self) =? 0)%nat; [discriminate|].
  destruct (negb (length (shape_ self) =? 1)%nat || negb (iscontiguous self)).
  - apply bind_returned_inv in H as (r & _ & H).
    destruct r; try discriminate. eapply IH, H.
  - apply bind_returned_inv in H as (ptr & _ & H).
    apply bind_returned_inv in H as (out & Hout & H).
    apply NumpyArray_make_byteoffset in Hout.
    destruct keepdims; cbn in H; injection H as <-; cbn; eauto.
Qed.

(** C9.  The view that [carry], the copying branch of contiguity
    normalisation, [merge], [reduce_next] and [sort_next] build over the
    buffer they allocate starts at byte 0 of that buffer.  The one view that
    [merge] returns without allocating, the shallow copy it hands back for an
    empty right operand, is told apart; for two flat arrays there is none. *)
Theorem fresh_buffer_byteoffset cast srl sr srt (self : NumpyArray) :
  (forall index allow_lazy out,
     carry self index allow_lazy = Returned out -> byteoffset_ out = 0)
  /\ (forall out,
        iscontiguous self = false -> contiguous self = Returned out ->
        byteoffset_ out = 0)
  /\ (forall other c,
        merge cast self other = Returned c ->
        exists out,
          c = CNumpyArray out
          /\ (byteoffset_ out = 0 \/ shallow_copy self = Returned out))
  /\ (forall other c,
        merge cast self (CNumpyArray other) = Returned c ->
        exists out, c = CNumpyArray out /\ byteoffset_ out = 0)
  /\ (forall reducer negaxis starts parents outlength mask keepdims c,
        reduce_next self reducer negaxis starts parents outlength mask
          keepdims = Returned c ->
        exists out, leaf c = Some out /\ byteoffset_ out = 0)
  /\ (forall negaxis starts parents outlength ascending stable keepdims c,
        sort_next srl sr srt self negaxis starts parents outlength ascending
          stable keepdims = Returned c ->
        exists out, leaf c = Some out /\ byteoffset_ out = 0).
Proof.
  split; [intros; eapply carry_byteoffset; eassumption|].
  split.
  { intros out Hc H. unfold contiguous in H. rewrite Hc in H.
    apply bind_returned_inv in H as (? & _ & H).
    eapply contiguous_next_byteoffset, H. }
  split; [intros; eapply merge_byteoffset; eassumption|].
  split; [intros; eapply merge_numpy_byteoffset; eassumption|].
  split; [intros; eapply reduce_next_fuel_leaf; eassumption|].
  intros; eapply sort_next_fuel_leaf; eassumption.
Qed.

(** ** The recursion budgets suffice *)

Lemma bind_finished {A B} (m : outcome A) (k : A -> outcome B) :
  m <> OutOfFuel -> (forall a, m = Returned a -> k a <> OutOfFuel) ->
  bind m k <> OutOfFuel.
Proof. destruct m; simpl; auto; discriminate. Qed.

Lemma handle_error_finished (err : Error) (cls : string) (ids : bool) :
  handle_error err cls ids <> OutOfFuel.
Proof. unfold handle_error. destruct (str err); discriminate. Qed.

Lemma NumpyArray_make_finished ids ps ptr shape strides off isz fmt dt :
  NumpyArray_make ids ps ptr shape strides off isz fmt dt <> OutOfFuel.
Proof.
  unfold NumpyArray_make, NumpyArray_new.
  destruct (negb _); discriminate.
Qed.

Lemma toRegularArray_loop_regular (shape : list Z) (i : nat)
    ids ps content size :
  exists ids' ps' content' size',
    toRegularArray_loop shape i (CRegularArray ids ps content size)
    = CRegularArray ids' ps' content' size'.
Proof.
  revert ids ps content size. induction i as [|i IH]; intros; simpl; eauto.
Qed.

(** [toRegularArray] on a view that is no scalar: a packed one-dimensional
    array of all the elements, inside one regular node for each inner
    dimension. *)
Lemma toRegularArray_spec (self : NumpyArray) :
  shape_strides_agree self -> (1 <= length (shape_ self))%nat ->
  exists flat,
    toRegularArray self
    = Returned (toRegularArray_loop (shape_ self)
                  (length (shape_ self) - 1) (CNumpyArray flat))
    /\ shape_strides_agree flat
    /\ length (shape_ flat) = 1%nat
    /\ iscontiguous flat = true
    /\ dtype_ flat = dtype_ self.
Proof.
  intros Hwf Hnd. unfold toRegularArray, isscalar, ndim.
  replace (Z.of_nat (length (shape_ self)) =? 0) with false by lia.
  destruct (contiguous_spec self Hwf)
    as (c & Hc & _ & _ & _ & _ & _ & Hisz & Hdt & _).
  rewrite Hc. cbn [bind].
  rewrite NumpyArray_make_agree by reflexivity. cbn [bind].
  eexists; split; [reflexivity|]. repeat split; try assumption.
  unfold iscontiguous; simpl. unfold vec_at; simpl.
  rewrite Hisz, Z.eqb_refl. reflexivity.
Qed.

Lemma reduce_next_finished (self : NumpyArray) (reducer : Reducer)
    (negaxis : Z) (starts parents : Index64) (outlength : Z)
    (mask keepdims : bool) :
  shape_strides_agree self ->
  reduce_next self reducer negaxis starts parents outlength mask keepdims
  <> OutOfFuel.
Proof.
  intros Hwf.
  assert (Hleaf : forall v : NumpyArray,
            (length (shape_ v) =? 0)%nat = false ->
            negb (length (shape_ v) =? 1)%nat || negb (iscontiguous v)
            = false ->
            reduce_next_fuel 1 v reducer negaxis starts parents outlength
              mask keepdims <> OutOfFuel).
  { intros v H0 H1. cbn [reduce_next_fuel]. rewrite H0, H1.
    apply bind_finished; [destruct (dtype_ v); discriminate|].
    intros ptr _. apply bind_finished; [apply NumpyArray_make_finished|].
    intros out _.
    unfold NumpyArray_reduce_mask_ByteMaskedArray_64.
    destruct mask; cbn; discriminate. }
  unfold reduce_next.
  destruct (length (shape_ self) =? 0)%nat eqn:H0.
  { cbn [reduce_next_fuel]. rewrite H0. discriminate. }
  destruct (negb (length (shape_ self) =? 1)%nat
            || negb (iscontiguous self)) eqn:H1.
  2:{ cbn [reduce_next_fuel]. rewrite H0, H1.
      specialize (Hleaf self H0 H1). cbn [reduce_next_fuel] in Hleaf.
      rewrite H0, H1 in Hleaf. exact Hleaf. }
  cbn [reduce_next_fuel]. rewrite H0, H1.
  apply Nat.eqb_neq in H0.
  destruct (toRegularArray_spec self Hwf)
    as (flat & Hflat & Hwff & Hlen & Hcf & _); [lia|].
  rewrite Hflat. cbn [bind].
  destruct (length (shape_ self) - 1)%nat as [|k] eqn:Hk.
  - cbn [toRegularArray_loop]. apply Hleaf.
    + rewrite Hlen. reflexivity.
    + rewrite Hlen, Hcf. reflexivity.
  - cbn [toRegularArray_loop].
    destruct (toRegularArray_loop_regular (shape_ self) k None ∅
                (CNumpyArray flat) (shape_ self @ S k))
      as (? & ? & ? & ? & ->).
    discriminate.
Qed.

Lemma sort_next_finished srl sr srt (self : NumpyArray) (negaxis : Z)
    (starts parents : Index64) (outlength : Z)
    (ascending stable keepdims : bool) :
  shape_strides_agree self ->
  sort_next srl sr srt self negaxis starts parents outlength ascending stable
    keepdims <> OutOfFuel.
Proof.
  intros Hwf.
  assert (Hsort : forall T data len off,
            array_sort srl sr srt T data len off starts parents outlength
              ascending stable <> OutOfFuel).
  { intros. unfold array_sort. destruct (len =? 0); [discriminate|].
    destruct (srl _ _ _ _) as [e1 n].
    apply bind_finished; [apply handle_error_finished|]. intros _ _.
    destruct (sr _ _ _ _ _) as [e2 r].
    apply bind_finished; [apply handle_error_finished|]. intros _ _.
    destruct (srt _ _ _ _ _ _ _ _) as [e3 p].
    apply bind_finished; [apply handle_error_finished|]. discriminate. }
  assert (Hleaf : forall v : NumpyArray,
            (length (shape_ v) =? 0)%nat = false ->
            negb (length (shape_ v) =? 1)%nat || negb (iscontiguous v)
            = false ->
            sort_next_fuel srl sr srt 1 v negaxis starts parents outlength
              ascending stable keepdims <> OutOfFuel).
  { intros v H0 H1. cbn [sort_next_fuel]. rewrite H0, H1.
    apply bind_finished;
      [destruct (dtype_ v); first [apply Hsort | discriminate]|].
    intros ptr _. apply bind_finished; [apply NumpyArray_make_finished|].
    discriminate. }
  unfold sort_next.
  destruct (length (shape_ self) =? 0)%nat eqn:H0.
  { cbn [sort_next_fuel]. rewrite H0. discriminate. }
  destruct (negb (length (shape_ self) =? 1)%nat
            || negb (iscontiguous self)) eqn:H1.
  2:{ cbn [sort_next_fuel]. rewrite H0, H1.
      specialize (Hleaf self H0 H1). cbn [sort_next_fuel] in Hleaf.
      rewrite H0, H1 in Hleaf. exact Hleaf. }
  cbn [sort_next_fuel]. rewrite H0, H1.
  apply Nat.eqb_neq in H0.
  destruct (toRegularArray_spec self Hwf)
    as (flat & Hflat & Hwff & Hlen & Hcf & _); [lia|].
  rewrite Hflat. cbn [bind].
  destruct (length (shape_ self) - 1)%nat as [|k] eqn:Hk.
  - cbn [toRegularArray_loop]. apply Hleaf.
    + rewrite Hlen. reflexivity.
    + rewrite Hlen, Hcf. reflexivity.
  - cbn [toRegularArray_loop].
    destruct (toRegularArray_loop_regular (shape_ self) k None ∅
                (CNumpyArray flat) (shape_ self @ S k))
      as (? & ? & ? & ? & ->).
    discriminate.
Qed.

Lemma fresh_buffer_byteoffset_witness :
  (exists out, carry (int16_view [2; 3] [24; 4] 2) [1; 0] false = Returned out
               /\ byteoffset_ out = 0)
  /\ (exists out, contiguous (int16_view [2; 3] [24; 4] 2) = Returned out
                  /\ byteoffset_ out = 0)
  /\ (exists out,
        merge no_cast (int16_view [2; 3] [24; 4] 2)
          (CNumpyArray (int16_view [1; 3] [6; 2] 40))
        = Returned (CNumpyArray out) /\ byteoffset_ out = 0)
  /\ (exists c out,
        reduce_next (int16_view [4] [2] 6) zero_reducer 1 [0; 2] [0; 0; 1; 1]
          2 true true = Returned c
        /\ leaf c = Some out /\ byteoffset_ out = 0)
  /\ (exists c out,
        sort_next one_range_length one_range keep_order
          (int16_view [4] [2] 6) 1 [0; 2] [0; 0; 1; 1] 2 true true true
        = Returned c
        /\ leaf c = Some out /\ byteoffset_ out = 0).
Proof.
  destruct (fresh_buffer_byteoffset no_cast one_range_length one_range
              keep_order (int16_view [2; 3] [24; 4] 2))
    as (Hcarry & Hcont & _ & Hmerge & _).
  destruct (fresh_buffer_byteoffset no_cast one_range_length one_range
              keep_order (int16_view [4] [2] 6))
    as (_ & _ & _ & _ & Hreduce & Hsort).
  split.
  { eexists; split; [vm_compute; reflexivity|].
    eapply (Hcarry [1; 0] false). vm_compute. reflexivity. }
  split.
  { eexists; split; [vm_compute; reflexivity|].
    eapply Hcont; vm_compute; reflexivity. }
  split.
  { edestruct (Hmerge (int16_view [1; 3] [6; 2] 40)) as (out & Hout & Hoff).
    { vm_compute. reflexivity. }
    exists out. split; [|exact Hoff].
    rewrite <- Hout. vm_compute. reflexivity. }
  split.
  { edestruct (Hreduce zero_reducer 1 [0; 2] [0; 0; 1; 1] 2 true true)
      as (out & Hout & Hoff).
    { vm_compute. reflexivity. }
    eexists; exists out. split; [vm_compute; reflexivity|]. auto. }
  { edestruct (Hsort 1 [0; 2] [0; 0; 1; 1] 2 true true true)
      as (out & Hout & Hoff).
    { vm_compute. reflexivity. }
    eexists; exists out. split; [vm_compute; reflexivity|]. auto. }
Defined.

(** ** Masked and dimension-keeping reductions *)




(** ** Ranges on the by-strides path *)

Lemma regularize_rangeslice_bounds (start stop : Z)
    (posstep hasstart hasstop : bool) (E : Z) :
  0 <= E ->
  let b := kernel.regularize_rangeslice start stop posstep hasstart hasstop E
  in
  if posstep then 0 <= fst b <= snd b /\ snd b <= E
  else -1 <= snd b <= fst b /\ fst b <= E - 1.
Proof.
  intros HE. unfold kernel.regularize_rangeslice.
  destruct posstep, hasstart, hasstop; cbn [negb fst snd];
    repeat match goal with
           | |- context [?a <? ?b] => destruct (Z.ltb_spec a b)
           end; cbn [fst snd]; lia.
Qed.




Lemma head_tail_weight (tail : Slice.t) :
  (head_weight (Slice.head tail) + length (Slice.tail tail)
   <= length tail + 2)%nat.
Proof.
  unfold Slice.head, Slice.tail.
  destruct tail as [|x tail]; simpl; [lia|].
  rewrite ?drop_0. destruct x; simpl; lia.
Qed.

Lemma too_many_dimensions_returned (self : NumpyArray) :
  too_many_dimensions self = Returned tt -> (2 <= length (shape_ self))%nat.
Proof.
  unfold too_many_dimensions, ndim.
  destruct (Z.ltb_spec (Z.of_nat (length (shape_ self))) 2); [|lia].
  unfold handle_error; simpl. discriminate.
Qed.

Lemma too_many_dimensions_finished (self : NumpyArray) :
  too_many_dimensions self <> OutOfFuel.
Proof.
  unfold too_many_dimensions.
  destruct (_ <? _); [apply handle_error_finished|discriminate].
Qed.

Lemma flatten_shape_length (shape : list Z) :
  (2 <= length shape)%nat ->
  length (flatten_shape shape) = (length shape - 1)%nat.
Proof.
  intros H. unfold flatten_shape.
  destruct shape as [|s0 [|s1 rest]]; simpl in *; try lia.
  rewrite ?drop_0. lia.
Qed.

Lemma flatten_strides_length (strides : list Z) :
  (2 <= length strides)%nat ->
  length (flatten_strides strides) = (length strides - 1)%nat.
Proof.
  intros H. unfold flatten_strides.
  destruct strides as [|s0 [|s1 rest]]; simpl in *; lia.
Qed.

(** A by-strides resolution ends within the budget that [getitem] gives it:
    every dispatch lowers twice the dimensions of the view plus the items
    left, the head weighed by [head_weight]. *)
Lemma getitem_bystrides_finished (fuel : nat) (self : NumpyArray)
    (head : option SliceItem) (tail : Slice.t) (len : Z) :
  (2 * length (shape_ self) + head_weight head + length tail < fuel)%nat ->
  getitem_bystrides fuel self head tail len <> OutOfFuel.
Proof.
  revert self head tail len.
  induction fuel as [|fuel IH]; intros self head tail len Hfuel; [lia|].
  cbn [getitem_bystrides].
  pose proof (head_tail_weight tail) as Hw.
  assert (Hstep : forall off len',
            too_many_dimensions self = Returned tt ->
            (head_weight head >= 1)%nat ->
            forall next,
              NumpyArray_make (identities_ self) (parameters_ self)
                (ptr_ self) (flatten_shape (shape_ self))
                (flatten_strides (strides_ self)) off (itemsize_ self)
                (format_ self) (dtype_ self) = Returned next ->
              getitem_bystrides fuel next (Slice.head tail) (Slice.tail tail)
                len' <> OutOfFuel).
  { intros off len' Hdim Hhw next Hnext.
    apply too_many_dimensions_returned in Hdim.
    apply NumpyArray_make_inv in Hnext as [_ ->]. apply IH. simpl.
    rewrite flatten_shape_length by exact Hdim. lia. }
  destruct head as [[at_|start stop step| | | | | | |]|];
    try discriminate.
  - unfold getitem_bystrides_at.
    apply bind_finished; [apply too_many_dimensions_finished|].
    intros [] Hdim.
    apply bind_finished;
      [destruct (_ || _); [apply handle_error_finished|discriminate]|].
    intros _ _.
    apply bind_finished; [apply NumpyArray_make_finished|].
    intros next Hnext.
    apply bind_finished; [eapply Hstep; eauto|].
    intros out _. apply NumpyArray_make_finished.
  - unfold getitem_bystrides_range.
    apply bind_finished; [apply too_many_dimensions_finished|].
    intros [] Hdim.
    destruct (kernel.regularize_rangeslice _ _ _ _ _ _) as [start' stop'].
    apply bind_finished; [apply NumpyArray_make_finished|].
    intros next Hnext.
    apply bind_finished; [eapply Hstep; eauto|].
    intros out _. apply NumpyArray_make_finished.
  - unfold getitem_bystrides_ellipsis.
    destruct (_ || _); apply IH; simpl in *; lia.
  - unfold getitem_bystrides_newaxis.
    apply bind_finished; [apply IH; simpl in *; lia|].
    intros out _. apply NumpyArray_make_finished.
  - apply NumpyArray_make_finished.
Qed.

Lemma getitem_finished (self : NumpyArray) (where_ : Slice.t) :
  shape_strides_agree self ->
  getitem self where_ <> OutOfFuel.
Proof.
  intros Hwf. unfold getitem.
  destruct (isscalar self); [discriminate|].
  destruct (getitem_too_general _ _).
  { destruct (ndim self =? 1); [discriminate|].
    apply bind_finished; [|discriminate].
    unfold toRegularArray. destruct (isscalar self).
    - apply bind_finished; [apply NumpyArray_make_finished|discriminate].
    - destruct (contiguous_spec self Hwf) as (c & -> & _). cbn [bind].
      apply bind_finished; [apply NumpyArray_make_finished|discriminate]. }
  destruct (_ && _).
  - apply bind_finished; [apply NumpyArray_make_finished|].
    intros next Hnext.
    apply bind_finished.
    + apply getitem_bystrides_finished. unfold getitem_bystrides_fuel.
      pose proof (head_tail_weight where_) as Hw.
      apply NumpyArray_make_inv in Hnext as [_ ->]. simpl. lia.
    + intros out _.
      apply bind_finished; [apply NumpyArray_make_finished|discriminate].
  - destruct (contiguous_spec self Hwf) as (c & -> & _). cbn [bind].
    apply bind_finished; [apply NumpyArray_make_finished|discriminate].
Qed.



(** The same range through [getitem]: three items, six bytes apart, from
    byte 2 on. *)
Example getitem_range_1_8_3 :
  getitem (int16_view [10] [2] 0) [SliceRange 1 8 3]
  = Returned (CNumpyArray (int16_view [3] [6] 2)).
Proof. reflexivity. Qed.

(** * Further properties *)

(** ** Selections along the leading dimension, again *)

Lemma element_offset_nil_r (idx : list Z) : element_offset idx [] = 0.
Proof. destruct idx; reflexivity. Qed.

Lemma element_offset_cons (i : Z) (idx strides : list Z) :
  element_offset (i :: idx) strides
  = i * strides @ 0 + element_offset idx (drop 1 strides).
Proof.
  destruct strides as [|s strides]; simpl.
  - rewrite element_offset_nil_r. unfold vec_at; simpl. lia.
  - rewrite drop_0. reflexivity.
Qed.

(** X1.  Reading an element through the view that [getitem_at_nowrap]
    returns reads the element of the array under the index with [at]
    put in front, and reading through the view that [getitem_range_nowrap]
    returns reads it with [start] added to the leading index. *)
Theorem getitem_nowrap_element (self : NumpyArray) (idx : list Z) :
  (forall at_ v, getitem_at_nowrap self at_ = Returned v ->
     element_at v idx = element_at self (at_ :: idx))
  /\ (forall start stop r i,
        getitem_range_nowrap self start stop = Returned r ->
        element_at r (i :: idx) = element_at self (start + i :: idx)).
Proof.
  split.
  - intros at_ v Hv. unfold getitem_at_nowrap in Hv.
    inv_returned Hv; apply NumpyArray_make_inv in Hv as [_ ->];
      unfold element_at; cbn [ptr_ byteoffset_ strides_ itemsize_];
      rewrite !element_offset_cons; f_equal; lia.
  - intros start stop r i Hr. unfold getitem_range_nowrap in Hr.
    inv_returned Hr; apply NumpyArray_make_inv in Hr as [_ ->];
      unfold element_at; cbn [ptr_ byteoffset_ strides_ itemsize_];
      rewrite !element_offset_cons; f_equal; lia.
Qed.

Lemma getitem_nowrap_element_witness :
  exists v r,
    getitem_at_nowrap (int16_view [2; 3] [24; 4] 2) 1 = Returned v
    /\ getitem_range_nowrap (int16_view [2; 3] [24; 4] 2) 1 2 = Returned r
    /\ element_at v [2] = element_at (int16_view [2; 3] [24; 4] 2) [1; 2]
    /\ element_at r [0; 2] = element_at (int16_view [2; 3] [24; 4] 2) [1; 2].
Proof.
  eexists. eexists.
  split; [reflexivity|]. split; [reflexivity|].
  destruct (getitem_nowrap_element (int16_view [2; 3] [24; 4] 2) [2])
    as [Hat Hrange].
  split.
  - apply Hat. reflexivity.
  - apply (Hrange 1 2 _ 0). reflexivity.
Defined.

Lemma Identities_range_at (ids : Identities.t) (start stop at_ : Z) :
  0 <= start -> 0 <= at_ < stop - start ->
  Identities.getitem_range_nowrap
    (Identities.getitem_range_nowrap ids start stop) at_ (at_ + 1)
  = Identities.getitem_range_nowrap ids (start + at_) (start + at_ + 1).
Proof.
  intros Hs Hat. unfold Identities.getitem_range_nowrap.
  replace (Z.to_nat (at_ + 1 - at_)) with 1%nat by lia.
  replace (Z.to_nat (start + at_ + 1 - (start + at_))) with 1%nat by lia.
  rewrite skipn_firstn_comm, take_take, drop_drop.
  replace (Z.to_nat (start + at_)) with (Z.to_nat start + Z.to_nat at_)%nat
    by lia.
  f_equal. lia.
Qed.

Lemma Identities_range_length (ids : Identities.t) (start stop : Z) :
  0 <= start -> start <= stop -> stop <= Identities.length ids ->
  Identities.length (Identities.getitem_range_nowrap ids start stop)
  = stop - start.
Proof.
  intros Hs Hle Hstop. unfold Identities.length in *.
  unfold Identities.getitem_range_nowrap.
  rewrite length_take, length_drop. lia.
Qed.

(** X2.  On an array that is no scalar, taking a range and then an index
    inside it selects what the index shifted by the start of the range
    selects in the array itself. *)
Theorem getitem_range_then_at (self : NumpyArray) (start stop at_ : Z) :
  shape_strides_agree self -> 1 <= ndim self ->
  0 <= start -> 0 <= at_ < stop - start ->
  (forall ids, identities_ self = Some ids -> stop <= Identities.length ids) ->
  (do r <- getitem_range_nowrap self start stop; getitem_at_nowrap r at_)
  = getitem_at_nowrap self (start + at_)
  /\ returns (getitem_at_nowrap self (start + at_)).
Proof.
  intros Hwf Hnd Hs Hat Hids.
  assert (Hlen : length (stop - start :: drop 1 (shape_ self))
                 = length (strides_ self)).
  { unfold shape_strides_agree in Hwf. unfold ndim in Hnd.
    destruct (shape_ self) as [|s sh]; [simpl in Hnd; lia|].
    simpl. rewrite drop_0. simpl in Hwf. exact Hwf. }
  assert (Hlen' : length (drop 1 (shape_ self))
                  = length (drop 1 (strides_ self))).
  { rewrite !length_drop. rewrite Hwf. reflexivity. }
  unfold getitem_range_nowrap, getitem_at_nowrap.
  destruct (identities_ self) as [ids|] eqn:Eids.
  - specialize (Hids ids eq_refl).
    replace (Identities.length ids <? stop) with false by lia.
    replace (Identities.length ids <=? start + at_) with false by lia.
    cbn [bind].
    rewrite NumpyArray_make_agree by exact Hlen.
    cbn [bind identities_ strides_ shape_ byteoffset_ parameters_ ptr_
         itemsize_ format_ dtype_].
    rewrite Identities_range_length by lia.
    replace (stop - start <=? at_) with false by lia. cbn [bind].
    rewrite Identities_range_at by lia.
    replace (byteoffset_ self + strides_ self @ 0 * start
             + strides_ self @ 0 * at_)
      with (byteoffset_ self + strides_ self @ 0 * (start + at_)) by lia.
    cbn [skipn]. rewrite ?drop_0.
    split; [reflexivity|].
    rewrite NumpyArray_make_agree by exact Hlen'. eexists; reflexivity.
  - cbn [bind].
    rewrite NumpyArray_make_agree by exact Hlen.
    cbn [bind identities_ strides_ shape_ byteoffset_ parameters_ ptr_
         itemsize_ format_ dtype_].
    replace (byteoffset_ self + strides_ self @ 0 * start
             + strides_ self @ 0 * at_)
      with (byteoffset_ self + strides_ self @ 0 * (start + at_)) by lia.
    cbn [skipn]. rewrite ?drop_0.
    split; [reflexivity|].
    rewrite NumpyArray_make_agree by exact Hlen'. eexists; reflexivity.
Qed.

Lemma getitem_range_then_at_witness :
  (do r <- getitem_range_nowrap (int16_view [3; 2] [8; 2] 0) 1 3;
   getitem_at_nowrap r 1)
  = getitem_at_nowrap (int16_view [3; 2] [8; 2] 0) 2.
Proof.
  apply (getitem_range_then_at (int16_view [3; 2] [8; 2] 0) 1 3 1).
  - reflexivity.
  - unfold ndim; simpl; lia.
  - lia.
  - lia.
  - intros ids H. discriminate H.
Defined.

Lemma shallow_copy_returns (self : NumpyArray) :
  shape_strides_agree self ->
  shallow_copy self
  = Returned (Build_NumpyArray (identities_ self) (parameters_ self)
                (ptr_ self) (shape_ self) (strides_ self) (byteoffset_ self)
                (itemsize_ self) (format_ self) (dtype_ self)
                kernel.cpu_kernels).
Proof. intros Hwf. apply NumpyArray_make_agree, Hwf. Qed.

Lemma regularize_rangeslice_all (length : Z) :
  0 <= length ->
  kernel.regularize_rangeslice Slice.none Slice.none true
    (negb (Slice.none =? Slice.none)) (negb (Slice.none =? Slice.none)) length
  = (0, length).
Proof.
  intros H. unfold kernel.regularize_rangeslice.
  rewrite Z.eqb_refl. cbn [negb]. cbv zeta.
  change (0 <? 0) with false. cbv iota.
  replace (length <? 0) with false by lia. cbv iota.
  replace (length <? length) with false by lia. cbv iota.
  replace (length <? 0) with false by lia. reflexivity.
Qed.

(** X3.  On an array with a leading extent [N >= 0] whose identities, if it
    has any, have [N] rows, the range with both bounds missing is a shallow
    copy of the array, and every range returns a view of between [0] and
    [N] items that starts inside the array. *)
Theorem getitem_range_clamped (self : NumpyArray) :
  shape_strides_agree self -> 1 <= ndim self -> 0 <= shape_ self @ 0 ->
  (forall ids, identities_ self = Some ids ->
               Identities.length ids = shape_ self @ 0) ->
  getitem_range self Slice.none Slice.none = shallow_copy self
  /\ forall start stop,
       exists v first,
         getitem_range self start stop = Returned v
         /\ 0 <= first <= shape_ self @ 0
         /\ 0 <= NumpyArray_length v <= shape_ self @ 0 - first
         /\ byteoffset_ v = byteoffset_ self + strides_ self @ 0 * first
         /\ strides_ v = strides_ self
         /\ drop 1 (shape_ v) = drop 1 (shape_ self).
Proof.
  intros Hwf Hnd HN Hids.
  assert (Hsh : exists s sh, shape_ self = s :: sh).
  { unfold ndim in Hnd. destruct (shape_ self) as [|s sh];
      [simpl in Hnd; lia | eauto]. }
  destruct Hsh as (s & sh & Hsh).
  assert (Hs : shape_ self @ 0 = s) by (rewrite Hsh; reflexivity).
  assert (Hlen : forall a, length (a :: drop 1 (shape_ self))
                           = length (strides_ self)).
  { intros a. rewrite <- Hwf, Hsh. simpl. rewrite drop_0. reflexivity. }
  assert (Hrange : forall a b, 0 <= a <= b -> b <= s ->
            getitem_range_nowrap self a b
            = Returned (Build_NumpyArray
                (match identities_ self with
                 | Some ids => Some (Identities.getitem_range_nowrap ids a b)
                 | None => None
                 end)
                (parameters_ self) (ptr_ self) (b - a :: drop 1 (shape_ self))
                (strides_ self) (byteoffset_ self + strides_ self @ 0 * a)
                (itemsize_ self) (format_ self) (dtype_ self)
                kernel.cpu_kernels)).
  { intros a b Hab Hb. unfold getitem_range_nowrap.
    destruct (identities_ self) as [ids|] eqn:Eids.
    - rewrite (Hids ids eq_refl), Hs.
      replace (s <? b) with false by lia. cbn [bind].
      apply NumpyArray_make_agree, Hlen.
    - cbn [bind]. apply NumpyArray_make_agree, Hlen. }
  split.
  - unfold getitem_range. rewrite Hs.
    rewrite regularize_rangeslice_all by lia.
    rewrite Hrange by lia. rewrite shallow_copy_returns by exact Hwf.
    replace (s - 0 :: drop 1 (shape_ self)) with (shape_ self)
      by (rewrite Hsh; cbn [skipn]; rewrite drop_0; f_equal; lia).
    replace (byteoffset_ self + strides_ self @ 0 * 0)
      with (byteoffset_ self) by lia.
    destruct (identities_ self) as [ids|] eqn:Eids; [|reflexivity].
    do 3 f_equal. unfold Identities.getitem_range_nowrap.
    rewrite drop_0. apply take_ge.
    specialize (Hids ids eq_refl). unfold Identities.length in Hids. lia.
  - intros start stop. unfold getitem_range.
    destruct (kernel.regularize_rangeslice start stop true
                (negb (start =? Slice.none)) (negb (stop =? Slice.none))
                (shape_ self @ 0)) as [a b] eqn:Hreg.
    assert (Hb : 0 <= a <= b /\ b <= s).
    { assert (H := regularize_rangeslice_bounds start stop true
                     (negb (start =? Slice.none)) (negb (stop =? Slice.none))
                     (shape_ self @ 0) HN).
      cbv zeta in H. rewrite Hreg in H. cbn [fst snd] in H. lia. }
    rewrite Hrange by lia.
    exists (Build_NumpyArray
              (match identities_ self with
               | Some ids => Some (Identities.getitem_range_nowrap ids a b)
               | None => None
               end)
              (parameters_ self) (ptr_ self) (b - a :: drop 1 (shape_ self))
              (strides_ self) (byteoffset_ self + strides_ self @ 0 * a)
              (itemsize_ self) (format_ self) (dtype_ self)
              kernel.cpu_kernels), a.
    split; [reflexivity|]. rewrite Hs.
    change (NumpyArray_length _) with (b - a).
    cbn [byteoffset_ strides_ shape_ skipn]. rewrite drop_0.
    repeat split; try lia; reflexivity.
Qed.

Lemma getitem_range_clamped_witness :
  getitem_range (int16_view [3; 2] [8; 2] 0) Slice.none Slice.none
  = shallow_copy (int16_view [3; 2] [8; 2] 0).
Proof.
  apply (getitem_range_clamped (int16_view [3; 2] [8; 2] 0)).
  - reflexivity.
  - unfold ndim; simpl; lia.
  - unfold vec_at; simpl; lia.
  - intros ids H. discriminate H.
Defined.

(** ** Validity *)

Lemma first_index_None (bad : Z -> bool) (v : list Z) (from : nat) :
  first_index bad v from = None <-> Forall (fun x => bad x = false) v.
Proof.
  revert from. induction v as [|x v IH]; intros from; simpl.
  - split; [constructor | reflexivity].
  - destruct (bad x) eqn:E.
    + split; [discriminate|]. intros H. inversion H; congruence.
    + rewrite IH. split.
      * intros H. constructor; assumption.
      * intros H. inversion H; assumption.
Qed.

Lemma append_nonempty_l (a b : string) : a <> "" -> (a ++ b)%string <> "".
Proof. destruct a; [congruence | discriminate]. Qed.

(** An array that passes the three tests of [validityerror] has no
    error. *)
Lemma validityerror_passes (self : NumpyArray) (path : string) :
  shape_ self <> []
  /\ Forall (fun x => 0 <= x) (shape_ self)
  /\ Forall (fun s => Z.rem s (itemsize_ self) = 0) (strides_ self) ->
  validityerror self path = "".
Proof.
  intros (Hne & Hshape & Hstrides). unfold validityerror.
  destruct (shape_ self) as [|s sh] eqn:Hsh; [congruence|].
  cbn [length Nat.eqb].
  replace (first_index (fun x => x <? 0) (s :: sh) 0) with (@None nat).
  2:{ symmetry. apply first_index_None. eapply Forall_impl; [exact Hshape|].
      intros x Hx. simpl in Hx. simpl. lia. }
  replace (first_index (fun s0 => negb (Z.rem s0 (itemsize_ self) =? 0))
             (strides_ self) 0) with (@None nat); [reflexivity|].
  symmetry. apply first_index_None. eapply Forall_impl; [exact Hstrides|].
  intros x Hx. simpl in Hx. simpl. rewrite Hx. reflexivity.
Qed.

(** X4.  [validityerror] reports nothing exactly when the array has at
    least one dimension, no extent is negative and every stride leaves the
    remainder [0] when divided by the item size. *)
Theorem validityerror_empty_iff (self : NumpyArray) (path : string) :
  validityerror self path = ""
  <-> shape_ self <> []
      /\ Forall (fun x => 0 <= x) (shape_ self)
      /\ Forall (fun s => Z.rem s (itemsize_ self) = 0) (strides_ self).
Proof.
  unfold validityerror. destruct (shape_ self) as [|s sh] eqn:Hsh.
  - simpl. split; [discriminate|]. intros [H _]. congruence.
  - cbn [length Nat.eqb].
    destruct (first_index (fun x => x <? 0) (s :: sh) 0) as [i|] eqn:E1.
    + split; [intros H; discriminate H|].
      intros (_ & H & _). exfalso.
      assert (E : first_index (fun x => x <? 0) (s :: sh) 0 = None).
      { apply first_index_None. eapply Forall_impl; [exact H|].
        intros x Hx. simpl in Hx. simpl. lia. }
      congruence.
    + apply first_index_None in E1.
      destruct (first_index (fun s0 => negb (Z.rem s0 (itemsize_ self) =? 0))
                  (strides_ self) 0) as [i|] eqn:E2.
      * split; [intros H; discriminate H|].
        intros (_ & _ & H). exfalso.
        assert (E : first_index
                      (fun s0 => negb (Z.rem s0 (itemsize_ self) =? 0))
                      (strides_ self) 0 = None).
        { apply first_index_None. eapply Forall_impl; [exact H|].
          intros x Hx. simpl in Hx. simpl. rewrite Hx. reflexivity. }
        congruence.
      * apply first_index_None in E2. split; [|reflexivity]. intros _.
        split; [discriminate|]. split.
        -- eapply Forall_impl; [exact E1|]. intros x Hx. simpl in Hx. lia.
        -- eapply Forall_impl; [exact E2|]. intros x Hx. simpl in Hx.
           apply negb_false_iff in Hx. lia.
Qed.

Lemma packed_strides_rem (itemsize : Z) (shape : list Z) :
  Forall (fun s => Z.rem s itemsize = 0) (packed_strides itemsize shape).
Proof.
  induction shape as [|x shape IH]; simpl; constructor; [|exact IH].
  destruct (Z.eq_dec itemsize 0) as [->|Hne].
  - reflexivity.
  - rewrite Z.mul_comm. apply Z.rem_mul. exact Hne.
Qed.

(** X5.  The view that contiguity normalisation returns for an array with
    at least one dimension and no negative extent passes [validityerror],
    whatever the strides of the array were. *)
Theorem contiguous_validityerror (self : NumpyArray) (path : string) :
  shape_strides_agree self ->
  shape_ self <> [] -> Forall (fun x => 0 <= x) (shape_ self) ->
  exists c, contiguous self = Returned c /\ validityerror c path = "".
Proof.
  intros Hwf Hne Hpos.
  destruct (contiguous_spec self Hwf)
    as (c & Hc & _ & _ & _ & Hshape & Hstrides & Hisz & _).
  exists c. split; [exact Hc|].
  apply validityerror_passes. rewrite Hshape, Hstrides, Hisz.
  repeat split; try assumption. apply packed_strides_rem.
Qed.

Lemma contiguous_validityerror_witness :
  exists c, contiguous (int16_view [2; 3] [24; 4] 2) = Returned c
            /\ validityerror c "layout" = "".
Proof.
  apply (contiguous_validityerror (int16_view [2; 3] [24; 4] 2) "layout").
  - reflexivity.
  - discriminate.
  - repeat constructor; lia.
Defined.

(** ** Identities *)

(** X6.  When [setidentities] accepts identities, the array is no scalar,
    it has as many items as the identities have rows, only its identities
    change, and [check_for_iteration] passes on the result; a scalar
    accepts none. *)
Theorem setidentities_accepts (self : NumpyArray) (ids : Identities.t) :
  (forall v, setidentities self (Some ids) = Returned v ->
     1 <= ndim self
     /\ Identities.length ids = shape_ self @ 0
     /\ v = Build_NumpyArray (Some ids) (parameters_ self) (ptr_ self)
              (shape_ self) (strides_ self) (byteoffset_ self)
              (itemsize_ self) (format_ self) (dtype_ self) (ptr_lib_ self)
     /\ check_for_iteration v = Returned tt)
  /\ (isscalar self = true ->
      exists e, setidentities self (Some ids) = Thrown e)
  /\ (isscalar self = false -> Identities.length ids = shape_ self @ 0 ->
      returns (setidentities self (Some ids))).
Proof.
  unfold setidentities, NumpyArray_length.
  assert (Hlen : 0 <= Identities.length ids)
    by (unfold Identities.length; lia).
  split; [|split].
  - intros v Hv. destruct (isscalar self) eqn:Hsc.
    + replace (-1 =? Identities.length ids) with false in Hv by lia.
      simpl in Hv. discriminate Hv.
    + destruct (Z.eqb_spec (shape_ self @ 0) (Identities.length ids))
        as [E|E]; simpl in Hv; [|discriminate Hv].
      injection Hv as <-. unfold isscalar in Hsc.
      assert (0 <= ndim self) by (unfold ndim; lia).
      repeat split; try lia.
      unfold check_for_iteration. cbn [identities_ shape_].
      replace (Identities.length ids <? shape_ self @ 0) with false by lia.
      reflexivity.
  - intros ->. replace (-1 =? Identities.length ids) with false by lia.
    simpl. eauto.
  - intros -> E. rewrite E, Z.eqb_refl. simpl. eexists; reflexivity.
Qed.

Lemma setidentities_accepts_witness :
  exists v, setidentities (int16_view [2] [2] 0) (Some [[0]; [1]])
            = Returned v
            /\ check_for_iteration v = Returned tt.
Proof.
  eexists. split; [reflexivity|].
  apply (setidentities_accepts (int16_view [2] [2] 0) [[0]; [1]]).
  reflexivity.
Defined.

(** ** Extents and byte lengths *)

Lemma product_zero_iff (l : list Z) :
  existsb (fun x => x =? 0) l = true <-> product l = 0.
Proof.
  induction l as [|a l IH].
  - rewrite product_nil. simpl. split; [discriminate | lia].
  - rewrite product_cons. simpl. rewrite orb_true_iff, IH. lia.
Qed.

(** X7.  An array is empty exactly when the product of its extents is [0],
    and the byte length of an array that is contiguous is the item size
    times that product, so that an empty contiguous array has no bytes. *)
Theorem isempty_product (self : NumpyArray) :
  (isempty self = true <-> product (shape_ self) = 0)
  /\ (shape_strides_agree self -> iscontiguous self = true ->
      bytelength self = itemsize_ self * product (shape_ self)).
Proof.
  split.
  - apply product_zero_iff.
  - intros Hwf Hc. apply iscontiguous_packed in Hc; [|exact Hwf].
    unfold bytelength, isscalar, ndim. rewrite Hc.
    destruct (shape_ self) as [|s sh]; simpl.
    + rewrite product_nil. lia.
    + unfold vec_at; simpl. rewrite product_cons. lia.
Qed.

Lemma isempty_product_witness :
  bytelength (int16_view [0; 3] [6; 2] 0)
  = itemsize_ (int16_view [0; 3] [6; 2] 0)
    * product (shape_ (int16_view [0; 3] [6; 2] 0)).
Proof.
  apply (isempty_product (int16_view [0; 3] [6; 2] 0)); reflexivity.
Defined.

(** ** Views over index arrays *)

Lemma ssize_t_of_size_t_mul (a b : Z) :
  - 2 ^ 63 <= ssize_t_of_size_t (size_t_mul a b) < 2 ^ 63
  /\ (ssize_t_of_size_t (size_t_mul a b) - a * b) mod 2 ^ 64 = 0
  /\ (- 2 ^ 63 <= a * b < 2 ^ 63 ->
      ssize_t_of_size_t (size_t_mul a b) = a * b).
Proof.
  unfold ssize_t_of_size_t, size_t_mul.
  pose proof (Z.mod_pos_bound (a * b) (2 ^ 64) ltac:(lia)) as Hm.
  pose proof (Z.div_mod (a * b) (2 ^ 64) ltac:(lia)) as Hd.
  set (m := (a * b) mod 2 ^ 64) in *. set (q := a * b / 2 ^ 64) in *.
  assert (H63 : 2 ^ 64 = 2 * 2 ^ 63) by reflexivity.
  split; [|split].
  - destruct (Z.ltb_spec m (2 ^ 63)); lia.
  - destruct (Z.ltb_spec m (2 ^ 63)).
    + replace (m - a * b) with (- q * 2 ^ 64) by lia. apply Z.mod_mul. lia.
    + replace (m - 2 ^ 64 - a * b) with ((- q - 1) * 2 ^ 64) by lia.
      apply Z.mod_mul. lia.
  - intros Hab. destruct (Z.ltb_spec m (2 ^ 63)); nia.
Qed.

(** X8.  Each of the five constructors from an index array returns a
    one-dimensional contiguous view of as many items as the index has,
    whose item size is the width of its type, and which [validityerror]
    accepts unless the length is negative.  It starts at the offset of the
    index counted in bytes, as the product in [size_t] gives it: a signed
    64-bit number that differs from the offset times the item size by a
    multiple of [2^64], and that is this product where the product fits a
    signed 64-bit number. *)
Theorem NumpyArray_of_Index_view (index : Index.t) (path : string) :
  Forall
    (fun make : Index.t -> outcome NumpyArray =>
       exists v,
         make index = Returned v
         /\ shape_ v = [Index.length index]
         /\ iscontiguous v = true
         /\ itemsize_ v = dtype_to_itemsize (dtype_ v)
         /\ byteoffset_ v
            = ssize_t_of_size_t (size_t_mul (Index.offset index) (itemsize_ v))
         /\ - 2 ^ 63 <= byteoffset_ v < 2 ^ 63
         /\ (byteoffset_ v - Index.offset index * itemsize_ v) mod 2 ^ 64 = 0
         /\ (- 2 ^ 63 <= Index.offset index * itemsize_ v < 2 ^ 63 ->
             byteoffset_ v = Index.offset index * itemsize_ v)
         /\ bytelength v = Index.length index * itemsize_ v
         /\ ptr_ v = Index.ptr index
         /\ ptr_lib_ v = Index.ptr_lib index
         /\ (0 <= Index.length index -> validityerror v path = ""))
    [NumpyArray_of_Index8; NumpyArray_of_IndexU8; NumpyArray_of_Index32;
     NumpyArray_of_IndexU32; NumpyArray_of_Index64].
Proof.
  repeat constructor;
    (eexists; split; [reflexivity|];
     cbn [shape_ itemsize_ dtype_ byteoffset_ ptr_ ptr_lib_];
     match goal with
     | |- context [size_t_mul ?a ?b] =>
         destruct (ssize_t_of_size_t_mul a b) as (Hrange & Hmod & Hfits)
     end;
     split; [reflexivity|]; split; [reflexivity|]; split; [reflexivity|];
     split; [reflexivity|]; split; [exact Hrange|]; split; [exact Hmod|];
     split; [exact Hfits|]; split; [reflexivity|]; split; [reflexivity|];
     split; [reflexivity|];
     intros H; apply validityerror_passes;
     cbn [shape_ strides_ itemsize_];
     repeat split; try discriminate; repeat constructor; exact H).
Qed.

(** The offset [2^61] of an [Index64]: eight times it is [2^64], and the
    view starts at byte [0]. *)
Example NumpyArray_of_Index64_wraps :
  NumpyArray_of_Index64 (Index.Build_t [] (2 ^ 61) 0 kernel.cpu_kernels)
  = Returned
      (Build_NumpyArray None ∅ [] [0] [8] 0 8 (dtype_to_format int64) int64
         kernel.cpu_kernels).
Proof. reflexivity. Qed.

(** ** Copies *)

Lemma NumpyArray_make_keeps ids ps ptr shape strides off isz fmt dt v :
  NumpyArray_make ids ps ptr shape strides off isz fmt dt = Returned v ->
  identities_ v = ids /\ parameters_ v = ps /\ format_ v = fmt
  /\ shape_ v = shape.
Proof. intros H. apply NumpyArray_make_inv in H as [_ ->]. auto. Qed.

Lemma contiguous_next_keeps (fuel : nat) (self : NumpyArray)
    (bytepos : Index64) (out : NumpyArray) :
  contiguous_next fuel self bytepos = Returned out ->
  identities_ out = identities_ self /\ parameters_ out = parameters_ self
  /\ format_ out = format_ self /\ shape_ out = shape_ self.
Proof.
  revert self bytepos out. induction fuel as [|fuel IH];
    intros self bytepos out H; [discriminate|].
  cbn [contiguous_next] in H.
  destruct (iscontiguous self).
  - inv_returned H. eapply NumpyArray_make_keeps; eassumption.
  - destruct (length (shape_ self) =? 1)%nat.
    + inv_returned H. eapply NumpyArray_make_keeps; eassumption.
    + apply bind_returned_inv in H as (next & Hnext & H).
      unfold kernel.NumpyArray_contiguous_next_64 in H.
      apply bind_returned_inv in H as (? & _ & H).
      apply bind_returned_inv in H as (out' & Hout' & H).
      apply NumpyArray_make_keeps in H as (H1 & H2 & H3 & H4).
      apply IH in Hout' as (I1 & I2 & _).
      apply NumpyArray_make_keeps in Hnext as (N1 & N2 & _).
      rewrite H1, H2, H3, H4, I1, I2, N1, N2. auto.
Qed.

Lemma contiguous_keeps (self c : NumpyArray) :
  contiguous self = Returned c ->
  identities_ c = identities_ self /\ parameters_ c = parameters_ self
  /\ format_ c = format_ self /\ shape_ c = shape_ self.
Proof.
  unfold contiguous. destruct (iscontiguous self).
  - apply NumpyArray_make_keeps.
  - unfold kernel.NumpyArray_contiguous_init_64.
    rewrite handle_error_success. cbn [bind]. apply contiguous_next_keeps.
Qed.

(** X9.  [deep_copy] returns an array of the same shape, type, format,
    parameters and identities in which every element is the element of the
    original; with [copyarrays] it is contiguous, and without it the buffer,
    the strides and the byte offset are those of the original. *)
Theorem deep_copy_same_elements (self : NumpyArray)
    (copyarrays copyindexes copyidentities : bool) :
  shape_strides_agree self ->
  exists v,
    deep_copy self copyarrays copyindexes copyidentities = Returned v
    /\ shape_ v = shape_ self
    /\ identities_ v = identities_ self
    /\ parameters_ v = parameters_ self
    /\ itemsize_ v = itemsize_ self
    /\ format_ v = format_ self
    /\ dtype_ v = dtype_ self
    /\ (copyarrays = true -> iscontiguous v = true)
    /\ (copyarrays = false ->
        ptr_ v = ptr_ self /\ strides_ v = strides_ self
        /\ byteoffset_ v = byteoffset_ self)
    /\ forall idx, index_in_range idx (shape_ self) ->
                   element_at v idx = element_at self idx.
Proof.
  intros Hwf. unfold deep_copy.
  assert (Hids : (if copyidentities && has_identities self
                  then option_map Identities_deep_copy (identities_ self)
                  else identities_ self) = identities_ self).
  { destruct (copyidentities && has_identities self); [|reflexivity].
    destruct (identities_ self); reflexivity. }
  rewrite Hids. destruct copyarrays.
  - destruct (contiguous_spec self Hwf)
      as (c & Hc & Hwfc & Hcont & _ & Hshape & Hstr & Hisz & _ & _ & Hread).
    rewrite Hc. cbn [bind].
    rewrite NumpyArray_make_agree by exact Hwfc.
    eexists; split; [reflexivity|].
    cbn [shape_ identities_ parameters_ itemsize_ format_ dtype_ ptr_
         strides_ byteoffset_].
    repeat split; try assumption; try discriminate.
    + intros _. apply iscontiguous_packed.
      * exact Hwfc.
      * cbn [strides_ itemsize_ shape_]. rewrite Hstr, Hshape. reflexivity.
    + intros idx Hidx. rewrite <- (Hread idx Hidx).
      unfold element_at. cbn [ptr_ byteoffset_ strides_ itemsize_].
      rewrite Hisz. reflexivity.
  - cbn [bind]. rewrite NumpyArray_make_agree by exact Hwf.
    eexists; split; [reflexivity|].
    cbn [shape_ identities_ parameters_ itemsize_ format_ dtype_ ptr_
         strides_ byteoffset_].
    repeat split; try discriminate.
Qed.

Lemma deep_copy_same_elements_witness :
  exists v,
    deep_copy (int16_view [2; 3] [24; 4] 2) true true true = Returned v
    /\ iscontiguous v = true
    /\ forall idx, index_in_range idx [2; 3] ->
         element_at v idx = element_at (int16_view [2; 3] [24; 4] 2) idx.
Proof.
  destruct (deep_copy_same_elements (int16_view [2; 3] [24; 4] 2) true true
              true) as (v & Hv & _ & _ & _ & _ & _ & _ & Hc & _ & Hread).
  - reflexivity.
  - exists v. split; [exact Hv|]. split; [apply Hc; reflexivity|exact Hread].
Defined.

(** ** Regular nodes and regular types *)

Lemma fold_left_product (l : list Z) (a : Z) :
  fold_left (fun acc x => acc * x) l a = a * product l.
Proof.
  revert a. induction l as [|x l IH]; intros a; simpl.
  - rewrite product_nil. lia.
  - rewrite IH, product_cons. lia.
Qed.

Lemma vec_at_drop_1 (v : list Z) (i : nat) : drop 1 v @ i = v @ S i.
Proof.
  unfold vec_at. destruct v as [|x v]; simpl.
  - destruct i; reflexivity.
  - rewrite drop_0. reflexivity.
Qed.

Lemma toRegularArray_loop_sizes (shape : list Z) (i : nat) (out : Content) :
  (i < length shape)%nat ->
  regular_sizes (toRegularArray_loop shape i out)
  = take i (drop 1 shape) ++ regular_sizes out
  /\ leaf (toRegularArray_loop shape i out) = leaf out.
Proof.
  revert out. induction i as [|i IH]; intros out Hi.
  - simpl. rewrite ?take_0. auto.
  - cbn [toRegularArray_loop].
    destruct (IH (CRegularArray None ∅ out (shape @ S i))) as [IH1 IH2];
      [lia|].
    rewrite IH1, IH2. split; [|reflexivity].
    cbn [regular_sizes].
    assert (Hd : (i < length (drop 1 shape))%nat)
      by (rewrite length_drop; lia).
    rewrite (take_S_vec_at (drop 1 shape) i Hd).
    rewrite <- app_assoc. simpl. rewrite vec_at_drop_1. reflexivity.
Qed.

Lemma element_offset_packed (itemsize : Z) (idx shape : list Z) :
  element_offset idx (packed_strides itemsize shape)
  = itemsize * linear_index idx shape.
Proof.
  revert idx. induction shape as [|s shape IH]; intros idx.
  - destruct idx; simpl; lia.
  - destruct idx as [|i idx]; simpl; [lia|]. rewrite IH. lia.
Qed.

(** X10.  [toRegularArray] turns an array that is no scalar into a flat
    contiguous array of all its elements in row-major order, inside one
    regular node for each inner dimension, the outermost being of the size
    of the second dimension. *)
Theorem toRegularArray_row_major (self : NumpyArray) :
  shape_strides_agree self -> 1 <= ndim self ->
  exists r flat,
    toRegularArray self = Returned r
    /\ leaf r = Some flat
    /\ regular_sizes r = drop 1 (shape_ self)
    /\ shape_ flat = [product (shape_ self)]
    /\ iscontiguous flat = true
    /\ dtype_ flat = dtype_ self
    /\ identities_ flat = identities_ self
    /\ parameters_ flat = parameters_ self
    /\ forall idx, index_in_range idx (shape_ self) ->
         element_at flat [linear_index idx (shape_ self)]
         = element_at self idx.
Proof.
  intros Hwf Hnd. unfold ndim in Hnd.
  unfold toRegularArray, isscalar, ndim.
  replace (Z.of_nat (length (shape_ self)) =? 0) with false by lia.
  destruct (contiguous_spec self Hwf)
    as (c & Hc & _ & _ & _ & _ & Hstr & Hisz & Hdt & _ & Hread).
  rewrite Hc. cbn [bind].
  rewrite NumpyArray_make_agree by reflexivity. cbn [bind].
  eexists. eexists. split; [reflexivity|].
  destruct (toRegularArray_loop_sizes (shape_ self)
              (length (shape_ self) - 1)
              (CNumpyArray
                 (Build_NumpyArray (identities_ self) (parameters_ self)
                    (ptr_ c)
                    [fold_left (fun acc x => acc * x) (shape_ self) 1]
                    [itemsize_ self] (byteoffset_ c) (itemsize_ c)
                    (format_ c) (dtype_ c) kernel.cpu_kernels)))
    as [Hsizes Hleaf]; [lia|].
  rewrite Hsizes, Hleaf. cbn [leaf regular_sizes].
  split; [reflexivity|]. split.
  { rewrite app_nil_r. apply take_ge. rewrite length_drop. lia. }
  cbn [shape_ dtype_ identities_ parameters_].
  split; [rewrite fold_left_product; f_equal; lia|].
  split.
  { unfold iscontiguous; simpl. unfold vec_at; simpl.
    rewrite Hisz, Z.eqb_refl. reflexivity. }
  repeat split; try assumption.
  intros idx Hidx. rewrite <- (Hread idx Hidx).
  unfold element_at. cbn [ptr_ byteoffset_ strides_ itemsize_].
  rewrite Hstr, element_offset_packed, Hisz. simpl. f_equal. lia.
Qed.

Lemma toRegularArray_row_major_witness :
  exists r flat,
    toRegularArray (int16_view [2; 3] [24; 4] 2) = Returned r
    /\ leaf r = Some flat
    /\ regular_sizes r = [3]
    /\ shape_ flat = [6]
    /\ forall idx, index_in_range idx [2; 3] ->
         element_at flat [linear_index idx [2; 3]]
         = element_at (int16_view [2; 3] [24; 4] 2) idx.
Proof.
  destruct (toRegularArray_row_major (int16_view [2; 3] [24; 4] 2))
    as (r & flat & Hr & Hleaf & Hsizes & Hshape & _ & _ & _ & _ & Hread).
  - reflexivity.
  - unfold ndim; simpl; lia.
  - exists r, flat. auto.
Defined.

Lemma NumpyForm_type_loop_sizes gettypestr (f : NumpyForm.t)
    (typestrs : gmap string string) (i : nat) (out : Type_) :
  (i <= length (NumpyForm.inner_shape_ f))%nat ->
  Type_sizes (NumpyForm_type_loop f gettypestr typestrs i out)
  = take i (NumpyForm.inner_shape_ f) ++ Type_sizes out
  /\ Type_primitive (NumpyForm_type_loop f gettypestr typestrs i out)
     = Type_primitive out.
Proof.
  revert out. induction i as [|i IH]; intros out Hi.
  - simpl. rewrite ?take_0. auto.
  - cbn [NumpyForm_type_loop].
    destruct (IH (RegularType ∅
                    (gettypestr (NumpyForm.parameters_ f) typestrs) out
                    (NumpyForm.inner_shape_ f @ i))) as [IH1 IH2]; [lia|].
    rewrite IH1, IH2. split; [|reflexivity].
    cbn [Type_sizes]. rewrite (take_S_vec_at _ i) by lia.
    rewrite <- app_assoc. reflexivity.
Qed.

(** X11.  The type of an array whose element type is primitive is that
    primitive type inside one regular type for each inner dimension, with
    the sizes of the inner shape from the outside in, as the regular nodes
    of [toRegularArray] have them; the depth of its form is the number of
    its dimensions; and an array whose element type is not primitive has no
    type. *)
Theorem type_regular_sizes gettypestr (self : NumpyArray)
    (typestrs : gmap string string) :
  (dtype_ self = NOT_PRIMITIVE ->
   exists w, type gettypestr self typestrs = Thrown (invalid_argument w))
  /\ (dtype_ self <> NOT_PRIMITIVE ->
      exists t, type gettypestr self typestrs = Returned t
                /\ Type_sizes t = drop 1 (shape_ self)
                /\ Type_primitive t = dtype_ self)
  /\ (1 <= ndim self ->
      NumpyForm_purelist_depth (form self true) = ndim self).
Proof.
  unfold type, NumpyForm_type, form.
  cbn [NumpyForm.dtype_ NumpyForm.inner_shape_ NumpyForm.parameters_
       NumpyForm.format_].
  split; [|split].
  - intros ->. simpl. eauto.
  - intros Hdt.
    replace (dtype_eqb (dtype_ self) NOT_PRIMITIVE) with false
      by (unfold dtype_eqb; rewrite bool_decide_eq_false_2; auto).
    eexists; split; [reflexivity|].
    match goal with
    | |- context [NumpyForm_type_loop ?f _ _ ?i ?out] =>
        destruct (NumpyForm_type_loop_sizes gettypestr f typestrs i out)
          as [H1 H2]
    end.
    { cbn [NumpyForm.inner_shape_]. lia. }
    cbn [NumpyForm.inner_shape_ NumpyForm.parameters_] in *.
    rewrite H1, H2. cbn [Type_sizes Type_primitive].
    rewrite app_nil_r, take_ge by lia. auto.
  - intros Hnd. unfold NumpyForm_purelist_depth, ndim in *.
    cbn [NumpyForm.inner_shape_]. rewrite length_drop. lia.
Qed.

Lemma parameters_equal_refl (p : Parameters) : parameters_equal p p = true.
Proof.
  unfold parameters_equal. apply forallb_forall. intros k _.
  unfold parameter_equals. apply bool_decide_eq_true_2. reflexivity.
Qed.

Lemma has_identities_eq (a b : NumpyArray) :
  (identities_ a = None <-> identities_ b = None) ->
  has_identities a = has_identities b.
Proof.
  intros H. unfold has_identities.
  destruct (identities_ a), (identities_ b);
    try reflexivity; exfalso; destruct H as [H1 H2];
    first [discriminate (H1 eq_refl) | discriminate (H2 eq_refl)].
Qed.

Lemma NumpyForm_equal_same (a b : NumpyArray) :
  has_identities a = has_identities b ->
  parameters_ a = parameters_ b ->
  drop 1 (shape_ a) = drop 1 (shape_ b) ->
  format_ a = format_ b ->
  NumpyForm_equal (form a true) (FNumpyForm (form b true)) true true true true
  = true.
Proof.
  intros Hids Hps Hsh Hfmt. unfold NumpyForm_equal, form.
  cbn [Form_has_identities Form_parameters Form_form_key
       NumpyForm.has_identities_ NumpyForm.parameters_ NumpyForm.form_key_
       NumpyForm.inner_shape_ NumpyForm.format_].
  rewrite Hids, Hps, Hsh, Hfmt, parameters_equal_refl.
  rewrite Bool.eqb_reflx. unfold form_key_equals.
  rewrite !bool_decide_eq_true_2 by reflexivity. reflexivity.
Qed.

(** X12.  The form of an array is an invariant of the operations that keep
    its inner shape: the form of its contiguous copy, of any range of its
    items and of its deep copy equals the form of the array in identities,
    parameters, form key, inner shape and format. *)
Theorem form_invariant (self : NumpyArray) :
  let same v :=
    NumpyForm_equal (form v true) (FNumpyForm (form self true)) true true
      true true = true in
  (forall c, contiguous self = Returned c -> same c)
  /\ (forall start stop r,
        getitem_range_nowrap self start stop = Returned r -> same r)
  /\ (forall a b c v, deep_copy self a b c = Returned v -> same v)
  /\ (forall v, shallow_copy self = Returned v -> same v).
Proof.
  intros same. subst same. cbv beta.
  assert (Hcont : forall c, contiguous self = Returned c ->
            NumpyForm_equal (form c true) (FNumpyForm (form self true)) true
              true true true = true).
  { intros c Hc.
    destruct (contiguous_keeps self c Hc) as (H1 & H2 & H3 & H4).
    apply NumpyForm_equal_same; try congruence.
    apply has_identities_eq. rewrite H1. tauto. }
  split; [exact Hcont|]. split; [|split].
  - intros start stop r Hr. unfold getitem_range_nowrap in Hr.
    apply bind_returned_inv in Hr as (ids' & Hids & Hr).
    apply NumpyArray_make_inv in Hr as [_ ->].
    apply NumpyForm_equal_same; try reflexivity.
    apply has_identities_eq. cbn [identities_].
    destruct (identities_ self) as [ids|].
    + apply bind_returned_inv in Hids as (? & _ & Hids).
      injection Hids as <-. split; discriminate.
    + injection Hids as <-. tauto.
  - intros a b c v Hv. unfold deep_copy in Hv.
    assert (Hids : (if c && has_identities self
                    then option_map Identities_deep_copy (identities_ self)
                    else identities_ self) = identities_ self).
    { destruct (c && has_identities self); [|reflexivity].
      destruct (identities_ self); reflexivity. }
    rewrite Hids in Hv.
    apply bind_returned_inv in Hv as (tmp & Htmp & Hv).
    apply NumpyArray_make_inv in Hv as [_ ->].
    assert (Hsh : shape_ tmp = shape_ self).
    { destruct a; [apply (contiguous_keeps _ _ Htmp) | congruence]. }
    apply NumpyForm_equal_same; cbn [parameters_ format_ shape_];
      try congruence.
    apply has_identities_eq. cbn [identities_]. tauto.
  - intros v Hv. apply NumpyArray_make_inv in Hv as [_ ->].
    apply NumpyForm_equal_same; reflexivity.
Qed.

(** ** The slice protocol and the direct selections *)

Lemma getitem_bystrides_fuel_S (self : NumpyArray) (where_ : Slice.t) :
  getitem_bystrides_fuel self where_
  = S (S (S (S (2 * length (shape_ self) + length where_)))).
Proof. unfold getitem_bystrides_fuel. lia. Qed.

(** The view that [getitem] puts in front of a by-strides resolution. *)
Lemma getitem_bystrides_branch (self : NumpyArray) (where_ : Slice.t) :
  shape_strides_agree self -> 1 <= ndim self -> identities_ self = None ->
  getitem_too_general (Slice.head where_) (Slice.tail where_) = false ->
  Slice.isadvanced where_ = false ->
  getitem self where_
  = let next :=
      Build_NumpyArray None (parameters_ self) (ptr_ self)
        (1 :: shape_ self)
        (shape_ self @ 0 * strides_ self @ 0 :: strides_ self)
        (byteoffset_ self) (itemsize_ self) (format_ self) (dtype_ self)
        kernel.cpu_kernels in
    do out <- getitem_bystrides (getitem_bystrides_fuel next where_) next
                (Slice.head where_) (Slice.tail where_) 1;
    do r <- NumpyArray_make (identities_ out) (parameters_ out) (ptr_ out)
              (drop 1 (shape_ out)) (drop 1 (strides_ out)) (byteoffset_ out)
              (itemsize_ self) (format_ self) (dtype_ self);
    Returned (CNumpyArray r).
Proof.
  intros Hwf Hnd Hids Hgen Hadv. unfold getitem, isscalar.
  replace (ndim self =? 0) with false by lia.
  rewrite Hgen, Hadv. unfold has_identities. rewrite Hids.
  rewrite bool_decide_eq_false_2 by auto. cbn [negb andb].
  rewrite NumpyArray_make_agree by (simpl; rewrite Hwf; reflexivity).
  reflexivity.
Qed.

Lemma getitem_bystrides_null (fuel : nat) (self : NumpyArray)
    (tail : Slice.t) (len : Z) :
  getitem_bystrides (S fuel) self None tail len
  = NumpyArray_make (identities_ self) (parameters_ self) (ptr_ self)
      (shape_ self) (strides_ self) (byteoffset_ self) (itemsize_ self)
      (format_ self) (dtype_ self).
Proof. reflexivity. Qed.

Lemma getitem_bystrides_item (fuel : nat) (self : NumpyArray)
    (tail : Slice.t) (len : Z) :
  (forall at_,
     getitem_bystrides (S fuel) self (Some (SliceAt at_)) tail len
     = getitem_bystrides_at (getitem_bystrides fuel) self at_ tail len)
  /\ (forall start stop step,
        getitem_bystrides (S fuel) self (Some (SliceRange start stop step))
          tail len
        = getitem_bystrides_range (getitem_bystrides fuel) self start stop
            step tail len)
  /\ getitem_bystrides (S fuel) self (Some SliceEllipsis) tail len
     = getitem_bystrides_ellipsis (getitem_bystrides fuel) self tail len
  /\ getitem_bystrides (S fuel) self (Some SliceNewAxis) tail len
     = getitem_bystrides_newaxis (getitem_bystrides fuel) self tail len.
Proof. repeat split. Qed.

(** X13.  On an array without identities that is no scalar, the slice
    protocol agrees with the direct selections: the empty slice and the
    ellipsis give a shallow copy, a single index gives what [getitem_at]
    gives, errors included, and a single range of step [1], written or
    missing, gives what [getitem_range] gives. *)
Theorem getitem_single_item (self : NumpyArray) :
  shape_strides_agree self -> 1 <= ndim self -> identities_ self = None ->
  getitem self [] = (do c <- shallow_copy self; Returned (CNumpyArray c))
  /\ getitem self [SliceEllipsis]
     = (do c <- shallow_copy self; Returned (CNumpyArray c))
  /\ (forall at_,
        getitem self [SliceAt at_]
        = do v <- getitem_at self at_; Returned (CNumpyArray v))
  /\ (forall start stop step, step = 1 \/ step = Slice.none ->
        getitem self [SliceRange start stop step]
        = do v <- getitem_range self start stop; Returned (CNumpyArray v)).
Proof.
  intros Hwf Hnd Hids.
  assert (Hsh : exists s sh st str,
            shape_ self = s :: sh /\ strides_ self = st :: str
            /\ length sh = length str).
  { unfold ndim in Hnd. unfold shape_strides_agree in Hwf.
    destruct (shape_ self) as [|s sh]; [simpl in Hnd; lia|].
    destruct (strides_ self) as [|st str]; [discriminate Hwf|].
    simpl in Hwf. exists s, sh, st, str. auto. }
  destruct Hsh as (s & sh & st & str & Hsh & Hst & Hlen).
  assert (Hcopy : shallow_copy self
                  = Returned (Build_NumpyArray None (parameters_ self)
                      (ptr_ self) (s :: sh) (st :: str) (byteoffset_ self)
                      (itemsize_ self) (format_ self) (dtype_ self)
                      kernel.cpu_kernels)).
  { rewrite shallow_copy_returns by exact Hwf. rewrite Hids, Hsh, Hst.
    reflexivity. }
  assert (Hmake : forall ids ps ptr a b off isz fmt dt,
            NumpyArray_make ids ps ptr (a :: sh) (b :: str) off isz fmt dt
            = Returned (Build_NumpyArray ids ps ptr (a :: sh) (b :: str) off
                          isz fmt dt kernel.cpu_kernels)).
  { intros. apply NumpyArray_make_agree. simpl. rewrite Hlen. reflexivity. }
  assert (Hmake2 : forall ids ps ptr a a' b b' off isz fmt dt,
            NumpyArray_make ids ps ptr (a :: a' :: sh) (b :: b' :: str) off
              isz fmt dt
            = Returned (Build_NumpyArray ids ps ptr (a :: a' :: sh)
                          (b :: b' :: str) off isz fmt dt
                          kernel.cpu_kernels)).
  { intros. apply NumpyArray_make_agree. simpl. rewrite Hlen. reflexivity. }
  assert (Hmake0 : forall ids ps ptr off isz fmt dt,
            NumpyArray_make ids ps ptr sh str off isz fmt dt
            = Returned (Build_NumpyArray ids ps ptr sh str off isz fmt dt
                          kernel.cpu_kernels)).
  { intros. apply NumpyArray_make_agree, Hlen. }
  split; [|split; [|split]].
  - rewrite getitem_bystrides_branch by auto. cbv zeta.
    rewrite getitem_bystrides_fuel_S.
    unfold Slice.head, Slice.tail. cbn [head skipn].
    rewrite getitem_bystrides_null.
    cbn [shape_ strides_ identities_ parameters_ ptr_ byteoffset_ itemsize_
         format_ dtype_].
    rewrite Hsh, Hst, Hmake2.
    cbn [bind shape_ strides_ identities_ parameters_ ptr_ byteoffset_ skipn].
    rewrite ?drop_0. rewrite Hmake, Hcopy. reflexivity.
  - rewrite getitem_bystrides_branch by auto. cbv zeta.
    rewrite getitem_bystrides_fuel_S.
    unfold Slice.head, Slice.tail. cbn [head skipn].
    rewrite (proj1 (proj2 (proj2 (getitem_bystrides_item _ _ _ _)))).
    unfold getitem_bystrides_ellipsis. unfold Slice.length. cbn [length].
    change (Z.of_nat 0 =? 0) with true. cbn [orb].
    unfold Slice.head, Slice.tail. cbn [head skipn].
    rewrite getitem_bystrides_null.
    cbn [shape_ strides_ identities_ parameters_ ptr_ byteoffset_ itemsize_
         format_ dtype_].
    rewrite Hsh, Hst, Hmake2.
    cbn [bind shape_ strides_ identities_ parameters_ ptr_ byteoffset_ skipn].
    rewrite ?drop_0. rewrite Hmake, Hcopy. reflexivity.
  - intros at_. rewrite getitem_bystrides_branch by auto. cbv zeta.
    rewrite getitem_bystrides_fuel_S.
    unfold Slice.head, Slice.tail. cbn [head skipn].
    rewrite (proj1 (getitem_bystrides_item _ _ _ _)).
    unfold getitem_bystrides_at, getitem_at, too_many_dimensions, ndim,
      has_identities.
    cbn [shape_ strides_ identities_ parameters_ ptr_ byteoffset_ itemsize_
         format_ dtype_].
    rewrite ?Hids, Hsh, Hst.
    replace (Z.of_nat (length (1 :: s :: sh)) <? 2) with false
      by (symmetry; apply Z.ltb_ge; cbn [length]; lia).
    cbn [bind]. unfold vec_at. cbn [nth].
    destruct (((if at_ <? 0 then at_ + s else at_) <? 0)
              || (s <=? (if at_ <? 0 then at_ + s else at_))) eqn:Hrange.
    + unfold handle_error, failure. cbn [common.str bind]. reflexivity.
    + cbn [bind]. unfold flatten_shape, flatten_strides.
      cbn [length Nat.eqb skipn]. rewrite ?drop_0. unfold vec_at. cbn [nth].
      rewrite Hmake. cbn [bind].
      unfold Slice.head, Slice.tail. cbn [head skipn length Nat.mul Nat.add].
      rewrite getitem_bystrides_null.
      cbn [shape_ strides_ identities_ parameters_ ptr_ byteoffset_ itemsize_
           format_ dtype_].
      rewrite Hmake.
      cbn [bind shape_ strides_ identities_ parameters_ ptr_ byteoffset_
           skipn].
      rewrite ?drop_0. rewrite Hmake.
      cbn [bind shape_ strides_ identities_ parameters_ ptr_ byteoffset_
           skipn].
      rewrite ?drop_0. rewrite Hmake0.
      unfold getitem_at_nowrap. rewrite Hids, Hsh, Hst. cbn [bind skipn].
      rewrite ?drop_0. unfold vec_at. cbn [nth].
      rewrite Hmake0. cbn [bind].
      do 3 f_equal. lia.
  - intros start stop step Hstep.
    rewrite getitem_bystrides_branch by auto. cbv zeta.
    rewrite getitem_bystrides_fuel_S.
    unfold Slice.head, Slice.tail. cbn [head skipn].
    rewrite (proj1 (proj2 (getitem_bystrides_item _ _ _ _))).
    unfold getitem_bystrides_range, getitem_range, too_many_dimensions, ndim,
      has_identities.
    cbn [shape_ strides_ identities_ parameters_ ptr_ byteoffset_ itemsize_
         format_ dtype_].
    rewrite ?Hids, Hsh, Hst.
    replace (Z.of_nat (length (1 :: s :: sh)) <? 2) with false
      by (symmetry; apply Z.ltb_ge; cbn [length]; lia).
    cbn [bind]. unfold vec_at. cbn [nth].
    replace (if step =? Slice.none then 1 else step) with 1
      by (destruct Hstep as [-> | ->]; reflexivity).
    change (0 <? 1) with true.
    unfold Slice.hasstart, Slice.hasstop.
    destruct (kernel.regularize_rangeslice start stop true
                (negb (start =? Slice.none)) (negb (stop =? Slice.none)) s)
      as [a b] eqn:Hreg.
    assert (Hab : a <= b).
    { unfold kernel.regularize_rangeslice in Hreg.
      injection Hreg as <- <-.
      repeat match goal with
             | |- context [if ?c then _ else _] =>
                 lazymatch c with
                 | context [if _ then _ else _] => fail
                 | _ => destruct c eqn:?
                 end
             end; lia. }
    assert (Hlenhead : range_lenhead a b 1 = b - a).
    { unfold range_lenhead. change (Z.abs 1) with 1.
      rewrite Z.quot_1_r, Z.rem_1_r. simpl. lia. }
    rewrite Hlenhead.
    unfold flatten_shape, flatten_strides.
    cbn [length Nat.eqb skipn]. rewrite ?drop_0. unfold vec_at. cbn [nth].
    rewrite Hmake. cbn [bind].
    unfold Slice.head, Slice.tail. cbn [head skipn length Nat.mul Nat.add].
    rewrite getitem_bystrides_null.
    cbn [shape_ strides_ identities_ parameters_ ptr_ byteoffset_ itemsize_
         format_ dtype_].
    rewrite Hmake.
    cbn [bind shape_ strides_ identities_ parameters_ ptr_ byteoffset_
         skipn].
    rewrite ?drop_0. rewrite Hmake2.
    cbn [bind shape_ strides_ identities_ parameters_ ptr_ byteoffset_
         skipn].
    rewrite ?drop_0. rewrite Hmake.
    unfold getitem_range_nowrap. rewrite Hids, Hsh, Hst. cbn [bind skipn].
    rewrite ?drop_0. unfold vec_at. cbn [nth].
    rewrite Hmake. cbn [bind].
    do 3 f_equal; [f_equal; lia | lia].
Qed.

Lemma getitem_single_item_witness :
  getitem (int16_view [3; 2] [8; 2] 0) [SliceAt (-1)]
  = (do v <- getitem_at (int16_view [3; 2] [8; 2] 0) (-1);
     Returned (CNumpyArray v))
  /\ getitem (int16_view [3; 2] [8; 2] 0) [SliceRange 1 Slice.none 1]
     = (do v <- getitem_range (int16_view [3; 2] [8; 2] 0) 1 Slice.none;
        Returned (CNumpyArray v)).
Proof.
  destruct (getitem_single_item (int16_view [3; 2] [8; 2] 0))
    as (_ & _ & Hat & Hrange).
  - reflexivity.
  - unfold ndim; simpl; lia.
  - reflexivity.
  - split; [apply Hat | apply Hrange; left; reflexivity].
Defined.

(** ** The two resolutions of a basic slice *)

Section getitem_paths.

Variable K_at : Index64 -> Z -> Z -> Z -> Error * (nat -> Z).
Variable K_range : Index64 -> Z -> Z -> Z -> Z -> Z -> Error * (nat -> Z).
Variable K_range_advanced :
  Index64 -> Index64 -> Z -> Z -> Z -> Z -> Z
  -> Error * ((nat -> Z) * (nat -> Z)).
Variable K_arrayslice : Index64 -> Z -> Z -> Error * Index64.
Variable K_array :
  Index64 -> Index64 -> Z -> Z -> Z -> Error * ((nat -> Z) * (nat -> Z)).
Variable K_array_advanced :
  Index64 -> Index64 -> Index64 -> Z -> Z -> Error * (nat -> Z).

Hypothesis K_at_success : forall c l s a, fst (K_at c l s a) = success.
Hypothesis K_range_success :
  forall c l lh s a st, fst (K_range c l lh s a st) = success.

Local Abbreviation next_carry :=
  (getitem_next K_at K_range K_range_advanced K_arrayslice K_array
     K_array_advanced).

Lemma too_many_dimensions_shape (a b : NumpyArray) :
  shape_ a = shape_ b -> too_many_dimensions a = too_many_dimensions b.
Proof.
  intros H. unfold too_many_dimensions, ndim. rewrite H.
  destruct (_ <? 2); reflexivity.
Qed.

Lemma index_check_same (i n : Z) :
  negb ((0 <=? i) && (i <? n)) = (i <? 0) || (n <=? i).
Proof.
  destruct (Z.leb_spec 0 i), (Z.ltb_spec i n), (Z.ltb_spec i 0),
    (Z.leb_spec n i); simpl; try reflexivity; lia.
Qed.

Lemma handle_error_no_identity (msg : string) (att : Z) (cls : string)
    (ids ids' : bool) :
  handle_error (failure msg kSliceNone att) cls ids
  = handle_error (failure msg kSliceNone att) cls ids'.
Proof. reflexivity. Qed.

Lemma basic_head_tail (tail : Slice.t) :
  forallb basic_item tail = true ->
  match Slice.head tail with
  | Some x => basic_item x = true
  | None => True
  end
  /\ forallb basic_item (Slice.tail tail) = true.
Proof.
  unfold Slice.head, Slice.tail. destruct tail as [|x tail]; simpl.
  - auto.
  - rewrite drop_0. intros H. apply andb_true_iff in H. exact H.
Qed.

Lemma next_carry_null (fuel : nat) (b : NumpyArray) (tail : Slice.t)
    (carry advanced : Index64) (len stride : Z) (first : bool) :
  next_carry (S fuel) b None tail carry advanced len stride first
  = getitem_next_null b carry stride.
Proof. reflexivity. Qed.

Lemma next_carry_item (fuel : nat) (b : NumpyArray) (tail : Slice.t)
    (carry advanced : Index64) (len stride : Z) (first : bool) :
  (forall at_,
     next_carry (S fuel) b (Some (SliceAt at_)) tail carry advanced len
       stride first
     = getitem_next_at K_at (next_carry fuel) b at_ tail carry advanced len
         stride first)
  /\ (forall start stop step,
        next_carry (S fuel) b (Some (SliceRange start stop step)) tail carry
          advanced len stride first
        = getitem_next_range K_range K_range_advanced (next_carry fuel) b
            start stop step tail carry advanced len stride first)
  /\ next_carry (S fuel) b (Some SliceEllipsis) tail carry advanced len
       stride first
     = getitem_next_ellipsis (next_carry fuel) b tail carry advanced len
         stride first
  /\ next_carry (S fuel) b (Some SliceNewAxis) tail carry advanced len
       stride first
     = getitem_next_newaxis (next_carry fuel) b tail carry advanced len
         stride first.
Proof. repeat split. Qed.

Ltac solve_len :=
  unfold shape_strides_agree in *; cbn [shape_ strides_ length];
  rewrite ?length_drop; lia.

(** The two resolutions run in step: on two views of one shape they throw
    the same exception or return views that agree past the leading
    dimension. *)
Lemma getitem_paths_step (fuel : nat) (a b : NumpyArray)
    (head : option SliceItem) (tail : Slice.t) (len : Z) (carry : Index64)
    (stride : Z) (first : bool) :
  (2 * length (shape_ a) + head_weight head + length tail < fuel)%nat ->
  shape_ a = shape_ b ->
  shape_strides_agree a -> shape_strides_agree b ->
  (1 <= length (shape_ a))%nat ->
  identities_ b = None ->
  match head with Some x => basic_item x = true | None => True end ->
  forallb basic_item tail = true ->
  match getitem_bystrides fuel a head tail len,
        next_carry fuel b head tail carry [] len stride first with
  | Returned x, Returned y =>
      drop 1 (shape_ x) = drop 1 (shape_ y)
      /\ shape_strides_agree x /\ shape_strides_agree y
      /\ (1 <= length (shape_ x))%nat /\ (1 <= length (shape_ y))%nat
  | Thrown e, Thrown e' => e = e'
  | _, _ => False
  end.
Proof.
  revert a b head tail len carry stride first.
  induction fuel as [|fuel IH];
    intros a b head tail len carry stride first Hfuel Hsh Hwfa Hwfb Hnd Hids
      Hhead Htail; [lia|].
  pose proof (head_tail_weight tail) as Hw.
  pose proof (f_equal length Hsh) as Hlenab.
  destruct (basic_head_tail tail Htail) as [Hnexthead Hnexttail].
  assert (Hnext : forall off first',
            (2 <= length (shape_ a))%nat ->
            exists na nb,
              NumpyArray_make (identities_ a) (parameters_ a) (ptr_ a)
                (flatten_shape (shape_ a)) (flatten_strides (strides_ a)) off
                (itemsize_ a) (format_ a) (dtype_ a) = Returned na
              /\ getitem_next_next b first' = Returned nb
              /\ shape_ na = shape_ nb
              /\ shape_strides_agree na /\ shape_strides_agree nb
              /\ length (shape_ na) = (length (shape_ a) - 1)%nat
              /\ identities_ nb = None).
  { intros off first' H2. unfold getitem_next_next.
    assert (L1 : length (flatten_shape (shape_ a))
                 = length (flatten_strides (strides_ a))).
    { rewrite flatten_shape_length, flatten_strides_length;
        unfold shape_strides_agree in *; lia. }
    assert (L2 : length (flatten_shape (shape_ b))
                 = length (flatten_strides (strides_ b))).
    { rewrite flatten_shape_length, flatten_strides_length;
        unfold shape_strides_agree in *; lia. }
    rewrite !NumpyArray_make_agree by assumption.
    eexists. eexists. split; [reflexivity|]. split; [reflexivity|].
    cbn [shape_ identities_].
    split; [rewrite Hsh; reflexivity|].
    split; [exact L1|]. split; [exact L2|].
    split; [apply flatten_shape_length, H2|].
    rewrite Hids. destruct first'; reflexivity. }
  assert (Hdim : (too_many_dimensions a = Returned tt
                  /\ too_many_dimensions b = Returned tt
                  /\ (2 <= length (shape_ a))%nat)
                 \/ exists e, too_many_dimensions a = Thrown e
                              /\ too_many_dimensions b = Thrown e).
  { rewrite (too_many_dimensions_shape a b Hsh).
    unfold too_many_dimensions, ndim. rewrite <- Hsh.
    destruct (Z.ltb_spec (Z.of_nat (length (shape_ a))) 2).
    - right. eexists. split; reflexivity.
    - left. repeat split. lia. }
  destruct head as [[at_|start stop step| | | | | | |]|];
    try discriminate Hhead.
  - (* an index *)
    rewrite (proj1 (getitem_bystrides_item _ _ _ _)).
    rewrite (proj1 (next_carry_item _ _ _ _ _ _ _ _)).
    unfold getitem_bystrides_at, getitem_next_at.
    destruct Hdim as [(Ha & Hb & H2)|(e & Ha & Hb)];
      rewrite Ha, Hb; cbn [bind]; [|reflexivity].
    rewrite index_check_same, <- Hsh.
    set (i := if at_ <? 0 then at_ + shape_ a @ 1 else at_).
    destruct (Hnext (byteoffset_ a + i * strides_ a @ 1) first H2)
      as (na & nb & Hna & Hnb & Hshn & Hwfna & Hwfnb & Hlenn & Hidsn).
    rewrite Hnb. cbn [bind].
    destruct ((i <? 0) || (shape_ a @ 1 <=? i)).
    { cbn [bind]. reflexivity. }
    cbn [bind]. rewrite Hna. cbn [bind].
    destruct (K_at carry (Index_length carry) (shape_ a @ 1) i)
      as [err f] eqn:HK.
    assert (Herr : err = success)
      by (rewrite <- (K_at_success carry (Index_length carry)
                        (shape_ a @ 1) i), HK; reflexivity).
    rewrite Herr, handle_error_success. cbn [bind].
    simpl in Hfuel.
    assert (IH' := IH na nb (Slice.head tail) (Slice.tail tail) len
                     (Index64_filled (Index_length carry) f)
                     (strides_ nb @ 0) false ltac:(lia) Hshn Hwfna Hwfnb
                     ltac:(lia) Hidsn Hnexthead Hnexttail).
    destruct (getitem_bystrides fuel na (Slice.head tail) (Slice.tail tail)
                len) as [x|e| |];
      destruct (next_carry fuel nb (Slice.head tail) (Slice.tail tail)
                  (Index64_filled (Index_length carry) f) [] len
                  (strides_ nb @ 0) false) as [y|e'| |];
      try (destruct IH'; fail); [|cbn [bind]; exact IH'].
    destruct IH' as (I1 & I2 & I3 & I4 & I5).
    cbn [bind].
    rewrite !NumpyArray_make_agree by solve_len.
    cbn [shape_ skipn]. rewrite ?drop_0.
    repeat split; try assumption; solve_len.
  - (* a range *)
    rewrite (proj1 (proj2 (getitem_bystrides_item _ _ _ _))).
    rewrite (proj1 (proj2 (next_carry_item _ _ _ _ _ _ _ _))).
    unfold getitem_bystrides_range, getitem_next_range.
    destruct Hdim as [(Ha & Hb & H2)|(e & Ha & Hb)];
      rewrite Ha, Hb; cbn [bind]; [|reflexivity].
    rewrite <- Hsh.
    destruct (kernel.regularize_rangeslice start stop
                (0 <? (if step =? Slice.none then 1 else step))
                (Slice.hasstart start) (Slice.hasstop stop) (shape_ a @ 1))
      as [start' stop'].
    set (step' := if step =? Slice.none then 1 else step).
    set (lenhead := range_lenhead start' stop' step').
    destruct (Hnext (byteoffset_ a + start' * strides_ a @ 1) first H2)
      as (na & nb & Hna & Hnb & Hshn & Hwfna & Hwfnb & Hlenn & Hidsn).
    rewrite Hna, Hnb. cbn [bind].
    change (Index_length [] =? 0) with true. cbv iota.
    destruct (K_range carry (Index_length carry) lenhead (shape_ a @ 1)
                start' step') as [err f] eqn:HK.
    assert (Herr : err = success)
      by (rewrite <- (K_range_success carry (Index_length carry) lenhead
                        (shape_ a @ 1) start' step'), HK; reflexivity).
    rewrite Herr, handle_error_success. cbn [bind].
    simpl in Hfuel.
    assert (IH' := IH na nb (Slice.head tail) (Slice.tail tail)
                     (len * lenhead)
                     (Index64_filled (Index_length carry * lenhead) f)
                     (strides_ nb @ 0) false ltac:(lia) Hshn Hwfna Hwfnb
                     ltac:(lia) Hidsn Hnexthead Hnexttail).
    destruct (getitem_bystrides fuel na (Slice.head tail) (Slice.tail tail)
                (len * lenhead)) as [x|e| |];
      destruct (next_carry fuel nb (Slice.head tail) (Slice.tail tail)
                  (Index64_filled (Index_length carry * lenhead) f) []
                  (len * lenhead) (strides_ nb @ 0) false) as [y|e'| |];
      try (destruct IH'; fail); [|cbn [bind]; exact IH'].
    destruct IH' as (I1 & I2 & I3 & I4 & I5).
    cbn [bind].
    rewrite !NumpyArray_make_agree by solve_len.
    cbn [shape_ skipn]. rewrite ?drop_0.
    repeat split; try assumption; try solve_len. f_equal. exact I1.
  - (* an ellipsis *)
    rewrite (proj1 (proj2 (proj2 (getitem_bystrides_item _ _ _ _)))).
    rewrite (proj1 (proj2 (proj2 (next_carry_item _ _ _ _ _ _ _ _)))).
    unfold getitem_bystrides_ellipsis, getitem_next_ellipsis, minmax_depth.
    rewrite <- Hsh. simpl in Hfuel.
    destruct ((Slice.length tail =? 0)
              || (fst (Z.of_nat (length (drop 1 (shape_ a))) + 1,
                       Z.of_nat (length (drop 1 (shape_ a))) + 1) - 1
                  =? Slice.dimlength tail)).
    + apply IH; try assumption. lia.
    + apply IH; try assumption; try reflexivity. simpl. lia.
  - (* a new axis *)
    rewrite (proj2 (proj2 (proj2 (getitem_bystrides_item _ _ _ _)))).
    rewrite (proj2 (proj2 (proj2 (next_carry_item _ _ _ _ _ _ _ _)))).
    unfold getitem_bystrides_newaxis, getitem_next_newaxis.
    simpl in Hfuel.
    assert (IH' := IH a b (Slice.head tail) (Slice.tail tail) len carry
                     stride false ltac:(lia) Hsh Hwfa Hwfb Hnd Hids
                     Hnexthead Hnexttail).
    destruct (getitem_bystrides fuel a (Slice.head tail) (Slice.tail tail)
                len) as [x|e| |];
      destruct (next_carry fuel b (Slice.head tail) (Slice.tail tail) carry
                  [] len stride false) as [y|e'| |];
      try (destruct IH'; fail); [|cbn [bind]; exact IH'].
    destruct IH' as (I1 & I2 & I3 & I4 & I5).
    cbn [bind].
    rewrite !NumpyArray_make_agree by solve_len.
    cbn [shape_ skipn]. rewrite ?drop_0.
    repeat split; try assumption; try solve_len. f_equal. exact I1.
  - (* the end of the slice *)
    rewrite getitem_bystrides_null, next_carry_null.
    unfold getitem_next_null, kernel.NumpyArray_getitem_next_null_64.
    rewrite handle_error_success, Hids. cbn [bind].
    rewrite !NumpyArray_make_agree by (try assumption; solve_len).
    cbn [shape_ skipn]. rewrite ?drop_0.
    repeat split; try assumption; try solve_len. rewrite Hsh. reflexivity.
Qed.

Lemma basic_not_too_general (head : option SliceItem) (tail : Slice.t) :
  match head with Some x => basic_item x = true | None => True end ->
  forallb basic_item tail = true ->
  getitem_too_general head tail = false.
Proof.
  revert head. induction tail as [|x tail IH]; intros head Hhead Htail.
  - destruct head as [[]|]; try discriminate Hhead; reflexivity.
  - simpl in Htail. apply andb_true_iff in Htail as [Hx Htail].
    destruct head as [[]|]; try discriminate Hhead; try reflexivity;
      simpl; apply IH; assumption.
Qed.

Lemma basic_not_advanced (where_ : Slice.t) :
  forallb basic_item where_ = true -> Slice.isadvanced where_ = false.
Proof.
  unfold Slice.isadvanced. induction where_ as [|x w IH]; simpl; [auto|].
  intros H. apply andb_true_iff in H as [Hx Hw].
  rewrite (IH Hw). destruct x; try discriminate Hx; reflexivity.
Qed.

Lemma getitem_bystrides_shares (fuel : nat) (self : NumpyArray)
    (head : option SliceItem) (tail : Slice.t) (len : Z) (out : NumpyArray) :
  getitem_bystrides fuel self head tail len = Returned out ->
  ptr_ out = ptr_ self.
Proof.
  revert self head tail len out.
  induction fuel as [|fuel IH]; intros self head tail len out H;
    [discriminate|].
  destruct head as [[at_|start stop step| | | | | | |]|];
    try discriminate H.
  - rewrite (proj1 (getitem_bystrides_item _ _ _ _)) in H.
    unfold getitem_bystrides_at in H.
    apply bind_returned_inv in H as (? & _ & H).
    apply bind_returned_inv in H as (? & _ & H).
    apply bind_returned_inv in H as (next & Hnext & H).
    apply bind_returned_inv in H as (o & Ho & H).
    apply NumpyArray_make_inv in H as [_ ->].
    apply NumpyArray_make_inv in Hnext as [_ ->].
    apply IH in Ho. exact Ho.
  - rewrite (proj1 (proj2 (getitem_bystrides_item _ _ _ _))) in H.
    unfold getitem_bystrides_range in H.
    apply bind_returned_inv in H as (? & _ & H).
    destruct (kernel.regularize_rangeslice _ _ _ _ _ _) as [a b].
    apply bind_returned_inv in H as (next & Hnext & H).
    apply bind_returned_inv in H as (o & Ho & H).
    apply NumpyArray_make_inv in H as [_ ->].
    apply NumpyArray_make_inv in Hnext as [_ ->].
    apply IH in Ho. exact Ho.
  - rewrite (proj1 (proj2 (proj2 (getitem_bystrides_item _ _ _ _)))) in H.
    unfold getitem_bystrides_ellipsis in H.
    destruct (_ || _); eapply IH, H.
  - rewrite (proj2 (proj2 (proj2 (getitem_bystrides_item _ _ _ _)))) in H.
    unfold getitem_bystrides_newaxis in H.
    apply bind_returned_inv in H as (o & Ho & H).
    apply NumpyArray_make_inv in H as [_ ->].
    apply IH in Ho. exact Ho.
  - rewrite getitem_bystrides_null in H.
    apply NumpyArray_make_inv in H as [_ ->]. reflexivity.
Qed.

Lemma next_carry_byteoffset (fuel : nat) (b : NumpyArray)
    (head : option SliceItem) (tail : Slice.t) (carry : Index64) (len : Z)
    (stride : Z) (first : bool) (out : NumpyArray) :
  match head with Some x => basic_item x = true | None => True end ->
  forallb basic_item tail = true ->
  next_carry fuel b head tail carry [] len stride first = Returned out ->
  byteoffset_ out = 0.
Proof.
  revert b head tail carry len stride first out.
  induction fuel as [|fuel IH];
    intros b head tail carry len stride first out Hhead Htail H;
    [discriminate|].
  destruct (basic_head_tail tail Htail) as [Hnexthead Hnexttail].
  destruct head as [[at_|start stop step| | | | | | |]|];
    try discriminate Hhead.
  - rewrite (proj1 (next_carry_item _ _ _ _ _ _ _ _)) in H.
    unfold getitem_next_at in H.
    apply bind_returned_inv in H as (? & _ & H).
    apply bind_returned_inv in H as (next & _ & H).
    apply bind_returned_inv in H as (? & _ & H).
    destruct (K_at _ _ _ _) as [err f].
    apply bind_returned_inv in H as (? & _ & H).
    apply bind_returned_inv in H as (o & Ho & H).
    apply NumpyArray_make_inv in H as [_ ->].
    apply IH in Ho; assumption.
  - rewrite (proj1 (proj2 (next_carry_item _ _ _ _ _ _ _ _))) in H.
    unfold getitem_next_range in H.
    apply bind_returned_inv in H as (? & _ & H).
    destruct (kernel.regularize_rangeslice _ _ _ _ _ _) as [a' b'].
    apply bind_returned_inv in H as (next & _ & H).
    change (Index_length [] =? 0) with true in H. cbv iota in H.
    destruct (K_range _ _ _ _ _ _) as [err f].
    apply bind_returned_inv in H as (? & _ & H).
    apply bind_returned_inv in H as (o & Ho & H).
    apply NumpyArray_make_inv in H as [_ ->].
    apply IH in Ho; assumption.
  - rewrite (proj1 (proj2 (proj2 (next_carry_item _ _ _ _ _ _ _ _)))) in H.
    unfold getitem_next_ellipsis in H.
    destruct (_ || _); eapply IH in H; try assumption; reflexivity.
  - rewrite (proj2 (proj2 (proj2 (next_carry_item _ _ _ _ _ _ _ _)))) in H.
    unfold getitem_next_newaxis in H.
    apply bind_returned_inv in H as (o & Ho & H).
    apply NumpyArray_make_inv in H as [_ ->].
    apply IH in Ho; assumption.
  - rewrite next_carry_null in H. unfold getitem_next_null in H.
    destruct (kernel.NumpyArray_getitem_next_null_64 _ _ _ _ _) as [err p].
    apply bind_returned_inv in H as (? & _ & H).
    apply bind_returned_inv in H as (? & _ & H).
    apply NumpyArray_make_inv in H as [_ ->]. reflexivity.
Qed.

(** X14.  When the kernels that compute a carry succeed, the two ways in
    which [getitem] resolves a basic slice agree on an array without
    identities: they throw the same exception, or the by-strides way returns
    a view into the buffer of the array and the carry way a view at byte [0]
    of another buffer, both of one shape and one type. *)
Theorem getitem_paths_agree (self : NumpyArray) (where_ : Slice.t) :
  shape_strides_agree self -> 1 <= ndim self -> identities_ self = None ->
  forallb basic_item where_ = true ->
  match getitem self where_,
        getitem_carry K_at K_range K_range_advanced K_arrayslice K_array
          K_array_advanced self where_ with
  | Returned (CNumpyArray x), Returned (CNumpyArray y) =>
      shape_ x = shape_ y
      /\ dtype_ x = dtype_ y /\ itemsize_ x = itemsize_ y
      /\ ptr_ x = ptr_ self /\ byteoffset_ y = 0
  | Thrown e, Thrown e' => e = e'
  | _, _ => False
  end.
Proof.
  intros Hwf Hnd Hids Hbasic.
  destruct (basic_head_tail where_ Hbasic) as [Hhead Htail].
  rewrite getitem_bystrides_branch;
    [|assumption|assumption|assumption
     |apply basic_not_too_general; assumption
     |apply basic_not_advanced; assumption].
  cbv zeta. unfold getitem_carry.
  destruct (contiguous_spec self Hwf)
    as (c & Hc & Hwfc & _ & _ & Hshape & _).
  destruct (contiguous_keeps self c Hc) as (Hidc & _).
  rewrite Hc. cbn [bind].
  rewrite NumpyArray_make_agree
    by (cbn [length]; unfold shape_strides_agree in Hwfc; lia).
  cbn [bind].
  set (na := Build_NumpyArray None (parameters_ self) (ptr_ self)
               (1 :: shape_ self)
               (shape_ self @ 0 * strides_ self @ 0 :: strides_ self)
               (byteoffset_ self) (itemsize_ self) (format_ self)
               (dtype_ self) kernel.cpu_kernels).
  set (nb := Build_NumpyArray (identities_ c) (parameters_ c) (ptr_ c)
               (1 :: shape_ c)
               (shape_ c @ 0 * strides_ c @ 0 :: strides_ c) (byteoffset_ c)
               (itemsize_ self) (format_ self) (dtype_ self)
               kernel.cpu_kernels).
  assert (Hfuel : getitem_bystrides_fuel nb where_
                  = getitem_bystrides_fuel na where_).
  { unfold getitem_bystrides_fuel, na, nb. cbn [shape_]. rewrite Hshape.
    reflexivity. }
  rewrite Hfuel.
  pose proof (head_tail_weight where_) as Hw.
  assert (Hidb : identities_ nb = None).
  { unfold nb. cbn [identities_]. rewrite Hidc. exact Hids. }
  assert (Hwfa : shape_strides_agree na).
  { unfold shape_strides_agree, na in *. cbn [shape_ strides_ length]. lia. }
  assert (Hwfb : shape_strides_agree nb).
  { unfold shape_strides_agree, nb in *. cbn [shape_ strides_ length]. lia. }
  assert (Hsab : shape_ na = shape_ nb).
  { unfold na, nb. cbn [shape_]. rewrite Hshape. reflexivity. }
  assert (Hstep := getitem_paths_step (getitem_bystrides_fuel na where_) na
                     nb (Slice.head where_) (Slice.tail where_) 1 [0]
                     (strides_ nb @ 0) true
                     ltac:(unfold getitem_bystrides_fuel, na;
                           cbn [shape_ length]; lia)
                     Hsab Hwfa Hwfb
                     ltac:(unfold na; cbn [shape_ length]; lia)
                     Hidb Hhead Htail).
  assert (Hshare := getitem_bystrides_shares
                      (getitem_bystrides_fuel na where_) na
                      (Slice.head where_) (Slice.tail where_) 1).
  assert (Hoff := next_carry_byteoffset (getitem_bystrides_fuel na where_)
                    nb (Slice.head where_) (Slice.tail where_) [0] 1
                    (strides_ nb @ 0) true).
  destruct (getitem_bystrides (getitem_bystrides_fuel na where_) na
              (Slice.head where_) (Slice.tail where_) 1) as [x|e| |];
    destruct (next_carry (getitem_bystrides_fuel na where_) nb
                (Slice.head where_) (Slice.tail where_) [0] [] 1
                (strides_ nb @ 0) true) as [y|e'| |];
    cbn [bind]; try exact Hstep; try (exfalso; exact Hstep).
  destruct Hstep as (I1 & I2 & I3 & I4 & I5).
  rewrite !NumpyArray_make_agree
    by (unfold shape_strides_agree in *; rewrite !length_drop; lia).
  cbn [bind shape_ dtype_ itemsize_ ptr_ byteoffset_].
  repeat split.
  - exact I1.
  - apply (Hshare x eq_refl).
  - apply (Hoff y Hhead Htail eq_refl).
Qed.

End getitem_paths.

Lemma getitem_paths_agree_witness :
  match getitem (int16_view [3; 2] [8; 2] 0) [SliceRange 1 3 1; SliceAt 0],
        getitem_carry enter_item along_range idle_range_advanced
          idle_arrayslice idle_array idle_array_advanced
          (int16_view [3; 2] [8; 2] 0) [SliceRange 1 3 1; SliceAt 0] with
  | Returned (CNumpyArray x), Returned (CNumpyArray y) =>
      shape_ x = shape_ y
      /\ dtype_ x = dtype_ y /\ itemsize_ x = itemsize_ y
      /\ ptr_ x = ptr_ (int16_view [3; 2] [8; 2] 0) /\ byteoffset_ y = 0
  | Thrown e, Thrown e' => e = e'
  | _, _ => False
  end.
Proof.
  apply (getitem_paths_agree enter_item along_range idle_range_advanced
           idle_arrayslice idle_array idle_array_advanced).
  - intros c l s a. reflexivity.
  - intros c l h s a b. reflexivity.
  - reflexivity.
  - unfold ndim; simpl; lia.
  - reflexivity.
  - reflexivity.
Defined.

(** ** Counting along an axis *)

Section num_properties.

Variable axis_wrap_if_negative : NumpyArray -> Z -> Z.
Variable int64_bytes : Z -> list Byte.byte.
Variable RegularArray_num_64 : kernel.Lib -> Z -> Z -> Error * buffer.

Lemma num_loop_spec (n : nat) (self : NumpyArray) (posaxis : Z)
    (shape : list Z) (reps size : Z) (i : nat) (depth : Z) :
  let k := Nat.min n (Z.to_nat (posaxis - depth)) in
  num_loop n self posaxis shape reps size i depth
  = (shape ++ map (vec_at (shape_ self)) (seq i k),
     reps * product (map (vec_at (shape_ self)) (seq i k)),
     match k with O => size | S _ => shape_ self @ (i + k)%nat end,
     depth + Z.of_nat k).
Proof.
  revert shape reps size i depth.
  induction n as [|n IH]; intros shape reps size i depth; cbn [num_loop].
  - cbn. rewrite app_nil_r, product_nil. repeat f_equal; lia.
  - destruct (Z.ltb_spec depth posaxis) as [Hlt|Hge].
    + rewrite IH.
      replace (Z.to_nat (posaxis - depth))
        with (S (Z.to_nat (posaxis - (depth + 1)))) by lia.
      cbn [Nat.min seq map]. rewrite product_cons, <- app_assoc.
      cbn [app].
      set (k := Nat.min n (Z.to_nat (posaxis - (depth + 1)))).
      replace (i + 1)%nat with (S i) by lia.
      f_equal; [f_equal; [f_equal|]|]; try lia.
      destruct k; f_equal; lia.
    + replace (Z.to_nat (posaxis - depth)) with 0%nat by lia.
      rewrite Nat.min_0_r. cbn. rewrite app_nil_r, product_nil.
      repeat f_equal; lia.
Qed.

Lemma map_vec_at_seq (l : list Z) (k : nat) :
  (k <= length l)%nat -> map (vec_at l) (seq 0 k) = take k l.
Proof.
  revert l. induction k as [|k IH]; intros l Hk; [rewrite take_0; reflexivity|].
  destruct l as [|a l]; [simpl in Hk; lia|].
  cbn [seq map firstn]. f_equal.
  rewrite <- seq_shift, map_map. apply IH. simpl in Hk. lia.
Qed.

Lemma num_strides_packed (shape : list Z) (j : nat) (x : Z)
    (strides : list Z) :
  (j <= length shape)%nat ->
  num_strides shape j x strides = packed_strides x (take j shape) ++ strides.
Proof.
  revert x strides. induction j as [|j IH]; intros x strides Hj.
  - rewrite take_0. reflexivity.
  - cbn [num_strides]. rewrite IH by lia.
    rewrite take_S_vec_at by lia. rewrite packed_strides_snoc.
    rewrite <- app_assoc. reflexivity.
Qed.

(** X15.  [num] on an axis at the depth of the array returns a scalar that
    holds the length of the array; on an axis [k] levels further in, within
    the dimensions of the array, it returns a packed [int64] array of the
    first [k] extents, filled by the kernel with the extent of dimension [k]
    once for each of the items they count; on an axis further in than the
    last dimension it throws. *)
Theorem num_counts (self : NumpyArray) (axis depth : Z) :
  let posaxis := axis_wrap_if_negative self axis in
  let num := num axis_wrap_if_negative int64_bytes RegularArray_num_64 in
  (posaxis = depth ->
   exists out, num self axis depth = Returned out
     /\ shape_ out = [] /\ dtype_ out = int64 /\ itemsize_ out = 8
     /\ byteoffset_ out = 0
     /\ ptr_ out = int64_bytes (NumpyArray_length self))
  /\ (forall k : nat,
        (1 <= k)%nat -> (k < length (shape_ self))%nat ->
        posaxis = depth + Z.of_nat k ->
        fst (RegularArray_num_64 (ptr_lib_ self) (shape_ self @ k)
               (product (take k (shape_ self)))) = success ->
        exists out, num self axis depth = Returned out
          /\ shape_ out = take k (shape_ self)
          /\ iscontiguous out = true
          /\ dtype_ out = int64 /\ itemsize_ out = 8 /\ byteoffset_ out = 0
          /\ ptr_ out
             = snd (RegularArray_num_64 (ptr_lib_ self) (shape_ self @ k)
                      (product (take k (shape_ self)))))
  /\ (depth < posaxis -> depth + ndim self - 1 < posaxis ->
      num self axis depth
      = Thrown (invalid_argument "'axis' out of range for 'num'")).
Proof.
  intros posaxis num0. subst num0. unfold num. fold posaxis.
  clearbody posaxis.
  split; [|split].
  - intros ->. rewrite Z.eqb_refl.
    unfold NumpyArray_of_Index64, NumpyArray_of_Index, NumpyArray_new.
    cbn. eexists; split; [reflexivity|]. cbn. repeat split; reflexivity.
  - intros k Hk1 Hk2 Hpos Hok.
    replace (posaxis =? depth) with false by lia.
    rewrite num_loop_spec.
    replace (Nat.min (length (shape_ self) - 1) (Z.to_nat (posaxis - depth)))
      with k by lia.
    rewrite map_vec_at_seq by lia.
    destruct k as [|k']; [lia|]. set (k := S k') in *.
    replace (depth + Z.of_nat k <? posaxis) with false by lia.
    cbn [app]. rewrite Z.mul_1_l. cbn [Nat.add].
    rewrite num_strides_packed by apply Nat.le_refl.
    rewrite (take_ge (take k (shape_ self))) by apply Nat.le_refl.
    rewrite app_nil_r.
    destruct (RegularArray_num_64 _ _ _) as [err tonum].
    cbn [fst] in Hok. subst err. rewrite handle_error_success.
    cbn [bind snd]. unfold NumpyArray_new.
    rewrite packed_strides_length. rewrite Nat.eqb_refl. cbn [negb].
    eexists; split; [reflexivity|].
    cbn [shape_ dtype_ itemsize_ byteoffset_ ptr_].
    split; [reflexivity|]. split; [|repeat split; reflexivity].
    apply iscontiguous_packed.
    + unfold shape_strides_agree. cbn [shape_ strides_].
      rewrite packed_strides_length. reflexivity.
    + reflexivity.
  - intros Hlt Hdeep.
    replace (posaxis =? depth) with false by lia.
    rewrite num_loop_spec.
    unfold ndim in Hdeep.
    replace (Nat.min (length (shape_ self) - 1) (Z.to_nat (posaxis - depth)))
      with (length (shape_ self) - 1)%nat by lia.
    destruct (Z.ltb_spec (depth + Z.of_nat (length (shape_ self) - 1))
                posaxis); [reflexivity|lia].
Qed.

End num_properties.

Lemma num_counts_witness :
  exists out,
    num axis_as_given low_byte_first write_counts
      (int16_view [3; 2] [4; 2] 0) 1 0 = Returned out
    /\ shape_ out = [3] /\ iscontiguous out = true.
Proof.
  destruct (num_counts axis_as_given low_byte_first write_counts
              (int16_view [3; 2] [4; 2] 0) 1 0) as (_ & H & _).
  destruct (H 1%nat) as (out & Hout & Hshape & Hcont & _).
  - lia.
  - simpl; lia.
  - reflexivity.
  - reflexivity.
  - exists out. repeat split; assumption.
Defined.

(** ** An axis further in than the array is deep *)

Section axis_properties.

Variable axis_wrap_if_negative : NumpyArray -> Z -> Z.
Variable int64_bytes : Z -> list Byte.byte.
Variable RegularArray_num_64 : kernel.Lib -> Z -> Z -> Error * buffer.

Lemma offsets_and_flattened_no_result (fuel : nat) (self : NumpyArray)
    (axis depth : Z) (r : Index64 * Content) :
  offsets_and_flattened_fuel axis_wrap_if_negative fuel self axis depth
  <> Returned r.
Proof.
  revert self axis. induction fuel as [|fuel IH]; intros self axis;
    [discriminate|].
  cbn [offsets_and_flattened_fuel].
  destruct (_ =? depth); [discriminate|].
  destruct (_ || _); [|discriminate].
  destruct (toRegularArray self) as [[]| | |]; cbn [bind];
    try discriminate. apply IH.
Qed.

(** X16.  A one-dimensional packed array has one axis, the one at its own
    depth.  Asked for another, flattening, padding, local indices and
    combinations throw an invalid argument, and so does [num] for an axis
    further in; none of them hands the call to another class.  Flattening
    returns no result of its own for any array. *)
Theorem axis_beyond_flat_array (self : NumpyArray) (axis depth : Z)
    (target n : Z) (replacement : bool)
    (recordlookup : option (list string)) (parameters : Parameters) :
  ndim self = 1 -> iscontiguous self = true ->
  axis_wrap_if_negative self axis <> depth -> 1 <= n ->
  (forall fuel,
     offsets_and_flattened_fuel axis_wrap_if_negative (S fuel) self axis depth
     = Thrown (invalid_argument "axis out of range for flatten"))
  /\ rpad axis_wrap_if_negative self target axis depth
     = Thrown (invalid_argument "axis exceeds the depth of this array")
  /\ rpad_and_clip axis_wrap_if_negative self target axis depth
     = Thrown (invalid_argument "axis exceeds the depth of this array")
  /\ localindex axis_wrap_if_negative self axis depth
     = Thrown (invalid_argument "'axis' out of range for localindex")
  /\ combinations axis_wrap_if_negative self n replacement recordlookup
       parameters axis depth
     = Thrown (invalid_argument "'axis' out of range for combinations")
  /\ (depth < axis_wrap_if_negative self axis ->
      num axis_wrap_if_negative int64_bytes RegularArray_num_64 self axis
        depth
      = Thrown (invalid_argument "'axis' out of range for 'num'"))
  /\ (forall fuel v a d r,
        offsets_and_flattened_fuel axis_wrap_if_negative fuel v a d
        <> Returned r).
Proof.
  intros Hnd Hc Hax Hn.
  assert (Hlen : length (shape_ self) = 1%nat) by (unfold ndim in Hnd; lia).
  assert (Hne : (axis_wrap_if_negative self axis =? depth) = false)
    by (apply Z.eqb_neq; exact Hax).
  repeat split.
  - intros fuel. cbn [offsets_and_flattened_fuel].
    rewrite Hne, Hlen, Hc. reflexivity.
  - unfold rpad. cbn [rpad_fuel]. rewrite Hnd, Hc, Hne. reflexivity.
  - unfold rpad_and_clip. cbn [rpad_and_clip_fuel].
    rewrite Hnd, Hc, Hne. reflexivity.
  - unfold localindex. rewrite Hne, Hlen. reflexivity.
  - unfold combinations. replace (n <? 1) with false by lia.
    rewrite Hne, Hlen. reflexivity.
  - intros Hlt. unfold num. rewrite Hne, Hlen. cbn [Nat.sub num_loop].
    replace (depth <? axis_wrap_if_negative self axis) with true by lia.
    reflexivity.
  - intros fuel v a d r. apply offsets_and_flattened_no_result.
Qed.

End axis_properties.

Lemma axis_beyond_flat_array_witness :
  rpad axis_as_given (int16_view [3] [2] 0) 5 1 0
  = Thrown (invalid_argument "axis exceeds the depth of this array")
  /\ localindex axis_as_given (int16_view [3] [2] 0) 1 0
     = Thrown (invalid_argument "'axis' out of range for localindex").
Proof.
  destruct (axis_beyond_flat_array axis_as_given low_byte_first write_counts
              (int16_view [3] [2] 0) 1 0 5 1 false None ∅)
    as (_ & H1 & _ & H2 & _).
  - reflexivity.
  - reflexivity.
  - unfold axis_as_given. lia.
  - lia.
  - split; assumption.
Defined.

(** ** Whether a merge goes through *)

Lemma merge_dtype_primitive (a b : dtype) :
  a <> NOT_PRIMITIVE -> b <> NOT_PRIMITIVE ->
  exists d, merge_dtype a b = Some d.
Proof.
  intros Ha Hb. destruct a; try congruence; destruct b; try congruence;
    vm_compute; eauto.
Qed.

Lemma mergeable_dtypes_primitive (a b : dtype) :
  a <> NOT_PRIMITIVE -> mergeable_dtypes a b = true.
Proof. intros Ha. destruct a; try congruence; destruct b; reflexivity. Qed.

Lemma map_vec_at_seq_1 (a : Z) (l : list Z) :
  map (vec_at (a :: l)) (seq 1 (length l)) = l.
Proof.
  rewrite <- seq_shift, map_map.
  transitivity (map (vec_at l) (seq 0 (length l))); [reflexivity|].
  rewrite map_vec_at_seq by lia. apply firstn_all.
Qed.

Lemma merge_shape_loop_spec (s o : list Z) (i : nat)
    (shape strides : list Z) (sf of_ : Z) :
  (1 <= length shape)%nat ->
  if mergeable_shape_loop s o i then
    exists strides' sf' of',
      merge_shape_loop s o i (shape, strides, sf, of_)
      = Returned (take 1 shape ++ map (vec_at s) (seq 1 i) ++ drop 1 shape,
                  strides', sf', of')
      /\ length strides' = (length strides + i)%nat
  else
    merge_shape_loop s o i (shape, strides, sf, of_)
    = Thrown (invalid_argument "cannot merge arrays with different shapes").
Proof.
  revert shape strides sf of_.
  induction i as [|i IH]; intros shape strides sf of_ Hlen.
  - cbn. rewrite take_drop. eexists _, _, _. split; [reflexivity|lia].
  - cbn [mergeable_shape_loop merge_shape_loop].
    destruct (negb (s @ S i =? o @ S i)); [reflexivity|].
    specialize (IH (take 1 shape ++ s @ S i :: drop 1 shape)
                  (strides @ 0 * s @ S i :: strides) (sf * s @ S i)
                  (of_ * s @ S i)).
    destruct (mergeable_shape_loop s o i).
    + destruct IH as (strides' & sf' & of' & -> & Hst).
      { rewrite length_app. cbn [length]. lia. }
      exists strides', sf', of'. split; [|cbn [length] in Hst; lia].
      do 2 f_equal. f_equal.
      destruct shape as [|x shape]; [simpl in Hlen; lia|].
      cbn [firstn skipn app]. rewrite ?take_0, ?drop_0. cbn [app skipn].
      rewrite ?drop_0. f_equal.
      rewrite seq_S, map_app, <- app_assoc. reflexivity.
    + apply IH. rewrite length_app. cbn [length]. lia.
Qed.

Lemma merge_fill_runtime cast (d a b : dtype) (ptr sp : buffer) (so sl : Z)
    (op : buffer) (oo ol : Z) (e : exception) :
  merge_fill cast d a b ptr sp so sl op oo ol = Thrown e ->
  exists w, e = runtime_error w.
Proof.
  unfold merge_fill, merge_fill_operand, NumpyArray_fill_frombool,
    NumpyArray_fill.
  destruct d; try (intros H; injection H as <-; eauto; fail);
    try (cbn; discriminate);
    destruct (merge_fill_case _ a), (merge_fill_case _ b); cbn;
    try discriminate; intros H; injection H as <-; eauto.
Qed.

Lemma merge_bytes_returns cast (self other : NumpyArray) :
  shape_strides_agree self -> shape_strides_agree other ->
  exists out,
    merge_bytes cast self other = Returned (CNumpyArray out)
    /\ shape_ out = [NumpyArray_length self + NumpyArray_length other].
Proof.
  intros Hs Ho.
  destruct (contiguous_spec self Hs) as (cs & Hcs & _).
  destruct (contiguous_spec other Ho) as (co & Hco & _).
  unfold merge_bytes, NumpyArray_fill. rewrite Hcs, Hco. cbn [bind].
  rewrite !handle_error_success. cbn [bind].
  rewrite NumpyArray_make_agree by reflexivity. cbn [bind].
  eexists; split; reflexivity.
Qed.

(** X17.  For two arrays of primitive types, [mergeable] with [mergebool]
    decides what [merge] does.  When it answers yes, [merge] returns an
    array whose leading extent is the sum of the two and whose inner extents
    are those of the left operand, or it stops at a type for which the fill
    is not implemented.  When it answers no, [merge] hands the operands over
    to be merged as a union, or it throws an invalid argument. *)
Theorem mergeable_decides_merge cast (self other : NumpyArray) :
  shape_strides_agree self -> shape_strides_agree other ->
  dtype_ self <> NOT_PRIMITIVE -> dtype_ other <> NOT_PRIMITIVE ->
  (mergeable self (CNumpyArray other) true = Returned true
   /\ ((exists out,
          merge cast self (CNumpyArray other) = Returned (CNumpyArray out)
          /\ shape_ out
             = (shape_ self @ 0 + shape_ other @ 0) :: drop 1 (shape_ self))
       \/ exists w,
            merge cast self (CNumpyArray other) = Thrown (runtime_error w)))
  \/ (mergeable self (CNumpyArray other) true = Returned false
      /\ (merge cast self (CNumpyArray other)
          = Delegated "Content::merge_as_union"
          \/ exists w,
               merge cast self (CNumpyArray other)
               = Thrown (invalid_argument w))).
Proof.
  intros Hs Ho Hds Hdo.
  rewrite merge_numpy_equal_parameters. cbn [mergeable Content_parameters].
  destruct (parameters_equal (parameters_ self) (parameters_ other));
    cbn [negb]; [|right; split; [reflexivity|left; reflexivity]].
  unfold mergeable_flat.
  destruct (Z.eqb_spec (ndim self) 0) as [Hnd0|Hnd0].
  { right. split; [reflexivity|]. right. unfold merge_flat.
    rewrite Hnd0. cbn. eauto. }
  destruct (contiguous_spec self Hs) as (cs & Hcs & _ & _ & _ & _ & Hcsi).
  destruct (contiguous_spec other Ho) as (co & Hco & _).
  destruct (merge_bytes_applies self other) eqn:Hfast.
  - (* both are strings of bytes *)
    rewrite merge_flat_fast by assumption.
    unfold merge_bytes_applies in Hfast.
    apply andb_true_iff in Hfast as [Hfast _].
    apply andb_true_iff in Hfast as [Hfast _].
    apply andb_true_iff in Hfast as [Hfast Hn2].
    apply andb_true_iff in Hfast as [_ Hn1].
    apply Z.eqb_eq in Hn1, Hn2. rewrite Hn1, Hn2. cbn [Z.eqb negb andb].
    change (Pos.eqb 1 1) with true. cbv iota.
    rewrite mergeable_dtypes_primitive by assumption. cbn [negb].
    unfold ndim in Hn1, Hn2.
    destruct (shape_ self) as [|s0 [|]] eqn:Hss; try (simpl in Hn1; lia).
    destruct (shape_ other) as [|o0 [|]] eqn:Hso; try (simpl in Hn2; lia).
    left. split; [reflexivity|]. left.
    destruct (merge_bytes_returns cast self other Hs Ho) as (out & -> & Hsh).
    exists out. split; [reflexivity|]. rewrite Hsh.
    unfold NumpyArray_length, isscalar, ndim. rewrite Hss, Hso. reflexivity.
  - (* the general path *)
    assert (Hslow : forall k : outcome Content,
              match
                (if is_bytestring (parameters_ self)
                    && is_bytestring (parameters_ other)
                 then if (ndim self =? 1) && (ndim other =? 1)
                         && (itemsize_ self =? 1) && (itemsize_ other =? 1)
                      then Some other else None
                 else None)
              with
              | Some othernumpy => merge_bytes cast self othernumpy
              | None => k
              end = k).
    { intros k. unfold merge_bytes_applies in Hfast.
      destruct (is_bytestring (parameters_ self)),
        (is_bytestring (parameters_ other)), (ndim self =? 1),
        (ndim other =? 1), (itemsize_ self =? 1), (itemsize_ other =? 1);
        simpl in *; congruence. }
    unfold merge_flat. replace (ndim self =? 0) with false by lia.
    cbn [Content_parameters]. cbv zeta. rewrite Hslow. rewrite Hcs.
    cbn [bind].
    destruct (Z.eqb_spec (ndim self) (ndim other)) as [Hnd|Hnd];
      cbn [negb bind];
      [|right; split; [reflexivity|right; eauto]].
    destruct (merge_dtype_primitive _ _ Hds Hdo) as [d ->]. cbn [bind].
    rewrite mergeable_dtypes_primitive by assumption. cbn [negb].
    assert (Hlen : (1 <= length (shape_ self))%nat)
      by (unfold ndim in Hnd0; lia).
    pose proof (merge_shape_loop_spec (shape_ self) (shape_ other)
                  (length (shape_ self) - 1)
                  [shape_ self @ 0 + shape_ other @ 0]
                  [dtype_to_itemsize d] (shape_ self @ 0) (shape_ other @ 0)
                  ltac:(simpl; lia)) as Hloop.
    destruct (mergeable_shape_loop (shape_ self) (shape_ other)
                (length (shape_ self) - 1)).
    + destruct Hloop as (strides' & sf' & of' & -> & Hst).
      left. split; [reflexivity|]. cbn [bind]. rewrite Hco. cbn [bind].
      destruct (merge_fill cast d (dtype_ self) (dtype_ other) _ _ _ _ _ _ _)
        as [ptr|e| |] eqn:Hfill.
      * left. cbn [bind firstn skipn app].
        rewrite NumpyArray_make_agree.
        2:{ cbn [length]. rewrite length_app, length_map, length_seq.
            rewrite Hst. cbn [length]. lia. }
        cbn [bind]. eexists; split; [reflexivity|]. cbn [shape_].
        f_equal. rewrite ?drop_0, app_nil_r.
        destruct (shape_ self) as [|s0 rest]; [simpl in Hlen; lia|].
        cbn [length Nat.sub skipn]. rewrite ?drop_0.
        replace (length rest - 0)%nat with (length rest) by lia.
        apply map_vec_at_seq_1.
      * right. cbn [bind].
        destruct (merge_fill_runtime _ _ _ _ _ _ _ _ _ _ _ _ Hfill) as [w ->].
        eauto.
      * exfalso. revert Hfill. unfold merge_fill, merge_fill_operand,
          NumpyArray_fill_frombool, NumpyArray_fill.
        destruct d; try discriminate;
          destruct (merge_fill_case _ (dtype_ self)),
            (merge_fill_case _ (dtype_ other)); cbn; discriminate.
      * exfalso. revert Hfill. unfold merge_fill, merge_fill_operand,
          NumpyArray_fill_frombool, NumpyArray_fill.
        destruct d; try discriminate;
          destruct (merge_fill_case _ (dtype_ self)),
            (merge_fill_case _ (dtype_ other)); cbn; discriminate.
    + right. split; [reflexivity|]. right. rewrite Hloop. cbn [bind]. eauto.
Qed.

Lemma mergeable_decides_merge_witness :
  (mergeable (int16_view [2; 3] [6; 2] 0)
     (CNumpyArray (int16_view [4; 3] [6; 2] 0)) true = Returned true
   /\ ((exists out,
          merge no_cast (int16_view [2; 3] [6; 2] 0)
            (CNumpyArray (int16_view [4; 3] [6; 2] 0))
          = Returned (CNumpyArray out)
          /\ shape_ out = [6; 3])
       \/ exists w,
            merge no_cast (int16_view [2; 3] [6; 2] 0)
              (CNumpyArray (int16_view [4; 3] [6; 2] 0))
            = Thrown (runtime_error w)))
  \/ (mergeable (int16_view [2; 3] [6; 2] 0)
        (CNumpyArray (int16_view [4; 3] [6; 2] 0)) true = Returned false
      /\ (merge no_cast (int16_view [2; 3] [6; 2] 0)
            (CNumpyArray (int16_view [4; 3] [6; 2] 0))
          = Delegated "Content::merge_as_union"
          \/ exists w,
               merge no_cast (int16_view [2; 3] [6; 2] 0)
                 (CNumpyArray (int16_view [4; 3] [6; 2] 0))
               = Thrown (invalid_argument w))).
Proof.
  apply (mergeable_decides_merge no_cast (int16_view [2; 3] [6; 2] 0)
           (int16_view [4; 3] [6; 2] 0)).
  - reflexivity.
  - reflexivity.
  - discriminate.
  - discriminate.
Defined.

(** ** Operations that look at the element type *)

Lemma toRegularArray_flat (self : NumpyArray) (n : Z) :
  shape_strides_agree self -> shape_ self = [n] ->
  exists flat,
    toRegularArray self = Returned (CNumpyArray flat)
    /\ shape_ flat = [n] /\ strides_ flat = [itemsize_ self]
    /\ parameters_ flat = parameters_ self
    /\ itemsize_ flat = itemsize_ self /\ format_ flat = format_ self
    /\ dtype_ flat = dtype_ self /\ iscontiguous flat = true.
Proof.
  intros Hwf Hshape. unfold toRegularArray, isscalar, ndim.
  rewrite Hshape. cbn [length Z.of_nat Z.eqb Pos.of_succ_nat].
  destruct (contiguous_spec self Hwf)
    as (c & Hc & _ & _ & _ & _ & _ & Hisz & Hdt & _).
  destruct (contiguous_keeps self c Hc) as (_ & _ & Hfmt & _).
  rewrite Hc. cbn [bind].
  rewrite NumpyArray_make_agree by reflexivity.
  cbn [bind fold_left Nat.sub toRegularArray_loop].
  eexists; split; [reflexivity|].
  cbn [shape_ strides_ parameters_ itemsize_ format_ dtype_].
  repeat split; try assumption.
  - f_equal. lia.
  - unfold iscontiguous. cbn [shape_ strides_ itemsize_ length].
    cbn [iscontiguous_loop]. unfold vec_at. cbn [nth].
    rewrite Hisz, Z.eqb_refl. reflexivity.
Qed.

Section element_types.

Variable sorting_ranges_length : Index64 -> Z -> Z -> Z -> Error * Z.
Variable sorting_ranges : Z -> Index64 -> Z -> Z -> Z -> Error * Index64.
Variable NumpyArray_sort :
  dtype -> buffer -> Z -> Index64 -> Z -> Z -> bool -> bool -> Error * buffer.
Variable NumpyArray_argsort :
  dtype -> buffer -> Z -> Index64 -> Z -> bool -> bool -> Error * buffer.
Variable kernel_copy_to :
  dtype -> kernel.Lib -> kernel.Lib -> buffer -> Z -> Error * buffer.

Local Abbreviation sort_next_fuel' :=
  (sort_next_fuel sorting_ranges_length sorting_ranges NumpyArray_sort).
Local Abbreviation argsort_next_fuel' :=
  (argsort_next_fuel sorting_ranges_length sorting_ranges NumpyArray_argsort).

Lemma unimplemented_leaf (fuel : nat) (self : NumpyArray) (reducer : Reducer)
    (negaxis : Z) (starts parents : Index64) (outlength : Z)
    (mask ascending stable keepdims : bool) :
  length (shape_ self) = 1%nat -> iscontiguous self = true ->
  unimplemented (dtype_ self) = true ->
  (exists w,
     reduce_next_fuel (S fuel) self reducer negaxis starts parents outlength
       mask keepdims = Thrown (runtime_error w))
  /\ (exists w,
        sort_next_fuel' (S fuel) self negaxis starts parents outlength
          ascending stable keepdims = Thrown (runtime_error w))
  /\ (exists w,
        argsort_next_fuel' (S fuel) self negaxis starts parents outlength
          ascending stable keepdims = Thrown (runtime_error w)).
Proof.
  intros Hlen Hc Hdt.
  cbn [reduce_next_fuel sort_next_fuel argsort_next_fuel].
  rewrite Hlen, Hc. cbn [Nat.eqb negb orb].
  destruct (dtype_ self); try discriminate Hdt; cbn [bind];
    (split; [|split]); eexists; reflexivity.
Qed.

(** X18.  The operations that branch on the element type have no branch
    that works for [float16], [float128] and the complex types: on a
    one-dimensional array of such a type, packed or not, [reduce_next],
    [sort_next] and [argsort_next] throw a runtime error, and so does
    [copy_to] another backend for an array of any shape. *)
Theorem unimplemented_types_throw (self : NumpyArray) (reducer : Reducer)
    (negaxis : Z) (starts parents : Index64) (outlength : Z)
    (mask ascending stable keepdims : bool) :
  unimplemented (dtype_ self) = true ->
  (shape_strides_agree self -> ndim self = 1 ->
   (exists w,
      reduce_next self reducer negaxis starts parents outlength mask keepdims
      = Thrown (runtime_error w))
   /\ (exists w,
         sort_next sorting_ranges_length sorting_ranges NumpyArray_sort self
           negaxis starts parents outlength ascending stable keepdims
         = Thrown (runtime_error w))
   /\ (exists w,
         argsort_next sorting_ranges_length sorting_ranges NumpyArray_argsort
           self negaxis starts parents outlength ascending stable keepdims
         = Thrown (runtime_error w)))
  /\ (forall ptr_lib, Lib_eqb (ptr_lib_ self) ptr_lib = false ->
        exists w,
          copy_to kernel_copy_to self ptr_lib = Thrown (runtime_error w)).
Proof.
  intros Hdt. split.
  2:{ intros ptr_lib Hlib. unfold copy_to. rewrite Hlib.
      destruct (dtype_ self); try discriminate Hdt; cbn [bind]; eauto. }
  intros Hwf Hnd.
  assert (Hlen : length (shape_ self) = 1%nat) by (unfold ndim in Hnd; lia).
  destruct (iscontiguous self) eqn:Hc.
  - destruct (unimplemented_leaf 1 self reducer negaxis starts parents
                outlength mask ascending stable keepdims Hlen Hc Hdt)
      as (H1 & H2 & H3).
    repeat split; assumption.
  - destruct (shape_ self) as [|n [|]] eqn:Hshape; try discriminate Hlen.
    destruct (toRegularArray_flat self n Hwf Hshape)
      as (flat & Hflat & Hsh & _ & _ & _ & _ & Hfdt & Hfc).
    destruct (unimplemented_leaf 0 flat reducer negaxis starts parents
                outlength mask ascending stable keepdims)
      as (H1 & H2 & H3);
      [rewrite Hsh; reflexivity|exact Hfc|rewrite Hfdt; exact Hdt|].
    unfold reduce_next, sort_next, argsort_next.
    cbn [reduce_next_fuel sort_next_fuel argsort_next_fuel].
    rewrite Hshape, Hc. cbn [length Nat.eqb negb orb].
    rewrite Hflat. cbn [bind].
    repeat split; assumption.
Qed.

Hypothesis sorting_ranges_length_success :
  forall parents offset len outlength,
    fst (sorting_ranges_length parents offset len outlength) = success.
Hypothesis sorting_ranges_success :
  forall n parents offset len outlength,
    fst (sorting_ranges n parents offset len outlength) = success.
Hypothesis NumpyArray_sort_success :
  forall T data len ranges n plen ascending stable,
    fst (NumpyArray_sort T data len ranges n plen ascending stable) = success.
Hypothesis NumpyArray_argsort_success :
  forall T data len ranges n ascending stable,
    fst (NumpyArray_argsort T data len ranges n ascending stable) = success.

Lemma array_sort_returns (T : dtype) (data : buffer) (len offset : Z)
    (starts parents : Index64) (outlength : Z) (ascending stable : bool) :
  returns (array_sort sorting_ranges_length sorting_ranges NumpyArray_sort T
             data len offset starts parents outlength ascending stable).
Proof.
  unfold array_sort. destruct (len =? 0); [eexists; reflexivity|].
  pose proof (sorting_ranges_length_success parents 0 (Index_length parents)
                outlength) as H1.
  destruct (sorting_ranges_length _ _ _ _) as [e1 n]. cbn [fst] in H1.
  subst e1. rewrite handle_error_success. cbn [bind].
  pose proof (sorting_ranges_success n parents 0 (Index_length parents)
                outlength) as H2.
  destruct (sorting_ranges _ _ _ _ _) as [e2 r]. cbn [fst] in H2.
  subst e2. rewrite handle_error_success. cbn [bind].
  pose proof (NumpyArray_sort_success T data len r n (Index_length parents)
                ascending stable) as H3.
  destruct (NumpyArray_sort _ _ _ _ _ _ _ _) as [e3 p]. cbn [fst] in H3.
  subst e3. rewrite handle_error_success. cbn [bind].
  eexists; reflexivity.
Qed.

Lemma index_sort_returns (T : dtype) (data : buffer) (len offset : Z)
    (starts parents : Index64) (outlength : Z) (ascending stable : bool) :
  returns (index_sort sorting_ranges_length sorting_ranges NumpyArray_argsort
             T data len offset starts parents outlength ascending stable).
Proof.
  unfold index_sort. destruct (len =? 0); [eexists; reflexivity|].
  pose proof (sorting_ranges_length_success parents 0 (Index_length parents)
                outlength) as H1.
  destruct (sorting_ranges_length _ _ _ _) as [e1 n]. cbn [fst] in H1.
  subst e1. rewrite handle_error_success. cbn [bind].
  pose proof (sorting_ranges_success n parents 0 (Index_length parents)
                outlength) as H2.
  destruct (sorting_ranges _ _ _ _ _) as [e2 r]. cbn [fst] in H2.
  subst e2. rewrite handle_error_success. cbn [bind].
  pose proof (NumpyArray_argsort_success T data len r n ascending stable)
    as H3.
  destruct (NumpyArray_argsort _ _ _ _ _ _ _) as [e3 p]. cbn [fst] in H3.
  subst e3. rewrite handle_error_success. cbn [bind].
  eexists; reflexivity.
Qed.

Lemma sort_leaf (fuel : nat) (self : NumpyArray) (negaxis : Z)
    (starts parents : Index64) (outlength : Z)
    (ascending stable keepdims : bool) (n : Z) :
  shape_ self = [n] -> strides_ self = [itemsize_ self] ->
  unimplemented (dtype_ self) = false -> dtype_ self <> NOT_PRIMITIVE ->
  let wrap c :=
    if keepdims
    then CRegularArray None ∅ c
           (Z.quot (Index_length parents) (Index_length starts))
    else c in
  (exists ptr,
     sort_next_fuel' (S fuel) self negaxis starts parents outlength ascending
       stable keepdims
     = Returned (wrap (CNumpyArray
         (Build_NumpyArray None (parameters_ self) ptr [n] [itemsize_ self] 0
            (itemsize_ self) (format_ self) (dtype_ self)
            kernel.cpu_kernels))))
  /\ (exists ptr,
        argsort_next_fuel' (S fuel) self negaxis starts parents outlength
          ascending stable keepdims
        = Returned (wrap (CNumpyArray
            (Build_NumpyArray None ∅ ptr [n] [8] 0 8 (dtype_to_format int64)
               int64 kernel.cpu_kernels)))).
Proof.
  intros Hshape Hstrides Hun Hprim wrap. subst wrap. cbv beta.
  assert (Hc : iscontiguous self = true).
  { unfold iscontiguous. rewrite Hshape, Hstrides.
    cbn [length iscontiguous_loop]. unfold vec_at. cbn [nth].
    rewrite Z.eqb_refl. reflexivity. }
  cbn [sort_next_fuel argsort_next_fuel].
  rewrite Hc, Hshape, Hstrides. cbn [length Nat.eqb negb orb].
  split.
  - assert (Hp : exists ptr,
              match dtype_ self with
              | boolean | int8 | int16 | int32 | int64
              | uint8 | uint16 | uint32 | uint64 | float32 | float64 =>
                  array_sort sorting_ranges_length sorting_ranges
                    NumpyArray_sort (dtype_ self) (ptr_ self)
                    (NumpyArray_length self)
                    (Z.quot (byteoffset_ self) (itemsize_ self)) starts
                    parents outlength ascending stable
              | float16 =>
                  Thrown (runtime_error
                            "FIXME: sort for float16 not implemented")
              | float128 =>
                  Thrown (runtime_error
                            "FIXME: sort for float128 not implemented")
              | complex64 =>
                  Thrown (runtime_error
                            "FIXME: sort for complex64 not implemented")
              | complex128 =>
                  Thrown (runtime_error
                            "FIXME: sort for complex128 not implemented")
              | complex256 =>
                  Thrown (runtime_error
                            "FIXME: sort for complex256 not implemented")
              | NOT_PRIMITIVE =>
                  Thrown (invalid_argument
                    ("cannot sort NumpyArray with format " ++ dquote
                     ++ format_ self ++ dquote))
              end = Returned ptr).
    { destruct (dtype_ self) eqn:Hdt; try discriminate Hun;
        try congruence; apply array_sort_returns. }
    destruct Hp as [ptr ->]. cbn [bind].
    rewrite NumpyArray_make_agree by reflexivity. cbn [bind]. eauto.
  - assert (Hp : exists ptr,
              match dtype_ self with
              | boolean | int8 | int16 | int32 | int64
              | uint8 | uint16 | uint32 | uint64 | float32 | float64 =>
                  index_sort sorting_ranges_length sorting_ranges
                    NumpyArray_argsort (dtype_ self) (ptr_ self)
                    (NumpyArray_length self)
                    (Z.quot (byteoffset_ self) (itemsize_ self)) starts
                    parents outlength ascending stable
              | float16 =>
                  Thrown (runtime_error
                            "FIXME: argsort for float16 not implemented")
              | float128 =>
                  Thrown (runtime_error
                            "FIXME: argsort for float128 not implemented")
              | complex64 =>
                  Thrown (runtime_error
                            "FIXME: argsort for complex64 not implemented")
              | complex128 =>
                  Thrown (runtime_error
                            "FIXME: argsort for complex128 not implemented")
              | complex256 =>
                  Thrown (runtime_error
                            "FIXME: argsort for complex256 not implemented")
              | NOT_PRIMITIVE =>
                  Thrown (invalid_argument
                    ("cannot sort NumpyArray with format " ++ dquote
                     ++ format_ self ++ dquote))
              end = Returned ptr).
    { destruct (dtype_ self) eqn:Hdt; try discriminate Hun;
        try congruence; apply index_sort_returns. }
    destruct Hp as [ptr ->]. cbn [bind].
    rewrite NumpyArray_make_agree by reflexivity. cbn [bind]. eauto.
Qed.

(** X19.  On a one-dimensional array of a type that the sorting kernels
    take, packed or not, and with kernels that succeed, [sort_next] returns
    a packed array of the same length, type and parameters, and
    [argsort_next] a packed [int64] array of the same length that has no
    parameters; neither result has identities, and with [keepdims] each is
    inside one regular node. *)
Theorem sort_and_argsort_flat (self : NumpyArray) (negaxis : Z)
    (starts parents : Index64) (outlength : Z)
    (ascending stable keepdims : bool) (n : Z) :
  shape_strides_agree self -> shape_ self = [n] ->
  unimplemented (dtype_ self) = false -> dtype_ self <> NOT_PRIMITIVE ->
  let wrap c :=
    if keepdims
    then CRegularArray None ∅ c
           (Z.quot (Index_length parents) (Index_length starts))
    else c in
  (exists ptr,
     sort_next sorting_ranges_length sorting_ranges NumpyArray_sort self
       negaxis starts parents outlength ascending stable keepdims
     = Returned (wrap (CNumpyArray
         (Build_NumpyArray None (parameters_ self) ptr [n] [itemsize_ self] 0
            (itemsize_ self) (format_ self) (dtype_ self)
            kernel.cpu_kernels))))
  /\ (exists ptr,
        argsort_next sorting_ranges_length sorting_ranges NumpyArray_argsort
          self negaxis starts parents outlength ascending stable keepdims
        = Returned (wrap (CNumpyArray
            (Build_NumpyArray None ∅ ptr [n] [8] 0 8 (dtype_to_format int64)
               int64 kernel.cpu_kernels)))).
Proof.
  intros Hwf Hshape Hun Hprim wrap.
  destruct (iscontiguous self) eqn:Hc.
  - apply sort_leaf; try assumption.
    apply iscontiguous_packed in Hc; [|exact Hwf].
    rewrite Hc, Hshape. cbn. rewrite product_nil. f_equal. lia.
  - destruct (toRegularArray_flat self n Hwf Hshape)
      as (flat & Hflat & Hsh & Hst & Hps & Hisz & Hfmt & Hdt & _).
    unfold sort_next, argsort_next.
    cbn [sort_next_fuel argsort_next_fuel].
    rewrite Hshape, Hc. cbn [length Nat.eqb negb orb].
    rewrite Hflat. cbn [bind].
    destruct (sort_leaf 0 flat negaxis starts parents outlength ascending
                stable keepdims n) as (H1 & H2);
      [exact Hsh|congruence|congruence|congruence|].
    rewrite Hps, Hisz, Hfmt, Hdt in H1. split; assumption.
Qed.

End element_types.

Lemma unimplemented_types_throw_witness :
  (exists w,
     sort_next one_range_length one_range keep_order
       (Build_NumpyArray None ∅ (bytes_upto 8) [3] [2] 0 2 "e" float16
          kernel.cpu_kernels)
       1 [0] [0; 0; 0] 1 true true false
     = Thrown (runtime_error w))
  /\ (exists w,
        copy_to same_bytes
          (Build_NumpyArray None ∅ (bytes_upto 8) [3] [2] 0 2 "e" float16
             kernel.cpu_kernels)
          kernel.cuda_kernels
        = Thrown (runtime_error w)).
Proof.
  destruct (unimplemented_types_throw one_range_length one_range keep_order
              positions_in_order same_bytes
              (Build_NumpyArray None ∅ (bytes_upto 8) [3] [2] 0 2 "e" float16
                 kernel.cpu_kernels)
              zero_reducer 1 [0] [0; 0; 0] 1 false true true false)
    as (Hflat & Hcopy).
  - reflexivity.
  - split.
    + destruct Hflat as (_ & H & _); [reflexivity|reflexivity|exact H].
    + apply Hcopy. reflexivity.
Defined.

Lemma sort_and_argsort_flat_witness :
  exists ptr,
    argsort_next one_range_length one_range positions_in_order
      (int16_view [3] [4] 0) 1 [0] [0; 0; 0] 1 true true false
    = Returned (CNumpyArray
        (Build_NumpyArray None ∅ ptr [3] [8] 0 8 (dtype_to_format int64)
           int64 kernel.cpu_kernels)).
Proof.
  destruct (sort_and_argsort_flat one_range_length one_range keep_order
              positions_in_order
              ltac:(intros; reflexivity) ltac:(intros; reflexivity)
              ltac:(intros; reflexivity) ltac:(intros; reflexivity)
              (int16_view [3] [4] 0) 1 [0] [0; 0; 0] 1 true true false 3)
    as (_ & H).
  - reflexivity.
  - reflexivity.
  - reflexivity.
  - discriminate.
  - exact H.
Defined.

(** ** Gathering items and moving between backends *)

Lemma flat_map_comp {A B C} (f : B -> list C) (g : A -> B) (l : list A) :
  flat_map (fun x => f (g x)) l = flat_map f (map g l).
Proof. induction l as [|a l IH]; simpl; [reflexivity|]. rewrite IH. reflexivity. Qed.

(** X20.  [carry] on a packed array without identities returns an array
    with one item for each entry of the carry, and item [i] of the result
    is a copy of the item of the array that entry [i] of the carry names:
    every element inside it reads the same bytes. *)
Theorem carry_gathers (self : NumpyArray) (c : Index64) (allow_lazy : bool) :
  shape_strides_agree self -> 1 <= ndim self -> iscontiguous self = true ->
  identities_ self = None ->
  exists out,
    carry self c allow_lazy = Returned out
    /\ shape_ out = Index_length c :: drop 1 (shape_ self)
    /\ forall (i : nat) (p : Z) (idx : list Z),
         c !! i = Some p -> index_in_range idx (drop 1 (shape_ self)) ->
         element_at out (Z.of_nat i :: idx) = element_at self (p :: idx).
Proof.
  intros Hwf Hnd Hc Hids.
  apply iscontiguous_packed in Hc; [|exact Hwf].
  unfold carry, kernel.NumpyArray_getitem_next_null_64.
  rewrite take_Index_length, handle_error_success, Hids. cbn [bind].
  unfold ndim in Hnd.
  destruct (shape_ self) as [|s0 rest] eqn:Hshape; [simpl in Hnd; lia|].
  rewrite NumpyArray_make_agree
    by (unfold shape_strides_agree in Hwf; rewrite <- Hwf, Hshape;
        reflexivity).
  cbn [bind]. eexists; split; [reflexivity|].
  cbn [shape_ skipn]. split; [reflexivity|].
  intros i p idx Hi Hidx. rewrite drop_0 in Hidx.
  unfold element_at. cbn [ptr_ byteoffset_ strides_ itemsize_].
  rewrite !element_offset_cons. rewrite Hc. cbn [packed_strides skipn].
  rewrite ?drop_0. unfold vec_at at 1 2 3. cbn [nth].
  destruct (Z.le_gt_cases (itemsize_ self) 0) as [Hsz|Hsz].
  { rewrite !read_bytes_nonpositive by exact Hsz. reflexivity. }
  destruct (element_offset_packed_bound (itemsize_ self) idx rest)
    as [Hlo Hhi]; [lia|exact Hidx|].
  set (stride := itemsize_ self * product rest) in *.
  set (off := element_offset idx (packed_strides (itemsize_ self) rest)) in *.
  rewrite (flat_map_comp
             (fun q => read_bytes (ptr_ self) (byteoffset_ self + q) stride)
             (fun p => p * stride) c).
  replace (0 + (Z.of_nat i * stride + off))
    with (Z.of_nat i * stride + off) by lia.
  rewrite (read_gathered (ptr_ self) (byteoffset_ self) stride
             (map (fun p => p * stride) c) i (p * stride) off
             (itemsize_ self)).
  - f_equal. unfold vec_at. cbn [nth]. lia.
  - rewrite list_lookup_fmap, Hi. reflexivity.
  - exact Hlo.
  - exact Hhi.
Qed.

Lemma carry_gathers_witness :
  exists out,
    carry (int16_view [3; 2] [4; 2] 0) [2; 0] false = Returned out
    /\ shape_ out = [2; 2]
    /\ element_at out [0; 1] = element_at (int16_view [3; 2] [4; 2] 0) [2; 1].
Proof.
  destruct (carry_gathers (int16_view [3; 2] [4; 2] 0) [2; 0] false)
    as (out & Hout & Hshape & Helem).
  - reflexivity.
  - unfold ndim; simpl; lia.
  - reflexivity.
  - reflexivity.
  - exists out. split; [exact Hout|]. split; [exact Hshape|].
    apply (Helem 0%nat 2 [1]).
    + reflexivity.
    + repeat constructor; lia.
Defined.

Section copy_to_properties.

Variable kernel_copy_to :
  dtype -> kernel.Lib -> kernel.Lib -> buffer -> Z -> Error * buffer.

(** X21.  [copy_to] the backend that holds the array returns the array as
    it is.  [copy_to] another backend, for a type that the copy is written
    for and a copy that succeeds, returns an array on that backend over the
    memory that the kernel filled, having been asked for as many elements
    as the shape counts; identities, parameters, shape, strides, byte
    offset, item size, format and type are those of the array. *)
Theorem copy_to_backend (self : NumpyArray) (ptr_lib : kernel.Lib) :
  shape_strides_agree self ->
  (ptr_lib = ptr_lib_ self ->
   copy_to kernel_copy_to self ptr_lib = Returned self)
  /\ (ptr_lib <> ptr_lib_ self ->
      unimplemented (dtype_ self) = false ->
      dtype_ self <> NOT_PRIMITIVE ->
      fst (kernel_copy_to (dtype_ self) ptr_lib (ptr_lib_ self) (ptr_ self)
             (product (shape_ self))) = success ->
      copy_to kernel_copy_to self ptr_lib
      = Returned
          (Build_NumpyArray (identities_ self) (parameters_ self)
             (snd (kernel_copy_to (dtype_ self) ptr_lib (ptr_lib_ self)
                     (ptr_ self) (product (shape_ self))))
             (shape_ self) (strides_ self) (byteoffset_ self)
             (itemsize_ self) (format_ self) (dtype_ self) ptr_lib)).
Proof.
  intros Hwf. unfold copy_to. split.
  - intros ->.
    replace (Lib_eqb (ptr_lib_ self) (ptr_lib_ self)) with true
      by (destruct (ptr_lib_ self); reflexivity).
    unfold NumpyArray_new. unfold shape_strides_agree in Hwf.
    rewrite Hwf, Nat.eqb_refl. cbn [negb]. destruct self; reflexivity.
  - intros Hlib Hun Hprim Hok.
    replace (Lib_eqb (ptr_lib_ self) ptr_lib) with false
      by (destruct (ptr_lib_ self), ptr_lib; try reflexivity; congruence).
    rewrite fold_left_product, Z.mul_1_l.
    destruct (kernel_copy_to _ _ _ _ _) as [err ptr].
    cbn [fst] in Hok. subst err. cbn [snd].
    replace (handle_error success "" false) with (Returned (A:=unit) tt)
      by reflexivity.
    unfold NumpyArray_new. unfold shape_strides_agree in Hwf.
    rewrite Hwf, Nat.eqb_refl. cbn [negb].
    destruct (dtype_ self); try discriminate Hun; try congruence;
      reflexivity.
Qed.

End copy_to_properties.

Lemma copy_to_backend_witness :
  copy_to same_bytes (int16_view [3; 2] [4; 2] 0) kernel.cuda_kernels
  = Returned
      (Build_NumpyArray None ∅ (bytes_upto 64) [3; 2] [4; 2] 0 2 "h" int16
         kernel.cuda_kernels).
Proof.
  destruct (copy_to_backend same_bytes (int16_view [3; 2] [4; 2] 0)
              kernel.cuda_kernels) as [_ H].
  - reflexivity.
  - apply H.
    + discriminate.
    + reflexivity.
    + discriminate.
    + reflexivity.
Defined.

(** ** Slices that name fields *)

Lemma bind_answer {A B} (m : outcome A) (k : A -> outcome B)
    (Q : A -> Prop) (P : Prop) :
  match m with Returned a => Q a | Delegated _ => False | _ => True end ->
  (forall a, Q a ->
     match k a with Returned _ => P | Delegated _ => False | _ => True end) ->
  match bind m k with
  | Returned _ => P | Delegated _ => False | _ => True
  end.
Proof.
  destruct m as [a|e|s|]; cbn [bind]; intros HQ Hk;
    [apply Hk, HQ|exact I|exact HQ|exact I].
Qed.

Lemma handle_error_answer (err : Error) (cls : string) (ids : bool) :
  match handle_error err cls ids with
  | Returned _ => True | Delegated _ => False | _ => True
  end.
Proof. unfold handle_error. destruct (common.str err); exact I. Qed.

Lemma NumpyArray_make_answer ids ps ptr shape strides off isz fmt dt :
  match NumpyArray_make ids ps ptr shape strides off isz fmt dt with
  | Returned _ => True | Delegated _ => False | _ => True
  end.
Proof.
  unfold NumpyArray_make, NumpyArray_new. destruct (negb _); exact I.
Qed.

Lemma too_many_dimensions_answer (self : NumpyArray) :
  match too_many_dimensions self with
  | Returned _ => True | Delegated _ => False | _ => True
  end.
Proof.
  unfold too_many_dimensions.
  destruct (_ <? _); [apply handle_error_answer|exact I].
Qed.

(** A by-strides resolution answers slices of basic items only, and it
    hands nothing over. *)
Lemma getitem_bystrides_answer (fuel : nat) (self : NumpyArray)
    (items : Slice.t) (len : Z) :
  match getitem_bystrides fuel self (Slice.head items) (Slice.tail items)
          len with
  | Returned _ => forallb basic_item items = true
  | Delegated _ => False
  | _ => True
  end.
Proof.
  revert self items len.
  induction fuel as [|fuel IH]; intros self items len; [exact I|].
  destruct items as [|x rest].
  - unfold Slice.head, Slice.tail. cbn [head skipn].
    rewrite getitem_bystrides_null.
    pose proof (NumpyArray_make_answer (identities_ self) (parameters_ self)
                  (ptr_ self) (shape_ self) (strides_ self)
                  (byteoffset_ self) (itemsize_ self) (format_ self)
                  (dtype_ self)) as H.
    destruct (NumpyArray_make _ _ _ _ _ _ _ _ _); auto.
  - unfold Slice.head at 1, Slice.tail at 1. cbn [head skipn].
    rewrite ?drop_0. cbn [forallb].
    destruct x as [at_|start stop step| | | | | | |]; try exact I.
    + rewrite (proj1 (getitem_bystrides_item _ _ _ _)).
      unfold getitem_bystrides_at. cbn [basic_item andb].
      apply (bind_answer _ _ (fun _ => True));
        [apply too_many_dimensions_answer|intros _ _].
      apply (bind_answer _ _ (fun _ => True)).
      { destruct (_ || _); [apply handle_error_answer|exact I]. }
      intros _ _.
      apply (bind_answer _ _ (fun _ => True));
        [apply NumpyArray_make_answer|intros next _].
      apply (bind_answer _ _ (fun _ => forallb basic_item rest = true));
        [apply IH|intros out Hrest].
      pose proof (NumpyArray_make_answer (identities_ out) (parameters_ out)
                    (ptr_ out) (len :: drop 1 (shape_ out)) (strides_ out)
                    (byteoffset_ out) (itemsize_ self) (format_ self)
                    (dtype_ self)) as H.
      destruct (NumpyArray_make _ _ _ _ _ _ _ _ _); auto.
    + rewrite (proj1 (proj2 (getitem_bystrides_item _ _ _ _))).
      unfold getitem_bystrides_range. cbn [basic_item andb].
      apply (bind_answer _ _ (fun _ => True));
        [apply too_many_dimensions_answer|intros _ _].
      destruct (kernel.regularize_rangeslice _ _ _ _ _ _) as [a b].
      apply (bind_answer _ _ (fun _ => True));
        [apply NumpyArray_make_answer|intros next _].
      apply (bind_answer _ _ (fun _ => forallb basic_item rest = true));
        [apply IH|intros out Hrest].
      match goal with
      | |- context [NumpyArray_make ?a ?b ?c ?d ?e ?f ?g ?h ?i] =>
          pose proof (NumpyArray_make_answer a b c d e f g h i) as H;
          destruct (NumpyArray_make a b c d e f g h i); auto
      end.
    + rewrite (proj1 (proj2 (proj2 (getitem_bystrides_item _ _ _ _)))).
      unfold getitem_bystrides_ellipsis. cbn [basic_item andb].
      destruct (_ || _).
      * apply IH.
      * specialize (IH self
                      (SliceRange Slice.none Slice.none 1
                       :: SliceEllipsis :: rest) len).
        unfold Slice.head at 1, Slice.tail at 1 in IH.
        cbn [head skipn] in IH. rewrite ?drop_0 in IH.
        destruct (getitem_bystrides fuel self _ _ len); auto.
    + rewrite (proj2 (proj2 (proj2 (getitem_bystrides_item _ _ _ _)))).
      unfold getitem_bystrides_newaxis. cbn [basic_item andb].
      apply (bind_answer _ _ (fun _ => forallb basic_item rest = true));
        [apply IH|intros out Hrest].
      match goal with
      | |- context [NumpyArray_make ?a ?b ?c ?d ?e ?f ?g ?h ?i] =>
          pose proof (NumpyArray_make_answer a b c d e f g h i) as H;
          destruct (NumpyArray_make a b c d e f g h i); auto
      end.
Qed.

(** X22.  An array has no fields.  The requests for one field and for
    several throw an invalid argument, and a slice without array items
    that holds anything but indices, ranges, ellipses and new axes, such as
    the name of a field, makes [getitem] throw on an array without
    identities. *)
Theorem field_in_slice_throws (self : NumpyArray) (where_ : Slice.t) :
  (shape_strides_agree self -> 1 <= ndim self -> identities_ self = None ->
   Slice.isadvanced where_ = false ->
   getitem_too_general (Slice.head where_) (Slice.tail where_) = false ->
   forallb basic_item where_ = false ->
   exists e, getitem self where_ = Thrown e)
  /\ (forall key, exists w,
        getitem_field self key = Thrown (invalid_argument w))
  /\ (forall keys, exists w,
        getitem_fields self keys = Thrown (invalid_argument w)).
Proof.
  split; [|split; intros; eexists; reflexivity].
  intros Hwf Hnd Hids Hadv Hgen Hbasic.
  pose proof (getitem_finished self where_ Hwf) as Hfin.
  rewrite getitem_bystrides_branch in * by assumption. cbv zeta in *.
  match goal with
  | |- context [getitem_bystrides ?f ?n (Slice.head where_)
                  (Slice.tail where_) 1] =>
      pose proof (getitem_bystrides_answer f n where_ 1) as Hans;
      destruct (getitem_bystrides f n (Slice.head where_)
                  (Slice.tail where_) 1) as [out|e| |]
  end.
  - congruence.
  - cbn [bind]. eauto.
  - contradiction.
  - cbn [bind] in Hfin. congruence.
Qed.

Lemma field_in_slice_throws_witness :
  exists e,
    getitem (int16_view [3; 2] [4; 2] 0) [SliceAt 1; SliceField "x"]
    = Thrown e.
Proof.
  destruct (field_in_slice_throws (int16_view [3; 2] [4; 2] 0)
              [SliceAt 1; SliceField "x"]) as [H _].
  apply H.
  - reflexivity.
  - unfold ndim; simpl; lia.
  - reflexivity.
  - reflexivity.
  - reflexivity.
  - reflexivity.
Defined.

(** ** What a merge holds *)

Lemma store_length (b : buffer) (pos : Z) (bs : list Byte.byte) :
  0 <= pos -> (Z.to_nat pos + length bs <= length b)%nat ->
  length (store b pos bs) = length b.
Proof.
  intros Hpos Hend. unfold store.
  rewrite !length_app, length_take, length_drop. lia.
Qed.

Lemma getbyte_store_in (b : buffer) (pos : Z) (bs : list Byte.byte)
    (k : nat) :
  0 <= pos -> (Z.to_nat pos + length bs <= length b)%nat -> (k < length bs)%nat ->
  getbyte_raw (store b pos bs) (pos + Z.of_nat k) = nth k bs Byte.x00.
Proof.
  intros Hpos Hend Hk. unfold getbyte_raw, store.
  replace (pos + Z.of_nat k <? 0) with false by lia.
  rewrite app_nth2 by (rewrite length_take; lia).
  rewrite length_take.
  replace (Z.to_nat (pos + Z.of_nat k) - Z.to_nat pos `min` length b)%nat
    with k by lia.
  apply app_nth1. exact Hk.
Qed.

Lemma getbyte_store_out (b : buffer) (pos : Z) (bs : list Byte.byte)
    (q : Z) :
  0 <= pos -> (Z.to_nat pos + length bs <= length b)%nat ->
  q < pos \/ pos + Z.of_nat (length bs) <= q ->
  getbyte_raw (store b pos bs) q = getbyte_raw b q.
Proof.
  intros Hpos Hend Hq. unfold getbyte_raw, store.
  destruct (Z.ltb_spec q 0) as [|Hq0]; [reflexivity|].
  destruct Hq as [Hq|Hq].
  - rewrite app_nth1 by (rewrite length_take; lia).
    rewrite !nth_lookup, lookup_take_lt by lia. reflexivity.
  - rewrite app_nth2 by (rewrite length_take; lia).
    rewrite app_nth2 by (rewrite length_take; lia).
    rewrite length_take. rewrite !nth_lookup, lookup_drop.
    do 2 f_equal. lia.
Qed.

Lemma read_bytes_nth (b : buffer) (pos len : Z) (k : nat) :
  (k < Z.to_nat len)%nat ->
  nth k (read_bytes b pos len) Byte.x00 = getbyte_raw b (pos + Z.of_nat k).
Proof.
  intros Hk. rewrite nth_lookup, read_bytes_lookup by exact Hk. reflexivity.
Qed.

Lemma read_bytes_store_in (b : buffer) (pos : Z) (bs : list Byte.byte) :
  0 <= pos -> (Z.to_nat pos + length bs <= length b)%nat ->
  read_bytes (store b pos bs) pos (Z.of_nat (length bs)) = bs.
Proof.
  intros Hpos Hend. apply (nth_ext _ _ Byte.x00 Byte.x00).
  - rewrite read_bytes_length. lia.
  - intros k Hk. rewrite read_bytes_length in Hk.
    rewrite read_bytes_nth by exact Hk.
    apply getbyte_store_in; lia.
Qed.

Section merge_elements.

Variable cast : dtype -> dtype -> list Byte.byte -> list Byte.byte.

(** The bytes of the elements that a fill has converted so far, and the
    bytes it has left alone. *)
Lemma NumpyArray_fill_spec (FROM TO : dtype) (toptr : buffer) (tooffset : Z)
    (fromptr : buffer) (fromoffset : Z) (n : nat) :
  (forall bs, length bs = Z.to_nat (dtype_to_itemsize FROM) ->
     length (cast FROM TO bs) = Z.to_nat (dtype_to_itemsize TO)) ->
  0 <= tooffset -> 0 < dtype_to_itemsize TO ->
  (tooffset + Z.of_nat n) * dtype_to_itemsize TO <= Z.of_nat (length toptr) ->
  let r := snd (NumpyArray_fill cast FROM TO toptr tooffset fromptr
                  fromoffset (Z.of_nat n)) in
  length r = length toptr
  /\ (forall j : nat, (j < n)%nat ->
        read_bytes r ((tooffset + Z.of_nat j) * dtype_to_itemsize TO)
          (dtype_to_itemsize TO)
        = cast FROM TO
            (read_bytes fromptr
               ((fromoffset + Z.of_nat j) * dtype_to_itemsize FROM)
               (dtype_to_itemsize FROM)))
  /\ (forall q,
        q < tooffset * dtype_to_itemsize TO
        \/ (tooffset + Z.of_nat n) * dtype_to_itemsize TO <= q ->
        getbyte_raw r q = getbyte_raw toptr q).
Proof.
  intros Hcast Hto Hsz. unfold NumpyArray_fill. cbn [snd].
  rewrite Nat2Z.id.
  set (sz := dtype_to_itemsize TO) in *.
  set (step := fun (buf : buffer) (i : nat) =>
                 store buf ((tooffset + Z.of_nat i) * sz)
                   (cast FROM TO
                      (read_bytes fromptr
                         ((fromoffset + Z.of_nat i) * dtype_to_itemsize FROM)
                         (dtype_to_itemsize FROM)))).
  induction n as [|n IH]; intros Hend.
  - cbn. split; [reflexivity|]. split; [intros; lia|reflexivity].
  - rewrite seq_S, fold_left_app. cbn [fold_left Nat.add].
    destruct IH as (Hlen & Hin & Hout); [nia|].
    set (r := fold_left step (seq 0 n) toptr) in *.
    assert (Hbs : length (cast FROM TO
                    (read_bytes fromptr
                       ((fromoffset + Z.of_nat n) * dtype_to_itemsize FROM)
                       (dtype_to_itemsize FROM))) = Z.to_nat sz).
    { apply Hcast. apply read_bytes_length. }
    assert (Hfit : (Z.to_nat ((tooffset + Z.of_nat n) * sz)
                    + Z.to_nat sz <= length r)%nat) by (rewrite Hlen; nia).
    unfold step. split; [|split].
    + rewrite store_length; [exact Hlen|nia|rewrite Hbs; lia].
    + intros j Hj. destruct (Nat.eq_dec j n) as [->|Hne].
      * match goal with
        | |- read_bytes (store _ ?pos ?bs) _ _ = _ =>
            pose proof (read_bytes_store_in r pos bs ltac:(nia)
                          ltac:(rewrite Hbs; lia)) as Hr
        end.
        rewrite Hbs in Hr.
        replace (Z.of_nat (Z.to_nat sz)) with sz in Hr by lia. exact Hr.
      * rewrite <- (Hin j) by lia. apply read_bytes_ext. intros k Hk.
        apply getbyte_store_out; [nia|rewrite Hbs; lia|]. left. nia.
    + intros q Hq. rewrite getbyte_store_out; [|nia|rewrite Hbs; lia|].
      * apply Hout. destruct Hq; [left; assumption|right; nia].
      * rewrite Hbs. destruct Hq; [left; nia|right; nia].
Qed.

Lemma merge_fill_fills (d a b : dtype) (ptr sp : buffer) (so sl : Z)
    (op : buffer) (oo ol : Z) :
  a <> NOT_PRIMITIVE -> b <> NOT_PRIMITIVE ->
  merge_dtype a b = Some d -> merge_fill_implemented d a b = true ->
  merge_fill cast d a b ptr sp so sl op oo ol
  = Returned
      (snd (NumpyArray_fill cast b d
              (snd (NumpyArray_fill cast a d ptr 0 sp so sl)) sl op oo ol)).
Proof.
  intros Ha Hb Hd Himpl.
  destruct a; try congruence; destruct b; try congruence;
    vm_compute in Hd; try discriminate Hd;
    injection Hd as <-; try discriminate Himpl; reflexivity.
Qed.

Lemma merge_fill_implemented_itemsize (d a b : dtype) :
  merge_dtype a b = Some d -> merge_fill_implemented d a b = true ->
  0 < dtype_to_itemsize d.
Proof.
  intros _ H. destruct d; try discriminate H; reflexivity.
Qed.

Lemma contiguous_byteoffset_cases (self c : NumpyArray) :
  contiguous self = Returned c ->
  byteoffset_ c = byteoffset_ self \/ byteoffset_ c = 0.
Proof.
  unfold contiguous. destruct (iscontiguous self) eqn:Hc.
  - intros H. apply NumpyArray_make_inv in H as [_ ->]. left. reflexivity.
  - unfold kernel.NumpyArray_contiguous_init_64.
    rewrite handle_error_success. cbn [bind]. intros H.
    right. eapply contiguous_next_byteoffset, H.
Qed.

Lemma flat_element_read (c : NumpyArray) (n j : Z) :
  shape_ c = [n] -> strides_ c = packed_strides (itemsize_ c) (shape_ c) ->
  Z.rem (byteoffset_ c) (itemsize_ c) = 0 ->
  element_at c [j]
  = read_bytes (ptr_ c)
      ((Z.quot (byteoffset_ c) (itemsize_ c) + j) * itemsize_ c)
      (itemsize_ c).
Proof.
  intros Hshape Hstrides Hrem. unfold element_at.
  rewrite Hstrides, Hshape. cbn [packed_strides element_offset].
  rewrite product_nil. f_equal.
  pose proof (Z.quot_rem' (byteoffset_ c) (itemsize_ c)) as Hq. lia.
Qed.

(** X23.  The general path of [merge] concatenates.  For two
    one-dimensional arrays of primitive types whose bytes the views read at
    whole elements, and a conversion that writes elements of the merged
    type, the result has the elements of the left operand, converted, and
    after them the elements of the right operand, converted. *)
Theorem merge_concatenates (self other : NumpyArray) (n1 n2 : Z)
    (d : dtype) :
  shape_strides_agree self -> shape_strides_agree other ->
  shape_ self = [n1] -> shape_ other = [n2] -> 0 <= n1 -> 0 <= n2 ->
  parameters_equal (parameters_ self) (parameters_ other) = true ->
  merge_bytes_applies self other = false ->
  dtype_ self <> NOT_PRIMITIVE -> dtype_ other <> NOT_PRIMITIVE ->
  itemsize_ self = dtype_to_itemsize (dtype_ self) ->
  itemsize_ other = dtype_to_itemsize (dtype_ other) ->
  Z.rem (byteoffset_ self) (itemsize_ self) = 0 ->
  Z.rem (byteoffset_ other) (itemsize_ other) = 0 ->
  merge_dtype (dtype_ self) (dtype_ other) = Some d ->
  merge_fill_implemented d (dtype_ self) (dtype_ other) = true ->
  (forall bs, length bs = Z.to_nat (dtype_to_itemsize (dtype_ self)) ->
     length (cast (dtype_ self) d bs) = Z.to_nat (dtype_to_itemsize d)) ->
  (forall bs, length bs = Z.to_nat (dtype_to_itemsize (dtype_ other)) ->
     length (cast (dtype_ other) d bs) = Z.to_nat (dtype_to_itemsize d)) ->
  exists out,
    merge cast self (CNumpyArray other) = Returned (CNumpyArray out)
    /\ shape_ out = [n1 + n2] /\ dtype_ out = d
    /\ (forall j, 0 <= j < n1 ->
          element_at out [j] = cast (dtype_ self) d (element_at self [j]))
    /\ (forall j, 0 <= j < n2 ->
          element_at out [n1 + j]
          = cast (dtype_ other) d (element_at other [j])).
Proof.
  intros Hs Ho Hss Hso Hn1 Hn2 Hps Hfast Hds Hdo Hiss Hiso Hrs Hro Hd Himpl
    Hcs Hco.
  rewrite merge_numpy_equal_parameters, Hps.
  destruct (contiguous_spec self Hs)
    as (cs & Hconts & _ & _ & _ & Hcss & Hcsst & Hcsi & Hcsd & _ & Hcse).
  destruct (contiguous_spec other Ho)
    as (co & Hconto & _ & _ & _ & Hcos & Hcost & Hcoi & Hcod & _ & Hcoe).
  assert (Hslow : forall k : outcome Content,
            match
              (if is_bytestring (parameters_ self)
                  && is_bytestring (parameters_ other)
               then if (ndim self =? 1) && (ndim other =? 1)
                       && (itemsize_ self =? 1) && (itemsize_ other =? 1)
                    then Some other else None
               else None)
            with
            | Some othernumpy => merge_bytes cast self othernumpy
            | None => k
            end = k).
  { intros k. unfold merge_bytes_applies in Hfast.
    destruct (is_bytestring (parameters_ self)),
      (is_bytestring (parameters_ other)), (ndim self =? 1),
      (ndim other =? 1), (itemsize_ self =? 1), (itemsize_ other =? 1);
      simpl in *; congruence. }
  assert (Hnds : ndim self = 1) by (unfold ndim; rewrite Hss; reflexivity).
  assert (Hndo : ndim other = 1) by (unfold ndim; rewrite Hso; reflexivity).
  unfold merge_flat.
  replace (ndim self =? 0) with false by (rewrite Hnds; reflexivity).
  cbn [Content_parameters]. cbv zeta. rewrite Hslow. rewrite Hconts.
  cbn [bind]. rewrite Hnds, Hndo. change (negb (1 =? 1)) with false.
  cbv iota.
  cbn [bind]. rewrite Hd. cbn [bind]. rewrite Hss, Hso.
  cbn [length Nat.sub merge_shape_loop bind]. rewrite Hconto. cbn [bind].
  unfold vec_at. cbn [nth].
  rewrite merge_fill_fills by assumption. cbn [bind].
  rewrite NumpyArray_make_agree by reflexivity. cbn [bind].
  eexists. split; [reflexivity|]. cbn [shape_ dtype_].
  split; [reflexivity|]. split; [reflexivity|].
  pose proof (merge_fill_implemented_itemsize _ _ _ Hd Himpl) as Hsz.
  set (sz := dtype_to_itemsize d) in *.
  set (buf := ptr_alloc (sz * (n1 + n2))).
  assert (Hbuf : Z.of_nat (length buf) = sz * (n1 + n2)).
  { unfold buf, ptr_alloc. rewrite length_replicate. nia. }
  rewrite Hcsi, Hcoi, Hiss, Hiso.
  destruct (NumpyArray_fill_spec (dtype_ self) d buf 0 (ptr_ cs)
              (Z.quot (byteoffset_ cs) (dtype_to_itemsize (dtype_ self)))
              (Z.to_nat n1) Hcs ltac:(lia) Hsz ltac:(fold sz; nia))
    as (Hlen1 & Hin1 & _).
  rewrite Z2Nat.id in Hlen1, Hin1 by lia.
  set (r1 := snd (NumpyArray_fill cast (dtype_ self) d buf 0 (ptr_ cs)
                    (Z.quot (byteoffset_ cs)
                       (dtype_to_itemsize (dtype_ self))) n1)) in *.
  destruct (NumpyArray_fill_spec (dtype_ other) d r1 n1 (ptr_ co)
              (Z.quot (byteoffset_ co) (dtype_to_itemsize (dtype_ other)))
              (Z.to_nat n2) Hco Hn1 Hsz
              ltac:(rewrite Hlen1; fold sz; nia))
    as (_ & Hin2 & Hout2).
  rewrite Z2Nat.id in Hin2, Hout2 by lia.
  set (r2 := snd (NumpyArray_fill cast (dtype_ other) d r1 n1 (ptr_ co)
                    (Z.quot (byteoffset_ co)
                       (dtype_to_itemsize (dtype_ other))) n2)) in *.
  assert (Hrcs : Z.rem (byteoffset_ cs) (itemsize_ cs) = 0).
  { destruct (contiguous_byteoffset_cases self cs Hconts) as [->| ->];
      [rewrite Hcsi; exact Hrs|apply Z.rem_0_l].
    rewrite Hcsi, Hiss. destruct (dtype_ self); try congruence; discriminate. }
  assert (Hrco : Z.rem (byteoffset_ co) (itemsize_ co) = 0).
  { destruct (contiguous_byteoffset_cases other co Hconto) as [->| ->];
      [rewrite Hcoi; exact Hro|apply Z.rem_0_l].
    rewrite Hcoi, Hiso. destruct (dtype_ other); try congruence;
      discriminate. }
  split.
  - intros j Hj. unfold element_at at 1.
    cbn [ptr_ byteoffset_ strides_ itemsize_ element_offset].
    rewrite <- (Hcse [j]) by (rewrite Hss; repeat constructor; lia).
    rewrite (flat_element_read cs n1 j);
      [|congruence|rewrite Hcss, Hcsi; exact Hcsst|exact Hrcs].
    rewrite Hcsi, Hiss.
    specialize (Hin1 (Z.to_nat j) ltac:(lia)).
    rewrite Z2Nat.id in Hin1 by lia. rewrite <- Hin1.
    apply read_bytes_ext. intros k Hk.
    replace (0 + (j * sz + 0) + Z.of_nat k)
      with ((0 + j) * sz + Z.of_nat k) by lia.
    apply Hout2. left. nia.
  - intros j Hj. unfold element_at at 1.
    cbn [ptr_ byteoffset_ strides_ itemsize_ element_offset].
    rewrite <- (Hcoe [j]) by (rewrite Hso; repeat constructor; lia).
    rewrite (flat_element_read co n2 j);
      [|congruence|rewrite Hcos, Hcoi; exact Hcost|exact Hrco].
    rewrite Hcoi, Hiso.
    specialize (Hin2 (Z.to_nat j) ltac:(lia)).
    rewrite Z2Nat.id in Hin2 by lia. rewrite <- Hin2.
    f_equal. lia.
Qed.

End merge_elements.

Lemma merge_concatenates_witness :
  exists out,
    merge no_cast (int16_view [2] [2] 0) (CNumpyArray (int16_view [3] [2] 4))
    = Returned (CNumpyArray out)
    /\ shape_ out = [5]
    /\ element_at out [1] = element_at (int16_view [2] [2] 0) [1]
    /\ element_at out [2] = element_at (int16_view [3] [2] 4) [0].
Proof.
  destruct (merge_concatenates no_cast (int16_view [2] [2] 0)
              (int16_view [3] [2] 4) 2 3 int16)
    as (out & Hout & Hshape & _ & Hleft & Hright);
    try reflexivity; try discriminate; try lia;
    try (intros bs Hbs; exact Hbs).
  exists out. split; [exact Hout|]. split; [exact Hshape|]. split.
  - apply (Hleft 1). lia.
  - apply (Hright 0). lia.
Defined.
